(** * Kech: waste-collection fleet back end and shipment tracker

    A shallow embedding of the algorithmic core of the two Go services of the
    repository:

    - [shipment_tracker]: the shipment state machine ([models.ValidTransitions],
      [Shipment.CanTransitionTo]) and the lifecycle operations of
      [services.ShipmentService] over the [shipments] and [state_transitions]
      tables and the NATS event bus;
    - [go_backend]: the MQTT telemetry intake ([mqtt.Client.processBinStatus]),
      the dispatch notification ([NotificationService.NotifyNearestDriver]) and
      the route optimizer ([RouteService.OptimizeRoute]).

    Conventions.  A Go [string] is a [string], a [uuid.UUID] a number, an [int]
    a [Z] (with the 64-bit wrap-around written out where arithmetic is done), a
    [float64] a primitive binary64 [float], a pointer field an [option], a Go
    [map] a [gmap].  A database is the content of its tables; a call that can
    fail for reasons outside the program (lost connection, broker down) takes
    the failure as an input.  A loop that the source does not bound is run on
    fuel, and [None] means "still running when the fuel ran out". *)

From Stdlib Require Import ZArith Floats String List Lia Bool Permutation.
From stdpp Require Import base option list gmap strings pretty.

Open Scope string_scope.
Open Scope Z_scope.

Set Default Proof Using "Type".

(* ===================================================================== *)
(** * Part I: the programs *)
(* ===================================================================== *)

(** ** Shared representations *)

(** [uuid.UUID]. *)
Abbreviation UUID := N.

(** [id.String()]: some text that names the id. *)
Definition uuid_String (id : UUID) : string := pretty id.

(** [time.Time], as seconds on some clock. *)
Abbreviation Timestamp := Z.

(** A Go [error] value.  [DBError] is an error handed up unchanged from the
    database driver or the broker, [Errorf] one built by [fmt.Errorf] without
    wrapping, and [Wrapf msg e] is [fmt.Errorf(msg + ": %w", e)]. *)
Inductive error : Type :=
| DBError (msg : string)
| Errorf (msg : string)
| Wrapf (msg : string) (cause : error).

(** ** shipment_tracker/internal/models *)

(** [type ShipmentStatus string] with its ten constants. *)
Abbreviation ShipmentStatus := string.

Definition StatusCreated : ShipmentStatus := "created".
Definition StatusPriceConfirmed : ShipmentStatus := "price_confirmed".
Definition StatusDriverAssigned : ShipmentStatus := "driver_assigned".
Definition StatusPickupStarted : ShipmentStatus := "pickup_started".
Definition StatusInTransit : ShipmentStatus := "in_transit".
Definition StatusDelivered : ShipmentStatus := "delivered".
Definition StatusCompleted : ShipmentStatus := "completed".
Definition StatusCancelled : ShipmentStatus := "cancelled".
Definition StatusDisputed : ShipmentStatus := "disputed".
Definition StatusResolved : ShipmentStatus := "resolved".

(** [var ValidTransitions = map[ShipmentStatus][]ShipmentStatus{...}]. *)
Definition ValidTransitions : gmap string (list string) :=
  <[StatusCreated := [StatusPriceConfirmed; StatusCancelled]]>
  (<[StatusPriceConfirmed := [StatusDriverAssigned; StatusCancelled]]>
  (<[StatusDriverAssigned := [StatusPickupStarted; StatusDisputed; StatusCancelled]]>
  (<[StatusPickupStarted := [StatusInTransit; StatusDisputed]]>
  (<[StatusInTransit := [StatusDelivered; StatusDisputed]]>
  (<[StatusDelivered := [StatusCompleted; StatusDisputed]]>
  (<[StatusDisputed := [StatusResolved]]>
  (<[StatusResolved := [StatusCompleted]]> ∅))))))).

(** [type Location struct]. *)
Module Location.
Record t : Type := mk {
  Latitude : float;
  Longitude : float;
  Address : string
}.
End Location.

(** [type Shipment struct]: one row of the [shipments] table. *)
Module Shipment.
Record t : Type := mk {
  ID : UUID;
  UserID : UUID;
  DriverID : option UUID;
  CollectionID : UUID;
  WasteType : string;
  EstimatedWeightKg : float;
  ActualWeightKg : option float;
  PriceOffered : float;
  PriceConfirmed : bool;
  ContractAddress : option string;
  ContractTxHash : option string;
  Status : ShipmentStatus;
  PickupLatitude : option float;
  PickupLongitude : option float;
  PickupAddress : option string;
  DropoffLatitude : option float;
  DropoffLongitude : option float;
  DropoffAddress : option string;
  Notes : option string;
  CreatedAt : Timestamp;
  UpdatedAt : Timestamp
}.

(** The range loop of [CanTransitionTo]: the first equal element returns true. *)
Fixpoint status_in (newStatus : ShipmentStatus) (validNextStates : list ShipmentStatus) : bool :=
  match validNextStates with
  | [] => false
  | validStatus :: rest =>
      if String.eqb validStatus newStatus then true else status_in newStatus rest
  end.

(** [func (s *Shipment) CanTransitionTo(newStatus ShipmentStatus) bool]. *)
Definition CanTransitionTo (s : t) (newStatus : ShipmentStatus) : bool :=
  match ValidTransitions !! Status s with
  | None => false
  | Some validNextStates => status_in newStatus validNextStates
  end.

(** [SET status = $1] on a row; the [update_shipments_updated_at] trigger of
    the schema refreshes [updated_at]. *)
Definition with_status (now : Timestamp) (st : ShipmentStatus) (s : t) : t :=
  mk (ID s) (UserID s) (DriverID s) (CollectionID s) (WasteType s)
     (EstimatedWeightKg s) (ActualWeightKg s) (PriceOffered s) (PriceConfirmed s)
     (ContractAddress s) (ContractTxHash s) st
     (PickupLatitude s) (PickupLongitude s) (PickupAddress s)
     (DropoffLatitude s) (DropoffLongitude s) (DropoffAddress s)
     (Notes s) (CreatedAt s) now.

(** [SET driver_id = $1, status = $2] on a row, with the same trigger. *)
Definition with_driver (now : Timestamp) (driverID : UUID) (st : ShipmentStatus) (s : t) : t :=
  mk (ID s) (UserID s) (Some driverID) (CollectionID s) (WasteType s)
     (EstimatedWeightKg s) (ActualWeightKg s) (PriceOffered s) (PriceConfirmed s)
     (ContractAddress s) (ContractTxHash s) st
     (PickupLatitude s) (PickupLongitude s) (PickupAddress s)
     (DropoffLatitude s) (DropoffLongitude s) (DropoffAddress s)
     (Notes s) (CreatedAt s) now.
End Shipment.

(** [type CreateShipmentRequest struct]. *)
Module CreateShipmentRequest.
Record t : Type := mk {
  UserID : UUID;
  CollectionID : UUID;
  WasteType : string;
  EstimatedWeightKg : float;
  PriceOffered : float;
  PickupLocation : option Location.t;
  DropoffLocation : option Location.t;
  Notes : option string
}.
End CreateShipmentRequest.

(** [type StateTransition struct]: one row of the [state_transitions] table.
    [Metadata] is the raw JSON text, [None] for a nil [json.RawMessage]. *)
Module StateTransition.
Record t : Type := mk {
  ID : UUID;
  ShipmentID : UUID;
  FromStatus : option ShipmentStatus;
  ToStatus : ShipmentStatus;
  TriggeredBy : UUID;
  TriggeredByRole : string;
  ProofHash : option string;
  Signature : option string;
  TxHash : option string;
  Metadata : option string;
  CreatedAt : Timestamp
}.

Definition with_metadata (md : option string) (x : t) : t :=
  mk (ID x) (ShipmentID x) (FromStatus x) (ToStatus x) (TriggeredBy x)
     (TriggeredByRole x) (ProofHash x) (Signature x) (TxHash x) md (CreatedAt x).
End StateTransition.

(** The spec's adjacency table, sentence by sentence (section 4.4), kept apart
    from [ValidTransitions] so that the two can be compared. *)
Inductive spec_edge : ShipmentStatus -> ShipmentStatus -> Prop :=
| edge_created_price_confirmed : spec_edge "created" "price_confirmed"
| edge_created_cancelled : spec_edge "created" "cancelled"
| edge_price_confirmed_driver_assigned : spec_edge "price_confirmed" "driver_assigned"
| edge_price_confirmed_cancelled : spec_edge "price_confirmed" "cancelled"
| edge_driver_assigned_pickup_started : spec_edge "driver_assigned" "pickup_started"
| edge_driver_assigned_disputed : spec_edge "driver_assigned" "disputed"
| edge_driver_assigned_cancelled : spec_edge "driver_assigned" "cancelled"
| edge_pickup_started_in_transit : spec_edge "pickup_started" "in_transit"
| edge_pickup_started_disputed : spec_edge "pickup_started" "disputed"
| edge_in_transit_delivered : spec_edge "in_transit" "delivered"
| edge_in_transit_disputed : spec_edge "in_transit" "disputed"
| edge_delivered_completed : spec_edge "delivered" "completed"
| edge_delivered_disputed : spec_edge "delivered" "disputed"
| edge_disputed_resolved : spec_edge "disputed" "resolved"
| edge_resolved_completed : spec_edge "resolved" "completed".

(** The statuses that have a row in the table. *)
Definition table_keys : list ShipmentStatus :=
  ["created"; "price_confirmed"; "driver_assigned"; "pickup_started";
   "in_transit"; "delivered"; "disputed"; "resolved"].

(** ** shipment_tracker/internal/nats *)

Definition TopicShipmentCreated : string := "shipment.created".
Definition TopicPriceConfirmed : string := "shipment.price.confirmed".
Definition TopicDriverAssigned : string := "shipment.driver.assigned".
Definition TopicPickupStarted : string := "shipment.pickup.started".
Definition TopicInTransit : string := "shipment.in.transit".
Definition TopicDelivered : string := "shipment.delivered".
Definition TopicCompleted : string := "shipment.completed".
Definition TopicCancelled : string := "shipment.cancelled".
Definition TopicDisputed : string := "shipment.disputed".
Definition TopicResolved : string := "shipment.resolved".

(** The [Data] values the service publishes: the shipment itself, or one of
    its two [map[string]interface{}] literals. *)
Inductive EventData : Type :=
| DataShipment (shipment : Shipment.t)
| DataDriverAssigned (shipment_id driver_id : UUID)
| DataStatus (shipment_id : UUID) (status : ShipmentStatus) (updated_by : UUID).

(** [type EventPayload struct]. *)
Module EventPayload.
Record t : Type := mk {
  EventID : UUID;
  EventType : string;
  Timestamp : Z;
  Data : EventData
}.
End EventPayload.

(** ** The world the shipment service acts on

    The two tables of [001_create_tables.sql] that the service touches, and
    the messages accepted by the NATS broker, oldest first. *)
Record World : Type := mkWorld {
  shipments : gmap N Shipment.t;
  state_transitions : list StateTransition.t;
  published : list (string * EventPayload.t)
}.

(** What the program reads from outside: the successive results of
    [uuid.New()] and [time.Now()] within one call, the clock of the database
    (for its trigger), and for each statement or publish whether it fails and
    with which driver error. *)
Record Env : Type := mkEnv {
  uuid_New : nat -> UUID;
  time_Now : nat -> Timestamp;
  db_now : Timestamp;
  err_shipment_Create : option string;
  err_shipment_GetByID : option string;
  err_shipment_UpdateStatus : option string;
  err_shipment_AssignDriver : option string;
  err_transition_Create : option string;
  err_Publish : option string
}.

(** ** shipment_tracker/internal/repository *)

Module ShipmentRepository.

(** [Create]: the INSERT names every column but [driver_id],
    [actual_weight_kg] and the two contract columns, which stay NULL; [id] is
    the primary key. *)
Definition Create (fault : option string) (s : Shipment.t) (w : World) : World * option error :=
  match fault with
  | Some e => (w, Some (DBError e))
  | None =>
      match shipments w !! Shipment.ID s with
      | Some _ => (w, Some (DBError "duplicate key value violates unique constraint shipments_pkey"))
      | None =>
          let row :=
            Shipment.mk (Shipment.ID s) (Shipment.UserID s) None (Shipment.CollectionID s)
              (Shipment.WasteType s) (Shipment.EstimatedWeightKg s) None
              (Shipment.PriceOffered s) (Shipment.PriceConfirmed s) None None
              (Shipment.Status s)
              (Shipment.PickupLatitude s) (Shipment.PickupLongitude s) (Shipment.PickupAddress s)
              (Shipment.DropoffLatitude s) (Shipment.DropoffLongitude s) (Shipment.DropoffAddress s)
              (Shipment.Notes s) (Shipment.CreatedAt s) (Shipment.UpdatedAt s) in
          (mkWorld (<[Shipment.ID s := row]> (shipments w)) (state_transitions w) (published w),
           None)
      end
  end.

(** [GetByID]: [(nil, nil)] when no row has the id. *)
Definition GetByID (fault : option string) (id : UUID) (w : World) : error + option Shipment.t :=
  match fault with
  | Some e => inl (DBError e)
  | None => inr (shipments w !! id)
  end.

(** [UpdateStatus]: an UPDATE that matches no row is no error. *)
Definition UpdateStatus (fault : option string) (now : Timestamp) (id : UUID)
    (status : ShipmentStatus) (w : World) : World * option error :=
  match fault with
  | Some e => (w, Some (DBError e))
  | None =>
      (mkWorld (alter (Shipment.with_status now status) id (shipments w))
               (state_transitions w) (published w), None)
  end.

(** [AssignDriver]: sets the driver and the status [driver_assigned]. *)
Definition AssignDriver (fault : option string) (now : Timestamp) (id driverID : UUID)
    (w : World) : World * option error :=
  match fault with
  | Some e => (w, Some (DBError e))
  | None =>
      (mkWorld (alter (Shipment.with_driver now driverID StatusDriverAssigned) id (shipments w))
               (state_transitions w) (published w), None)
  end.

End ShipmentRepository.

Module TransitionRepository.

(** [Create]: a nil [Metadata] becomes the empty object; the row is appended.
    [id] is the primary key and [shipment_id] references [shipments(id)]. *)
Definition Create (fault : option string) (t : StateTransition.t) (w : World) : World * option error :=
  let t :=
    match StateTransition.Metadata t with
    | None => StateTransition.with_metadata (Some "{}") t
    | Some _ => t
    end in
  match fault with
  | Some e => (w, Some (DBError e))
  | None =>
      if existsb (fun r => N.eqb (StateTransition.ID r) (StateTransition.ID t)) (state_transitions w)
      then (w, Some (DBError "duplicate key value violates unique constraint state_transitions_pkey"))
      else
        match shipments w !! StateTransition.ShipmentID t with
        | None => (w, Some (DBError "insert on table state_transitions violates foreign key constraint"))
        | Some _ =>
            (mkWorld (shipments w) (state_transitions w ++ [t]) (published w), None)
        end
  end.

(** [GetByShipmentID]: the rows of one shipment, oldest first. *)
Definition GetByShipmentID (shipmentID : UUID) (w : World) : list StateTransition.t :=
  filter (fun r => StateTransition.ShipmentID r = shipmentID) (state_transitions w).

End TransitionRepository.

(** ** shipment_tracker/internal/services *)

Module ShipmentService.

(** [publishEvent]: a failed publish is printed and otherwise ignored.  [ku]
    and [kt] are the ranks of this call's [uuid.New()] and [time.Now()] within
    the operation. *)
Definition publishEvent (env : Env) (ku kt : nat) (topic : string) (data : EventData)
    (w : World) : World :=
  let payload := EventPayload.mk (uuid_New env ku) topic (time_Now env kt) data in
  match err_Publish env with
  | Some _ => w
  | None => mkWorld (shipments w) (state_transitions w) (published w ++ [(topic, payload)])
  end.

(** [getTopicForStatus]. *)
Definition getTopicForStatus (status : ShipmentStatus) : string :=
  if String.eqb status StatusPriceConfirmed then TopicPriceConfirmed
  else if String.eqb status StatusPickupStarted then TopicPickupStarted
  else if String.eqb status StatusInTransit then TopicInTransit
  else if String.eqb status StatusDelivered then TopicDelivered
  else if String.eqb status StatusCompleted then TopicCompleted
  else if String.eqb status StatusCancelled then TopicCancelled
  else if String.eqb status StatusDisputed then TopicDisputed
  else if String.eqb status StatusResolved then TopicResolved
  else "shipment.status.changed".

(** [CreateShipment]: the result of inserting the initial transition is
    dropped ("Log error but don't fail, we successfully created the
    shipment"). *)
Definition CreateShipment (env : Env) (req : CreateShipmentRequest.t) (w : World)
    : World * (option Shipment.t * option error) :=
  let id := uuid_New env 0 in
  let now := time_Now env 0 in
  let pickup := CreateShipmentRequest.PickupLocation req in
  let dropoff := CreateShipmentRequest.DropoffLocation req in
  let shipment :=
    Shipment.mk id (CreateShipmentRequest.UserID req) None
      (CreateShipmentRequest.CollectionID req) (CreateShipmentRequest.WasteType req)
      (CreateShipmentRequest.EstimatedWeightKg req) None
      (CreateShipmentRequest.PriceOffered req) false None None StatusCreated
      (Location.Latitude <$> pickup) (Location.Longitude <$> pickup) (Location.Address <$> pickup)
      (Location.Latitude <$> dropoff) (Location.Longitude <$> dropoff) (Location.Address <$> dropoff)
      (CreateShipmentRequest.Notes req) now now in
  match ShipmentRepository.Create (err_shipment_Create env) shipment w with
  | (w1, Some err) => (w1, (None, Some err))
  | (w1, None) =>
      let transition :=
        StateTransition.mk (uuid_New env 1) id None StatusCreated
          (CreateShipmentRequest.UserID req) "user" None None None None now in
      let w2 := fst (TransitionRepository.Create (err_transition_Create env) transition w1) in
      let w3 := publishEvent env 2 1 TopicShipmentCreated (DataShipment shipment) w2 in
      (w3, (Some shipment, None))
  end.

(** [GetShipment]. *)
Definition GetShipment (env : Env) (id : UUID) (w : World) : error + option Shipment.t :=
  ShipmentRepository.GetByID (err_shipment_GetByID env) id w.

(** [AssignDriver]: the result of [transitionRepo.Create] is not looked at. *)
Definition AssignDriver (env : Env) (shipmentID driverID : UUID) (w : World)
    : World * option error :=
  match ShipmentRepository.GetByID (err_shipment_GetByID env) shipmentID w with
  | inl err => (w, Some err)
  | inr None => (w, Some (Errorf "shipment not found"))
  | inr (Some shipment) =>
      if negb (Shipment.CanTransitionTo shipment StatusDriverAssigned)
      then (w, Some (Errorf ("cannot transition from " ++ Shipment.Status shipment
                              ++ " to " ++ StatusDriverAssigned)))
      else
        match ShipmentRepository.AssignDriver (err_shipment_AssignDriver env) (db_now env)
                shipmentID driverID w with
        | (w1, Some err) => (w1, Some err)
        | (w1, None) =>
            let now := time_Now env 0 in
            let fromStatus := Shipment.Status shipment in
            let transition :=
              StateTransition.mk (uuid_New env 0) shipmentID (Some fromStatus)
                StatusDriverAssigned driverID "driver" None None None None now in
            let w2 := fst (TransitionRepository.Create (err_transition_Create env) transition w1) in
            let w3 := publishEvent env 1 1 TopicDriverAssigned
                        (DataDriverAssigned shipmentID driverID) w2 in
            (w3, None)
        end
  end.

(** [updateStatusAndRecord].  [metadata] is the text [json.Marshal] gives for
    the caller's map, [None] when it gives none (its error is dropped). *)
Definition updateStatusAndRecord (env : Env) (shipment : Shipment.t)
    (newStatus : ShipmentStatus) (triggeredBy : UUID) (role : string)
    (proofHash signature : option string) (metadata : option string) (w : World)
    : World * option error :=
  if negb (Shipment.CanTransitionTo shipment newStatus)
  then (w, Some (Errorf ("invalid transition from " ++ Shipment.Status shipment
                          ++ " to " ++ newStatus)))
  else
    match ShipmentRepository.UpdateStatus (err_shipment_UpdateStatus env) (db_now env)
            (Shipment.ID shipment) newStatus w with
    | (w1, Some err) => (w1, Some err)
    | (w1, None) =>
        let fromStatus := Shipment.Status shipment in
        let transition :=
          StateTransition.mk (uuid_New env 0) (Shipment.ID shipment) (Some fromStatus)
            newStatus triggeredBy role proofHash signature None metadata
            (time_Now env 0) in
        match TransitionRepository.Create (err_transition_Create env) transition w1 with
        | (w2, Some err) => (w2, Some err)
        | (w2, None) =>
            let topic := getTopicForStatus newStatus in
            let w3 := publishEvent env 1 1 topic
                        (DataStatus (Shipment.ID shipment) newStatus triggeredBy) w2 in
            (w3, None)
        end
    end.

End ShipmentService.

(** The latest transition recorded for a shipment. *)
Definition latest_transition (w : World) (shipmentID : UUID) : option StateTransition.t :=
  last (TransitionRepository.GetByShipmentID shipmentID w).

(** "The stored status equals the [toStatus] of the latest transition". *)
Definition status_matches_log (w : World) (shipmentID : UUID) : Prop :=
  exists s t,
    shipments w !! shipmentID = Some s /\
    latest_transition w shipmentID = Some t /\
    Shipment.Status s = StateTransition.ToStatus t.

(** An operation "recorded its transition" when it left exactly one more row
    in [state_transitions]. *)
Definition transition_recorded (w w' : World) : Prop :=
  exists t, state_transitions w' = (state_transitions w ++ [t])%list.

(** ** Sample data for the shipment service *)

Definition env_ok : Env :=
  mkEnv (fun k => (100 + N.of_nat k)%N) (fun k => 1000 + Z.of_nat k) 2000
        None None None None None None.

(** The same, with the [state_transitions] INSERT failing. *)
Definition env_log_down : Env :=
  mkEnv (fun k => (100 + N.of_nat k)%N) (fun k => 1000 + Z.of_nat k) 2000
        None None None None (Some "connection reset by peer") None.

Definition world_empty : World := mkWorld ∅ [] [].

Definition req_sample : CreateShipmentRequest.t :=
  CreateShipmentRequest.mk 7%N 8%N "plastic" 12.5%float 40%float None None None.

Definition shipment_sample (status : ShipmentStatus) : Shipment.t :=
  Shipment.mk 1%N 7%N None 8%N "plastic" 12.5%float None 40%float false None None status
              None None None None None None None 900 900.

Definition world_with (status : ShipmentStatus) : World :=
  mkWorld {[ 1%N := shipment_sample status ]} [] [].

(** The shipment [CreateShipment] builds from [req_sample] under [env_ok]. *)
Definition shipment_created : Shipment.t :=
  Shipment.mk 100%N 7%N None 8%N "plastic" 12.5%float None 40%float false None None "created"
              None None None None None None None 1000 1000.

(** ** go_backend/internal/models *)

(** [type Bin struct]: one row of the [bins] table ([id] is its primary key,
    [device_id] is unique, [location_name] may be NULL). *)
Module Bin.
Record t : Type := mk {
  ID : UUID;
  DeviceID : string;
  LocationName : option string;
  Latitude : float;
  Longitude : float;
  FillLevel : Z;
  WasteType : string;
  CapacityLiters : Z;
  LastCollectionAt : option Timestamp;
  LastUpdatedAt : Timestamp;
  IsActive : bool;
  CompanyID : option UUID;
  CreatedAt : Timestamp
}.

(** [func (b *Bin) NeedsCollection(threshold int) bool]. *)
Definition NeedsCollection (b : t) (threshold : Z) : bool := threshold <=? FillLevel b.

(** [SET fill_level = $1, last_updated_at = CURRENT_TIMESTAMP] on a row. *)
Definition with_fill_level (now : Timestamp) (fillLevel : Z) (b : t) : t :=
  mk (ID b) (DeviceID b) (LocationName b) (Latitude b) (Longitude b) fillLevel
     (WasteType b) (CapacityLiters b) (LastCollectionAt b) now (IsActive b)
     (CompanyID b) (CreatedAt b).
End Bin.

(** [type BinStatusUpdate struct]: the decoded MQTT payload. *)
Module BinStatusUpdate.
Record t : Type := mk {
  BinID : string;
  FillLevel : Z
}.
End BinStatusUpdate.

(** [type Driver struct]. *)
Module Driver.
Record t : Type := mk {
  ID : UUID;
  Email : string;
  PasswordHash : string;
  FullName : string;
  Phone : string;
  LicenseNumber : string;
  VehicleType : option string;
  VehiclePlate : option string;
  Latitude : option float;
  Longitude : option float;
  IsAvailable : bool;
  TotalCollections : Z;
  AverageRating : float;
  FCMToken : option string;
  CreatedAt : Timestamp;
  UpdatedAt : Timestamp
}.

(** The [db] tags of the fields, in the order of the struct. *)
Definition db_fields : list string :=
  ["id"; "email"; "password_hash"; "full_name"; "phone"; "license_number"; "vehicle_type";
   "vehicle_plate"; "latitude"; "longitude"; "is_available"; "total_collections";
   "average_rating"; "fcm_token"; "created_at"; "updated_at"].
End Driver.

Definition NotificationTypeBinFull : string := "bin_full".

(** [type Notification struct]. *)
Module Notification.
Record t : Type := mk {
  ID : UUID;
  DriverID : option UUID;
  BinID : option UUID;
  Type_ : string;
  Title : string;
  Message : string;
  IsRead : bool;
  SentAt : Timestamp;
  ReadAt : option Timestamp
}.
End Notification.

(** [type Waypoint struct]. *)
Module Waypoint.
Record t : Type := mk {
  BinID : UUID;
  DeviceID : string;
  Latitude : float;
  Longitude : float;
  FillLevel : Z;
  Order : Z;
  IsCompleted : bool
}.
End Waypoint.

Definition RouteStatusPending : string := "pending".

(** [type DriverRoute struct]; [Waypoints] is the JSON text. *)
Module DriverRoute.
Record t : Type := mk {
  ID : UUID;
  DriverID : UUID;
  Waypoints : string;
  WaypointsList : list Waypoint.t;
  TotalDistanceKm : option float;
  EstimatedDurationMinutes : option Z;
  Status : string;
  CreatedAt : Timestamp;
  StartedAt : option Timestamp;
  CompletedAt : option Timestamp
}.
End DriverRoute.

(** ** The world the back end acts on *)

(** What the back end writes with [log.Printf], one constructor per format
    string of the two files modelled here. *)
Inductive LogLine : Type :=
| LogParseFailed (err : error)
    (* "Failed to parse bin status payload: %v" *)
| LogProcessing (binID : string) (fillLevel : Z)
    (* "Processing bin status update: BinID=%s, FillLevel=%d%%" *)
| LogInvalidFillLevel (fillLevel : Z) (binID : string)
    (* "Invalid fill level %d for bin %s" *)
| LogUpdateFailed (err : error)
    (* "Failed to update bin fill level: %v" *)
| LogThresholdExceeded (binID : string) (fillLevel threshold : Z)
    (* "Bin %s fill level (%d%%) exceeds threshold (%d%%), triggering notification" *)
| LogBinDetailsFailed (err : option error)
    (* "Failed to get bin details for notification: %v" *)
| LogFindingDriver (deviceID : string) (lat lng : float)
    (* "Finding nearest driver for bin %s at location (%.6f, %.6f)" *)
| LogNoDrivers (deviceID : string)
    (* "No available drivers found for bin %s" *)
| LogNoToken (driverID : UUID)
    (* "Driver %s has no FCM token, skipping push notification" *)
| LogPush (driverID : UUID) (token title message : string)
    (* the four "[FCM PLACEHOLDER]" lines *)
| LogFCMFailed (err : error)
    (* "Failed to send FCM notification: %v" *)
| LogNotificationSent (driverID : UUID) (fullName deviceID : string).
    (* "Notification sent to driver %s (%s) for bin %s" *)

(** The [bins] and [drivers] tables, the log, and the bins for which a
    [go NotifyNearestDriver(ctx, bin)] was started, oldest first. *)
Record Backend : Type := mkBackend {
  bins : list Bin.t;
  drivers : list Driver.t;
  logged : list LogLine;
  dispatch_requests : list Bin.t
}.

Definition log_Printf (line : LogLine) (w : Backend) : Backend :=
  mkBackend (bins w) (drivers w) (logged w ++ [line]) (dispatch_requests w).

(** What a call either returns or how it dies. *)
Inductive Outcome (A : Type) : Type :=
| Returned (a : A)
| Panicked (msg : string).
Arguments Returned {A} a.
Arguments Panicked {A} msg.

(** What the telemetry intake and the dispatch read from outside: the JSON
    decoder of the payload, the failures of the three statements (the
    database refusing or losing the query), the clock of the database, the
    order in which the database returns the eligible drivers for
    [ORDER BY distance ASC], and the next [uuid.New()]. *)
Record IntakeEnv : Type := mkIntakeEnv {
  json_Unmarshal : string -> error + BinStatusUpdate.t;
  err_UpdateFillLevel : option string;
  err_GetByDeviceID : option string;
  err_GetNearestDriver : option string;
  bins_now : Timestamp;
  order_by_distance : float -> float -> list Driver.t -> list Driver.t;
  notification_id : UUID
}.

(** ** sqlx *)

(** [missingFields] of [sqlx], as [Get] and [Select] use it on a handle that
    is not [Unsafe()] (the back end opens its own with [sqlx.Connect]): the
    first column of the result that no [db] field of the destination struct
    takes.  When there is one the call fails with "missing destination name
    <column> in <type>", before any row is scanned and so whether the result
    has a row or not. *)
Definition sqlx_missingFields (columns fields : list string) : option string :=
  List.find (fun column => negb (existsb (String.eqb column) fields)) columns.

(** ** go_backend/internal/repository *)

Module BinRepository.

(** [GetByID]: the row with that id, [(nil, nil)] when there is none. *)
Definition GetByID (fault : option string) (id : UUID) (rows : list Bin.t) : error + option Bin.t :=
  match fault with
  | Some e => inl (DBError e)
  | None => inr (List.find (fun b => N.eqb (Bin.ID b) id) rows)
  end.

(** [GetByDeviceID]. *)
Definition GetByDeviceID (fault : option string) (deviceID : string) (rows : list Bin.t)
    : error + option Bin.t :=
  match fault with
  | Some e => inl (DBError e)
  | None => inr (List.find (fun b => String.eqb (Bin.DeviceID b) deviceID) rows)
  end.

(** [UpdateFillLevel]: updates the rows of that device (none is no error); the
    table's CHECK refuses a level outside 0..100 on a row it would change. *)
Definition UpdateFillLevel (fault : option string) (now : Timestamp) (deviceID : string)
    (fillLevel : Z) (rows : list Bin.t) : list Bin.t * option error :=
  match fault with
  | Some e => (rows, Some (DBError e))
  | None =>
      if existsb (fun b => String.eqb (Bin.DeviceID b) deviceID) rows
         && negb ((0 <=? fillLevel) && (fillLevel <=? 100))
      then (rows, Some (DBError "new row for relation bins violates check constraint"))
      else
        (map (fun b => if String.eqb (Bin.DeviceID b) deviceID
                       then Bin.with_fill_level now fillLevel b else b) rows,
         None)
  end.

End BinRepository.

Module DriverRepository.

(** The WHERE clause of [GetNearestDriver]. *)
Definition eligible (d : Driver.t) : bool :=
  Driver.IsAvailable d && bool_decide (is_Some (Driver.Latitude d))
  && bool_decide (is_Some (Driver.Longitude d)).

(** The columns of the [drivers] table (001_initial.sql), which [SELECT *]
    returns. *)
Definition drivers_columns : list string :=
  ["id"; "email"; "password_hash"; "full_name"; "phone"; "license_number"; "vehicle_type";
   "vehicle_plate"; "latitude"; "longitude"; "is_available"; "total_collections";
   "average_rating"; "fcm_token"; "created_at"; "updated_at"].

(** The columns of the result of the query of [GetNearestDriver],
    [SELECT *, (6371 * acos(...)) AS distance FROM drivers ...]. *)
Definition nearest_driver_columns : list string := (drivers_columns ++ ["distance"])%list.

(** [GetNearestDriver]: [r.db.GetContext(ctx, &driver, query, lat, lng)].
    When the database has run the query, [sqlx] first matches the columns of
    the result with the fields of [models.Driver] and only then scans the
    first row (the first of the eligible rows in the database's distance
    order; [sql.ErrNoRows], turned into [(nil, nil)], when there is none).
    The [distance] column has no field to go to, so that first step fails. *)
Definition GetNearestDriver (fault : option string)
    (order : float -> float -> list Driver.t -> list Driver.t)
    (lat lng : float) (rows : list Driver.t) : error + option Driver.t :=
  match fault with
  | Some e => inl (DBError e)
  | None =>
      match sqlx_missingFields nearest_driver_columns Driver.db_fields with
      | Some column =>
          inl (Errorf ("missing destination name " ++ column ++ " in *models.Driver"))
      | None => inr (head (order lat lng (List.filter eligible rows)))
      end
  end.

End DriverRepository.

(** ** go_backend/internal/services: notifications *)

Module NotificationService.

(** [sendFCMNotification]: the placeholder only logs, and returns nil. *)
Definition sendFCMNotification (driver : Driver.t) (notification : Notification.t)
    (w : Backend) : Backend * option error :=
  match Driver.FCMToken driver with
  | None => (log_Printf (LogNoToken (Driver.ID driver)) w, None)
  | Some token =>
      if String.eqb token ""
      then (log_Printf (LogNoToken (Driver.ID driver)) w, None)
      else (log_Printf (LogPush (Driver.ID driver) token (Notification.Title notification)
                                (Notification.Message notification)) w, None)
  end.

(** [NotifyNearestDriver].  The message is built with [*bin.LocationName]:
    dereferencing the nil pointer panics. *)
Definition NotifyNearestDriver (env : IntakeEnv) (bin : Bin.t) (w : Backend)
    : Backend * Outcome (option error) :=
  let w := log_Printf (LogFindingDriver (Bin.DeviceID bin) (Bin.Latitude bin) (Bin.Longitude bin)) w in
  match DriverRepository.GetNearestDriver (err_GetNearestDriver env) (order_by_distance env)
          (Bin.Latitude bin) (Bin.Longitude bin) (drivers w) with
  | inl err => (w, Returned (Some (Wrapf "failed to find nearest driver" err)))
  | inr None => (log_Printf (LogNoDrivers (Bin.DeviceID bin)) w, Returned None)
  | inr (Some driver) =>
      match Bin.LocationName bin with
      | None => (w, Panicked "runtime error: invalid memory address or nil pointer dereference")
      | Some locationName =>
          let notification :=
            Notification.mk (notification_id env) (Some (Driver.ID driver)) (Some (Bin.ID bin))
              NotificationTypeBinFull "Bin Collection Required"
              ("Bin " ++ Bin.DeviceID bin ++ " at " ++ locationName ++ " is "
                 ++ pretty (Bin.FillLevel bin) ++ "% full and requires collection.")
              false 0 None in
          let (w, err) := sendFCMNotification driver notification w in
          let w := match err with
                   | Some e => log_Printf (LogFCMFailed e) w
                   | None => w
                   end in
          (log_Printf (LogNotificationSent (Driver.ID driver) (Driver.FullName driver)
                                           (Bin.DeviceID bin)) w,
           Returned None)
      end
  end.

End NotificationService.

(** ** go_backend/internal/mqtt *)

Module Client.
Record t : Type := mk {
  fillLevelThreshold : Z
}.
End Client.

Module mqtt.

(** [NewClient] sets the threshold to 90. *)
Definition NewClient : Client.t := Client.mk 90.

(** [processBinStatus].  The last step starts [NotifyNearestDriver] in a
    goroutine of its own; here it is recorded as a dispatch request. *)
Definition processBinStatus (c : Client.t) (env : IntakeEnv) (payload : string) (w : Backend)
    : Backend :=
  match json_Unmarshal env payload with
  | inl err => log_Printf (LogParseFailed err) w
  | inr status =>
      let binID := BinStatusUpdate.BinID status in
      let fillLevel := BinStatusUpdate.FillLevel status in
      let w := log_Printf (LogProcessing binID fillLevel) w in
      if (fillLevel <? 0) || (100 <? fillLevel)
      then log_Printf (LogInvalidFillLevel fillLevel binID) w
      else
        match BinRepository.UpdateFillLevel (err_UpdateFillLevel env) (bins_now env)
                binID fillLevel (bins w) with
        | (_, Some err) => log_Printf (LogUpdateFailed err) w
        | (rows, None) =>
            let w := mkBackend rows (drivers w) (logged w) (dispatch_requests w) in
            if Client.fillLevelThreshold c <=? fillLevel
            then
              let w := log_Printf (LogThresholdExceeded binID fillLevel
                                     (Client.fillLevelThreshold c)) w in
              match BinRepository.GetByDeviceID (err_GetByDeviceID env) binID (bins w) with
              | inl err => log_Printf (LogBinDetailsFailed (Some err)) w
              | inr None => log_Printf (LogBinDetailsFailed None) w
              | inr (Some bin) =>
                  mkBackend (bins w) (drivers w) (logged w) (dispatch_requests w ++ [bin])
              end
            else w
        end
  end.

(** The reports of a stream, handled one after the other. *)
Definition process_all (c : Client.t) (env : IntakeEnv) (payloads : list string) (w : Backend)
    : Backend :=
  fold_left (fun w payload => processBinStatus c env payload w) payloads w.

End mqtt.

(** ** Go's numbers *)

(** The range of [int] on the 64-bit targets the services are built for, and
    the wrap-around of its arithmetic.  The length of a slice is far below
    that range, so [len(x) + 1] and [len(x) * 2] are written without it. *)
Definition wrap_int (z : Z) : Z := (z + 2 ^ 63) mod 2 ^ 64 - 2 ^ 63.

(** [float64(n)] for an [int]: the nearest binary64, ties to even. *)
Definition float64_of_int (n : Z) : float :=
  SF2Prim (binary_normalize prec emax n 0 false).

(** [int(x)] for a [float64]: the fraction is dropped; a NaN, an infinity or a
    value outside the range of [int] gives the "integer indefinite" value of
    the amd64 conversion instruction. *)
Definition int_of_float64 (x : float) : Z :=
  match Prim2SF x with
  | S754_zero _ => 0
  | S754_finite s m e =>
      let magnitude := if 0 <=? e then Z.pos m * 2 ^ e else Z.pos m / 2 ^ (- e) in
      let v := if s then - magnitude else magnitude in
      if (- 2 ^ 63 <=? v) && (v <? 2 ^ 63) then v else - 2 ^ 63
  | S754_infinity _ | S754_nan => - 2 ^ 63
  end.

(** [math.MaxFloat64] and [math.Pi] as [float64] values. *)
Definition math_MaxFloat64 : float := 0x1.fffffffffffffp+1023%float.
Definition math_Pi : float := 0x1.921fb54442d18p+1%float.

(** [strconv.FormatFloat(x, 'g', -1, 64)] of a float that [encoding/json]
    cannot write: a NaN or an infinity.  [None] for a finite one. *)
Definition unsupported_float (x : float) : option string :=
  match Prim2SF x with
  | S754_zero _ | S754_finite _ _ _ => None
  | S754_infinity false => Some "+Inf"
  | S754_infinity true => Some "-Inf"
  | S754_nan => Some "NaN"
  end.

(** ** go_backend/internal/services: routes *)

(** One leg of a route of the Directions reply: metres and seconds. *)
Module Leg.
Record t : Type := mk {
  Distance : Z;
  Duration : Z
}.
End Leg.

(** What happens to the request [getGoogleMapsRoute] sends: [http.Get] fails,
    reading the body fails, the body is not the expected JSON, or it decodes
    to a [status] and [routes] (each a list of legs).  The HTTP status code of
    the response is part of what comes back; the source never reads it. *)
Inductive DirectionsReply : Type :=
| GetFailed (err : error)
| ReadFailed (err : error)
| ParseFailed (err : error)
| Decoded (httpStatusCode : Z) (status : string) (routes : list (list Leg.t)).

(** [type googleMapsRouteResult struct]. *)
Module googleMapsRouteResult.
Record t : Type := mk {
  distance : float;
  duration : Z
}.
End googleMapsRouteResult.

(** What the route service reads from outside: the failure of each bin
    lookup, the next [uuid.New()], the JSON text of a waypoint list, and the
    reply of the Directions service to a request. *)
Record RouteEnv : Type := mkRouteEnv {
  err_bin_GetByID : UUID -> option string;
  route_id : UUID;
  json_text : list Waypoint.t -> string;
  directions : float -> float -> list Waypoint.t -> DirectionsReply
}.

Module RouteService.

(** [type RouteService struct]: the key from the configuration (the bin
    repository is the [bins] table passed along). *)
Record t : Type := mk {
  googleKey : string
}.

(** The first float of the waypoints that [encoding/json] cannot write: the
    encoder goes through the waypoints in order, and through the fields of
    each in the order of the struct ([latitude] before [longitude]). *)
Fixpoint unsupported_value (waypoints : list Waypoint.t) : option string :=
  match waypoints with
  | [] => None
  | wp :: rest =>
      match unsupported_float (Waypoint.Latitude wp) with
      | Some v => Some v
      | None =>
          match unsupported_float (Waypoint.Longitude wp) with
          | Some v => Some v
          | None => unsupported_value rest
          end
      end
  end.

(** [json.Marshal(waypoints)]: refuses a NaN or an infinity, with
    "json: unsupported value: NaN" (or [+Inf], [-Inf]). *)
Definition json_Marshal (env : RouteEnv) (waypoints : list Waypoint.t) : error + string :=
  match unsupported_value waypoints with
  | Some v => inl (Errorf ("json: unsupported value: " ++ v))
  | None => inr (json_text env waypoints)
  end.

(** The waypoint both strategies build for a bin. *)
Definition waypoint_of (bin : Bin.t) (order : Z) : Waypoint.t :=
  Waypoint.mk (Bin.ID bin) (Bin.DeviceID bin) (Bin.Latitude bin) (Bin.Longitude bin)
              (Bin.FillLevel bin) order false.

Section WithLibraries.

(** [math.Sin], [math.Cos] and [math.Atan2] of Go's library, and its
    [sort.Slice] (as a function of the comparison and the slice). *)
Variables (math_Sin math_Cos : float -> float) (math_Atan2 : float -> float -> float).
Variable sort_Slice : (Bin.t -> Bin.t -> bool) -> list Bin.t -> list Bin.t.

(** [haversineDistance], operation by operation. *)
Definition haversineDistance (lat1 lng1 lat2 lng2 : float) : float :=
  let earthRadiusKm := 6371%float in
  let lat1Rad := (lat1 * math_Pi / 180)%float in
  let lat2Rad := (lat2 * math_Pi / 180)%float in
  let deltaLat := ((lat2 - lat1) * math_Pi / 180)%float in
  let deltaLng := ((lng2 - lng1) * math_Pi / 180)%float in
  let a := (math_Sin (deltaLat / 2) * math_Sin (deltaLat / 2) +
            math_Cos lat1Rad * math_Cos lat2Rad *
              math_Sin (deltaLng / 2) * math_Sin (deltaLng / 2))%float in
  let c := (2 * math_Atan2 (PrimFloat.sqrt a) (PrimFloat.sqrt (1 - a)))%float in
  (earthRadiusKm * c)%float.

(** The distance from a position to a bin. *)
Definition distance_to (lat lng : float) (bin : Bin.t) : float :=
  haversineDistance lat lng (Bin.Latitude bin) (Bin.Longitude bin).

(** [type binWithDistance struct] and the first loop of [optimizeByDistance]. *)
Definition binWithDistance : Type := Bin.t * float.

Definition with_distances (bins : list Bin.t) (driverLat driverLng : float)
    : list binWithDistance :=
  map (fun bin => (bin, distance_to driverLat driverLng bin)) bins.

(** The state of the nearest-neighbour loop. *)
Record tour : Type := mkTour {
  waypoints : list Waypoint.t;
  currentLat : float;
  currentLng : float;
  visited : gmap N bool
}.

(** [visited[id]]: false for a key that is not in the map. *)
Definition is_visited (visited : gmap N bool) (id : UUID) : bool :=
  default false (visited !! id).

(** The inner loop: [nearest] and [minDist] after the bins of [l]. *)
Fixpoint scan (lat lng : float) (visited : gmap N bool) (l : list binWithDistance)
    (nearest : option Bin.t) (minDist : float) : option Bin.t * float :=
  match l with
  | [] => (nearest, minDist)
  | bwd :: rest =>
      if is_visited visited (Bin.ID (fst bwd))
      then scan lat lng visited rest nearest minDist
      else
        let dist := distance_to lat lng (fst bwd) in
        if (dist <? minDist)%float
        then scan lat lng visited rest (Some (fst bwd)) dist
        else scan lat lng visited rest nearest minDist
  end.

(** One turn of the outer loop. *)
Definition visit_nearest (binsWithDist : list binWithDistance) (st : tour) : tour :=
  match fst (scan (currentLat st) (currentLng st) (visited st) binsWithDist
                  None math_MaxFloat64) with
  | None => st
  | Some nearest =>
      mkTour (waypoints st ++ [waypoint_of nearest (Z.of_nat (length (waypoints st)) + 1)])
             (Bin.Latitude nearest) (Bin.Longitude nearest)
             (<[Bin.ID nearest := true]> (visited st))
  end.

(** [for len(waypoints) < len(bins) { ... }], on fuel. *)
Fixpoint tour_loop (fuel : nat) (n : nat) (binsWithDist : list binWithDistance) (st : tour)
    : option (list Waypoint.t) :=
  if (length (waypoints st) <? n)%nat
  then
    match fuel with
    | O => None
    | S fuel' => tour_loop fuel' n binsWithDist (visit_nearest binsWithDist st)
    end
  else Some (waypoints st).

(** [optimizeByDistance]. *)
Definition optimizeByDistance (fuel : nat) (bins : list Bin.t) (driverLat driverLng : float)
    : option (list Waypoint.t) :=
  let binsWithDist := with_distances bins driverLat driverLng in
  tour_loop fuel (length bins) binsWithDist (mkTour [] driverLat driverLng ∅).

(** The [less] function [optimizeByFillLevel] gives to [sort.Slice]. *)
Definition fill_level_less (driverLat driverLng : float) (bi bj : Bin.t) : bool :=
  if negb (Bin.FillLevel bi =? Bin.FillLevel bj)
  then Bin.FillLevel bj <? Bin.FillLevel bi
  else (distance_to driverLat driverLng bi <? distance_to driverLat driverLng bj)%float.

(** The second loop of [optimizeByFillLevel]: waypoint [i] gets order [i + 1]. *)
Fixpoint number_from (i : nat) (bins : list Bin.t) : list Waypoint.t :=
  match bins with
  | [] => []
  | bin :: rest => waypoint_of bin (Z.of_nat i + 1) :: number_from (S i) rest
  end.

(** [optimizeByFillLevel]. *)
Definition optimizeByFillLevel (bins : list Bin.t) (driverLat driverLng : float)
    : list Waypoint.t :=
  number_from 0 (sort_Slice (fill_level_less driverLat driverLng) bins).

(** The loop of [calculateRouteMetrics]. *)
Fixpoint sum_legs (totalDistance currentLat currentLng : float) (waypoints : list Waypoint.t)
    : float :=
  match waypoints with
  | [] => totalDistance
  | wp :: rest =>
      sum_legs (totalDistance +
                haversineDistance currentLat currentLng (Waypoint.Latitude wp) (Waypoint.Longitude wp))%float
               (Waypoint.Latitude wp) (Waypoint.Longitude wp) rest
  end.

(** [calculateRouteMetrics]. *)
Definition calculateRouteMetrics (startLat startLng : float) (waypoints : list Waypoint.t)
    : float * Z :=
  match waypoints with
  | [] => (0%float, 0)
  | _ =>
      let totalDistance := sum_legs 0%float startLat startLng waypoints in
      let durationMinutes :=
        wrap_int (int_of_float64 (totalDistance / 30 * 60)%float
                  + Z.of_nat (length waypoints) * 2) in
      (totalDistance, durationMinutes)
  end.

(** The sums over the legs of [getGoogleMapsRoute]. *)
Definition sum_leg_distance (legs : list Leg.t) : Z :=
  fold_left (fun total leg => wrap_int (total + Leg.Distance leg)) legs 0.

Definition sum_leg_duration (legs : list Leg.t) : Z :=
  fold_left (fun total leg => wrap_int (total + Leg.Duration leg)) legs 0.

(** [getGoogleMapsRoute]. *)
Definition getGoogleMapsRoute (s : t) (env : RouteEnv) (startLat startLng : float)
    (waypoints : list Waypoint.t) : error + googleMapsRouteResult.t :=
  if String.eqb (googleKey s) "" then inl (Errorf "google Maps API key not configured")
  else
    match waypoints with
    | [] => inl (Errorf "no waypoints provided")
    | _ =>
        match directions env startLat startLng waypoints with
        | GetFailed err => inl (Wrapf "failed to call Google Maps API" err)
        | ReadFailed err => inl (Wrapf "failed to read response" err)
        | ParseFailed err => inl (Wrapf "failed to parse response" err)
        | Decoded _ status routes =>
            if negb (String.eqb status "OK") || (length routes =? 0)%nat
            then inl (Errorf ("no routes found: " ++ status))
            else
              let legs := hd [] routes in
              inr (googleMapsRouteResult.mk
                     (float64_of_int (sum_leg_distance legs) / 1000)%float
                     (sum_leg_duration legs ÷ 60))
        end
    end.

(** The first loop of [OptimizeRoute]: the bins that resolve, in the order of
    the ids, or the first lookup error. *)
Fixpoint resolve_bins (env : RouteEnv) (rows : list Bin.t) (binIDs : list UUID)
    (bins : list Bin.t) : error + list Bin.t :=
  match binIDs with
  | [] => inr bins
  | id :: rest =>
      match BinRepository.GetByID (err_bin_GetByID env id) id rows with
      | inl err => inl (Wrapf ("failed to get bin " ++ uuid_String id) err)
      | inr None => resolve_bins env rows rest bins
      | inr (Some bin) => resolve_bins env rows rest (bins ++ [bin])
      end
  end.

(** The [switch optimizeBy] of [OptimizeRoute]: ["fill_level"] sorts, anything
    else runs the nearest-neighbour loop. *)
Definition strategy_waypoints (fuel : nat) (bins : list Bin.t) (driverLat driverLng : float)
    (optimizeBy : string) : option (list Waypoint.t) :=
  if String.eqb optimizeBy "fill_level"
  then Some (optimizeByFillLevel bins driverLat driverLng)
  else optimizeByDistance fuel bins driverLat driverLng.

(** [OptimizeRoute].  [None]: the call has not returned within the fuel. *)
Definition OptimizeRoute (s : t) (env : RouteEnv) (fuel : nat) (rows : list Bin.t)
    (driverLat driverLng : float) (binIDs : list UUID) (optimizeBy : string)
    : option (error + DriverRoute.t) :=
  match resolve_bins env rows binIDs [] with
  | inl err => Some (inl err)
  | inr [] => Some (inl (Errorf "no valid bins found"))
  | inr bins =>
      match strategy_waypoints fuel bins driverLat driverLng optimizeBy with
      | None => None
      | Some waypoints =>
          let (totalDistance, duration) := calculateRouteMetrics driverLat driverLng waypoints in
          match json_Marshal env waypoints with
          | inl err => Some (inl (Wrapf "failed to marshal waypoints" err))
          | inr waypointsJSON =>
              let route :=
                DriverRoute.mk (route_id env) 0%N waypointsJSON waypoints (Some totalDistance)
                               (Some duration) RouteStatusPending 0 None None in
              if negb (String.eqb (googleKey s) "")
              then
                match getGoogleMapsRoute s env driverLat driverLng waypoints with
                | inl _ => Some (inr route)
                | inr optimizedRoute =>
                    Some (inr (DriverRoute.mk (route_id env) 0%N waypointsJSON waypoints
                                 (Some (googleMapsRouteResult.distance optimizedRoute))
                                 (Some (googleMapsRouteResult.duration optimizedRoute))
                                 RouteStatusPending 0 None None))
                end
              else Some (inr route)
          end
      end
  end.

End WithLibraries.
End RouteService.

(** ** Sample data for the back end *)

(** Payloads, named by what is in them, and the decoder that reads them. *)
Definition sample_payloads : list (string * BinStatusUpdate.t) :=
  [("bin-1 reports 85", BinStatusUpdate.mk "BIN-1" 85);
   ("bin-1 reports 95", BinStatusUpdate.mk "BIN-1" 95);
   ("bin-1 reports 97", BinStatusUpdate.mk "BIN-1" 97);
   ("bin-1 reports 150", BinStatusUpdate.mk "BIN-1" 150);
   ("bin-1 reports -5", BinStatusUpdate.mk "BIN-1" (-5))].

Fixpoint sample_Unmarshal_in (table : list (string * BinStatusUpdate.t)) (payload : string)
    : error + BinStatusUpdate.t :=
  match table with
  | [] => inl (Errorf "invalid character")
  | (p, u) :: rest => if String.eqb p payload then inr u else sample_Unmarshal_in rest payload
  end.

Definition intake_env : IntakeEnv :=
  mkIntakeEnv (sample_Unmarshal_in sample_payloads) None None None 5000
              (fun _ _ rows => rows) 900%N.

Definition bin_sample (id : UUID) (device : string) (name : option string)
    (lat lng : float) (fill : Z) : Bin.t :=
  Bin.mk id device name lat lng fill "general" 240 None 4000 true None 3000.

Definition driver_sample (id : UUID) (lat lng : option float) (available : bool) : Driver.t :=
  Driver.mk id "driver@example.org" "" "A. Driver" "0550" "L-1" None None lat lng available
            0 0%float None 3000 3000.

(** One bin at 85 %, without a location name, and one available driver. *)
Definition backend_sample : Backend :=
  mkBackend [bin_sample 1%N "BIN-1" None 36.75%float 3.25%float 85]
            [driver_sample 50%N (Some 36.5%float) (Some 3%float) true] [] [].

(** ** Sample data for the route service *)

(** Stand-ins for the three functions of [math], close to them for the small
    angles between neighbouring bins: sin x = x, cos x = 1 - x^2/2,
    atan2 y x = y/x. *)
Definition small_angle_Sin (x : float) : float := x.
Definition small_angle_Cos (x : float) : float := (1 - x * x / 2)%float.
Definition small_angle_Atan2 (y x : float) : float := (y / x)%float.

(** A stand-in for [sort.Slice]: insertion from the right, each element put
    before the first one it is less than. *)
Fixpoint insert_sorted (less : Bin.t -> Bin.t -> bool) (x : Bin.t) (l : list Bin.t)
    : list Bin.t :=
  match l with
  | [] => [x]
  | y :: rest => if less x y then x :: y :: rest else y :: insert_sorted less x rest
  end.

Definition insertion_sort (less : Bin.t -> Bin.t -> bool) (l : list Bin.t) : list Bin.t :=
  fold_right (insert_sorted less) [] l.

(** Three bins around Algiers and a depot south-west of them. *)
Definition bin_a : Bin.t := bin_sample 1%N "BIN-1" (Some "Port") 36.75%float 3.25%float 60.
Definition bin_b : Bin.t := bin_sample 2%N "BIN-2" (Some "Casbah") 36.5%float 3%float 95.
Definition bin_c : Bin.t := bin_sample 3%N "BIN-3" None 37%float 3.5%float 95.

Definition route_rows : list Bin.t := [bin_a; bin_b; bin_c].

(** The Directions service answers with a server error page. *)
Definition route_env_down : RouteEnv :=
  mkRouteEnv (fun _ => None) 700%N (fun _ => "[...]")
             (fun _ _ _ => ParseFailed (Errorf "invalid character '<' looking for beginning of value")).

(** The Directions service answers with one route of two legs. *)
Definition route_env_up : RouteEnv :=
  mkRouteEnv (fun _ => None) 700%N (fun _ => "[...]")
             (fun _ _ _ => Decoded 200 "OK" [[Leg.mk 41000 2400; Leg.mk 52500 3000]]).

(** ** What the spec says of the two strategies *)

(** The float is a number (not a NaN). *)
Definition is_number (x : float) : bool :=
  match Prim2SF x with
  | S754_nan => false
  | _ => true
  end.

Section StrategySpecs.

Variables (math_Sin math_Cos : float -> float) (math_Atan2 : float -> float -> float).

(** From position [(lat, lng)] the bin can take part in the comparison
    [dist < minDist]: its distance is below [math.MaxFloat64]. *)
Definition in_range (lat lng : float) (b : Bin.t) : Prop :=
  (RouteService.distance_to math_Sin math_Cos math_Atan2 lat lng b <? math_MaxFloat64)%float
  = true.

(** Section 4.3, strategy 1: "Starting at the driver's current location,
    repeatedly select the unvisited bin with minimum haversine distance from
    the current position, append it as the next waypoint, and advance the
    current position to that bin."  [nearest_neighbour_tour bins lat lng seen
    wps]: from position [(lat, lng)], with the bins whose ids are in [seen]
    visited, [wps] is such a tour of all the others, numbered from
    [length seen + 1]. *)
Inductive nearest_neighbour_tour (bins : list Bin.t)
    : float -> float -> list UUID -> list Waypoint.t -> Prop :=
| tour_done (lat lng : float) (seen : list UUID) :
    (forall b, In b bins -> In (Bin.ID b) seen) ->
    nearest_neighbour_tour bins lat lng seen []
| tour_next (lat lng : float) (seen : list UUID) (b : Bin.t) (rest : list Waypoint.t) :
    In b bins ->
    ~ In (Bin.ID b) seen ->
    (forall b', In b' bins -> ~ In (Bin.ID b') seen ->
       (RouteService.distance_to math_Sin math_Cos math_Atan2 lat lng b <=?
        RouteService.distance_to math_Sin math_Cos math_Atan2 lat lng b')%float = true) ->
    nearest_neighbour_tour bins (Bin.Latitude b) (Bin.Longitude b)
                           (seen ++ [Bin.ID b])%list rest ->
    nearest_neighbour_tour bins lat lng seen
      (RouteService.waypoint_of b (Z.of_nat (length seen) + 1) :: rest).

(** Section 4.3, route metrics: "cumulative distance is the sum of
    consecutive haversine legs (driver start -> wp1 -> wp2 -> ...)". *)
Fixpoint consecutive_legs (lat lng : float) (wps : list Waypoint.t) : list float :=
  match wps with
  | [] => []
  | wp :: rest =>
      RouteService.haversineDistance math_Sin math_Cos math_Atan2 lat lng
        (Waypoint.Latitude wp) (Waypoint.Longitude wp)
      :: consecutive_legs (Waypoint.Latitude wp) (Waypoint.Longitude wp) rest
  end.

Definition heuristic_distance (lat lng : float) (wps : list Waypoint.t) : float :=
  fold_left PrimFloat.add (consecutive_legs lat lng wps) 0%float.

End StrategySpecs.

(** "duration = (distance/30)*60 + 2*stopCount", in whole minutes. *)
Definition heuristic_duration (distance : float) (stopCount : nat) : Z :=
  wrap_int (int_of_float64 (distance / 30 * 60)%float + 2 * Z.of_nat stopCount).

(** "Any failure of the external call (network error, non-OK status, empty
    result)": the request or the reading of its body failed, the body did not
    decode, its [status] is not ["OK"], or it lists no route. *)
Definition directions_failed (reply : DirectionsReply) : Prop :=
  match reply with
  | GetFailed _ | ReadFailed _ | ParseFailed _ => True
  | Decoded _ status routes => status <> "OK" \/ routes = []
  end.

(** What Go's documentation asks of a [less] function, over the elements of
    the slice: it is a strict ordering (no element is less than itself) and
    "if both Less(i, j) and Less(j, k) are true, then Less(i, k) must be true
    as well; if both Less(i, j) and Less(j, k) are false, then Less(i, k) must
    be false as well". *)
Definition transitive_ordering (less : Bin.t -> Bin.t -> bool) (l : list Bin.t) : Prop :=
  (forall x, In x l -> less x x = false) /\
  (forall x y z, In x l -> In y l -> In z l ->
     less x y = true -> less y z = true -> less x z = true) /\
  (forall x y z, In x l -> In y l -> In z l ->
     less x y = false -> less y z = false -> less x z = false).

(** [sort.IsSorted]: no element is less than the one before it. *)
Fixpoint IsSorted (less : Bin.t -> Bin.t -> bool) (l : list Bin.t) : bool :=
  match l with
  | x :: (y :: _) as rest => negb (less y x) && IsSorted less rest
  | _ => true
  end.

(** What [sort.Slice] promises: the slice is rearranged, and it is sorted
    when [less] is a transitive ordering of its elements. *)
Definition sorts (sort_Slice : (Bin.t -> Bin.t -> bool) -> list Bin.t -> list Bin.t) : Prop :=
  forall less l,
    Permutation (sort_Slice less l) l /\
    (transitive_ordering less l -> IsSorted less (sort_Slice less l) = true).

(** ** What the proofs keep track of *)

(** The row a lookup by id finds, if any. *)
Definition row_of (rows : list Bin.t) (id : UUID) : option Bin.t :=
  List.find (fun b => N.eqb (Bin.ID b) id) rows.

(** The waypoints so far name pairwise different bins of the input, all of
    them marked as visited. *)
Definition tour_inv (bins : list Bin.t) (st : RouteService.tour) : Prop :=
  NoDup (map Waypoint.BinID (RouteService.waypoints st)) /\
  forall id, In id (map Waypoint.BinID (RouteService.waypoints st)) ->
             RouteService.is_visited (RouteService.visited st) id = true /\
             In id (map Bin.ID bins).

(** The visited map holds exactly the ids of the waypoints. *)
Definition tour_exact (bins : list Bin.t) (st : RouteService.tour) : Prop :=
  tour_inv bins st /\
  forall id, RouteService.is_visited (RouteService.visited st) id = true ->
             In id (map Waypoint.BinID (RouteService.waypoints st)).

(** Case analysis on the order of two or three binary64 values, through the
    comparison of their signs, exponents and mantissas. *)
Ltac compare_cases :=
  repeat match goal with
  | H : context [Z.compare ?a ?b] |- _ => destruct (Z.compare_spec a b)
  | |- context [Z.compare ?a ?b] => destruct (Z.compare_spec a b)
  | H : context [PosDef.Pos.compare_cont Eq ?a ?b] |- _ =>
      change (PosDef.Pos.compare_cont Eq a b) with (Pos.compare a b) in H;
      destruct (Pos.compare_spec a b)
  | |- context [PosDef.Pos.compare_cont Eq ?a ?b] =>
      change (PosDef.Pos.compare_cont Eq a b) with (Pos.compare a b);
      destruct (Pos.compare_spec a b)
  end.

Ltac spec_float_cases :=
  unfold SFltb, SFleb, SFcompare in *;
  repeat match goal with
  | x : spec_float |- _ => destruct x
  | b : bool |- _ => destruct b
  end;
  simpl in *; try congruence; try reflexivity;
  compare_cases; simpl in *; subst; try congruence; try lia.

(** ** More of the shipment tracker *)

(** [type ShipmentResponse struct] and [func (s *Shipment) ToResponse()]: a
    location is given when both coordinates are there, its address is empty
    when the row has none. *)
Module ShipmentResponse.
Record t : Type := mk {
  ID : UUID;
  UserID : UUID;
  DriverID : option UUID;
  CollectionID : UUID;
  WasteType : string;
  EstimatedWeightKg : float;
  ActualWeightKg : option float;
  PriceOffered : float;
  PriceConfirmed : bool;
  ContractAddress : option string;
  Status : ShipmentStatus;
  PickupLocation : option Location.t;
  DropoffLocation : option Location.t;
  Notes : option string;
  CreatedAt : Timestamp;
  UpdatedAt : Timestamp
}.

Definition location_of (latitude longitude : option float) (address : option string)
    : option Location.t :=
  match latitude, longitude with
  | Some lat, Some lng =>
      Some (Location.mk lat lng (match address with Some a => a | None => "" end))
  | _, _ => None
  end.

Definition ToResponse (s : Shipment.t) : t :=
  mk (Shipment.ID s) (Shipment.UserID s) (Shipment.DriverID s) (Shipment.CollectionID s)
     (Shipment.WasteType s) (Shipment.EstimatedWeightKg s) (Shipment.ActualWeightKg s)
     (Shipment.PriceOffered s) (Shipment.PriceConfirmed s) (Shipment.ContractAddress s)
     (Shipment.Status s)
     (location_of (Shipment.PickupLatitude s) (Shipment.PickupLongitude s)
                  (Shipment.PickupAddress s))
     (location_of (Shipment.DropoffLatitude s) (Shipment.DropoffLongitude s)
                  (Shipment.DropoffAddress s))
     (Shipment.Notes s) (Shipment.CreatedAt s) (Shipment.UpdatedAt s).
End ShipmentResponse.

(** The same outside world, with the broker answering [fault] to a publish. *)
Definition with_broker (fault : option string) (env : Env) : Env :=
  mkEnv (uuid_New env) (time_Now env) (db_now env) (err_shipment_Create env)
        (err_shipment_GetByID env) (err_shipment_UpdateStatus env)
        (err_shipment_AssignDriver env) (err_transition_Create env) fault.

(** A list that is the old one, or the old one and one more element. *)
Definition grown_by_at_most_one {A : Type} (old new : list A) : Prop :=
  new = old \/ exists x, new = (old ++ [x])%list.

(** The successive states of one shipment: each one can transition to the
    status of the next. *)
Fixpoint lifecycle (states : list Shipment.t) : Prop :=
  match states with
  | s :: (s' :: _) as rest =>
      Shipment.CanTransitionTo s (Shipment.Status s') = true /\ lifecycle rest
  | _ => True
  end.

(** How far a status is along the table: every edge goes up. *)
Definition status_rank (status : ShipmentStatus) : nat :=
  if String.eqb status StatusCreated then 0
  else if String.eqb status StatusPriceConfirmed then 1
  else if String.eqb status StatusDriverAssigned then 2
  else if String.eqb status StatusPickupStarted then 3
  else if String.eqb status StatusInTransit then 4
  else if String.eqb status StatusDelivered then 5
  else if String.eqb status StatusDisputed then 6
  else if String.eqb status StatusResolved then 7
  else 8.

(** The longest lifecycle the table allows. *)
Definition longest_lifecycle : list Shipment.t :=
  map shipment_sample
      ["created"; "price_confirmed"; "driver_assigned"; "pickup_started"; "in_transit";
       "delivered"; "disputed"; "resolved"; "completed"].

(** ** More of the back end *)

(** [GetBinsNeedingCollection]: the active rows at or above the threshold, in
    the order the database gives them for [ORDER BY fill_level DESC]. *)
Definition BinRepository_GetBinsNeedingCollection (fault : option string)
    (order_by_fill_level : list Bin.t -> list Bin.t) (threshold : Z) (rows : list Bin.t)
    : error + list Bin.t :=
  match fault with
  | Some e => inl (DBError e)
  | None =>
      inr (order_by_fill_level
             (List.filter (fun b => Bin.IsActive b && (threshold <=? Bin.FillLevel b)) rows))
  end.

(** [func (s *RouteService) GetBinsForRoute]. *)
Definition RouteService_GetBinsForRoute (fault : option string)
    (order_by_fill_level : list Bin.t -> list Bin.t) (threshold : Z) (rows : list Bin.t)
    : error + list Bin.t :=
  BinRepository_GetBinsNeedingCollection fault order_by_fill_level threshold rows.

(** The loop "Extract bin IDs" of the [GetRoutes] handler. *)
Definition bin_ids (bins : list Bin.t) : list UUID := map Bin.ID bins.

(** [MarkCollected]: [SET fill_level = 0, last_collection_at = $1,
    last_updated_at = CURRENT_TIMESTAMP WHERE id = $2]. *)
Definition BinRepository_MarkCollected (fault : option string) (time_now db_now : Timestamp)
    (id : UUID) (rows : list Bin.t) : list Bin.t * option error :=
  match fault with
  | Some e => (rows, Some (DBError e))
  | None =>
      (map (fun b =>
              if N.eqb (Bin.ID b) id
              then Bin.mk (Bin.ID b) (Bin.DeviceID b) (Bin.LocationName b) (Bin.Latitude b)
                          (Bin.Longitude b) 0 (Bin.WasteType b) (Bin.CapacityLiters b)
                          (Some time_now) db_now (Bin.IsActive b) (Bin.CompanyID b)
                          (Bin.CreatedAt b)
              else b) rows,
       None)
  end.

(** Two rows that differ at most in fill level and time of last update. *)
Definition same_bin_but_level (b b' : Bin.t) : Prop :=
  Bin.ID b' = Bin.ID b /\ Bin.DeviceID b' = Bin.DeviceID b /\
  Bin.LocationName b' = Bin.LocationName b /\ Bin.Latitude b' = Bin.Latitude b /\
  Bin.Longitude b' = Bin.Longitude b /\ Bin.WasteType b' = Bin.WasteType b /\
  Bin.CapacityLiters b' = Bin.CapacityLiters b /\
  Bin.LastCollectionAt b' = Bin.LastCollectionAt b /\ Bin.IsActive b' = Bin.IsActive b /\
  Bin.CompanyID b' = Bin.CompanyID b /\ Bin.CreatedAt b' = Bin.CreatedAt b.

(** The fill level is a percentage. *)
Definition fill_level_ok (b : Bin.t) : Prop := 0 <= Bin.FillLevel b <= 100.

(** The same outside world, with another Directions service. *)
Definition with_directions (directions' : float -> float -> list Waypoint.t -> DirectionsReply)
    (env : RouteEnv) : RouteEnv :=
  mkRouteEnv (err_bin_GetByID env) (route_id env) (json_text env) directions'.

(** What each operation does to the world, step by step: the shipments change
    at one key at most, and the two logs grow by one entry at most. *)
Definition touches_only (id : UUID) (w w' : World) : Prop :=
  (forall id', id' <> id -> shipments w' !! id' = shipments w !! id') /\
  grown_by_at_most_one (state_transitions w) (state_transitions w') /\
  grown_by_at_most_one (published w) (published w').

(** Two routes that differ at most in the distance and the duration. *)
Definition same_route_but_metrics (r r' : DriverRoute.t) : Prop :=
  DriverRoute.ID r' = DriverRoute.ID r /\ DriverRoute.DriverID r' = DriverRoute.DriverID r /\
  DriverRoute.Waypoints r' = DriverRoute.Waypoints r /\
  DriverRoute.WaypointsList r' = DriverRoute.WaypointsList r /\
  DriverRoute.Status r' = DriverRoute.Status r /\
  DriverRoute.CreatedAt r' = DriverRoute.CreatedAt r /\
  DriverRoute.StartedAt r' = DriverRoute.StartedAt r /\
  DriverRoute.CompletedAt r' = DriverRoute.CompletedAt r.

(** Two calls of [OptimizeRoute] that end the same way: both still running,
    both with the same error, or both with a route that differs at most in
    the distance and the duration. *)
Definition same_outcome_but_metrics (x y : option (error + DriverRoute.t)) : Prop :=
  match x, y with
  | None, None => True
  | Some (inl e), Some (inl e') => e' = e
  | Some (inr r), Some (inr r') => same_route_but_metrics r r'
  | _, _ => False
  end.

(** The ids of a request that name a row. *)
Definition known_ids (rows : list Bin.t) (binIDs : list UUID) : list UUID :=
  List.filter (fun id => bool_decide (is_Some (row_of rows id))) binIDs.

(* ===================================================================== *)
(** * Part II: the properties *)
(* ===================================================================== *)

(** ** The state machine *)

Lemma status_in_true (t : string) (l : list string) :
  Shipment.status_in t l = true <-> In t l.
Proof.
  induction l as [|x l IH]; simpl.
  - split; [discriminate | tauto].
  - destruct (String.eqb_spec x t) as [->|Hne].
    + split; auto.
    + rewrite IH. split; [auto | intros [?|?]; [contradiction | assumption]].
Qed.

Lemma ValidTransitions_lookup (s : string) (l : list string) :
  ValidTransitions !! s = Some l <->
  (s = "created" /\ l = ["price_confirmed"; "cancelled"]) \/
  (s = "price_confirmed" /\ l = ["driver_assigned"; "cancelled"]) \/
  (s = "driver_assigned" /\ l = ["pickup_started"; "disputed"; "cancelled"]) \/
  (s = "pickup_started" /\ l = ["in_transit"; "disputed"]) \/
  (s = "in_transit" /\ l = ["delivered"; "disputed"]) \/
  (s = "delivered" /\ l = ["completed"; "disputed"]) \/
  (s = "disputed" /\ l = ["resolved"]) \/
  (s = "resolved" /\ l = ["completed"]).
Proof.
  unfold ValidTransitions, StatusCreated, StatusPriceConfirmed, StatusDriverAssigned,
    StatusPickupStarted, StatusInTransit, StatusDelivered, StatusCompleted,
    StatusCancelled, StatusDisputed, StatusResolved.
  repeat rewrite lookup_insert_Some. rewrite lookup_empty.
  split.
  - intros H. decompose [and or] H; subst; try discriminate; tauto.
  - intros H. decompose [and or] H; subst; clear H.
    all: repeat (first [ left; split; [reflexivity | reflexivity]
                       | right; split; [discriminate | ] ]).
Qed.

(** [table_keys] lists the keys of [ValidTransitions]. *)
Lemma ValidTransitions_keys (s : string) :
  is_Some (ValidTransitions !! s) <-> In s table_keys.
Proof.
  split.
  - intros [l Hl]. apply ValidTransitions_lookup in Hl.
    decompose [and or] Hl; subst; simpl; tauto.
  - intros Hin. simpl in Hin. decompose [or] Hin; subst; try contradiction;
      vm_compute; eexists; reflexivity.
Qed.

Lemma CanTransitionTo_true_iff (s : Shipment.t) (t : string) :
  Shipment.CanTransitionTo s t = true <-> spec_edge (Shipment.Status s) t.
Proof.
  unfold Shipment.CanTransitionTo. split.
  - destruct (ValidTransitions !! Shipment.Status s) as [l|] eqn:E; [|discriminate].
    apply ValidTransitions_lookup in E. rewrite status_in_true.
    intros Hin.
    decompose [and or] E; subst l;
      match goal with H : Shipment.Status s = _ |- _ => rewrite H end;
      simpl in Hin; decompose [or] Hin; subst; try contradiction; constructor.
  - intros He. inversion He; vm_compute; reflexivity.
Qed.

Lemma CanTransitionTo_false_iff (s : Shipment.t) (t : string) :
  Shipment.CanTransitionTo s t = false <-> ~ spec_edge (Shipment.Status s) t.
Proof.
  rewrite <- CanTransitionTo_true_iff.
  destruct (Shipment.CanTransitionTo s t); split; congruence.
Qed.

(** C1. [CanTransitionTo] answers true exactly on the fifteen edges of the
    spec's adjacency table, whatever strings the two statuses are; hence it
    answers false from [cancelled], from [completed] and from any status that
    is not a key of the table. *)
Theorem CanTransitionTo_iff_table :
  (forall (s : Shipment.t) (t : string),
      Shipment.CanTransitionTo s t = true <-> spec_edge (Shipment.Status s) t) /\
  (forall (s : Shipment.t) (t : string),
      Shipment.Status s = "cancelled" \/ Shipment.Status s = "completed" \/
      ~ In (Shipment.Status s) table_keys ->
      Shipment.CanTransitionTo s t = false).
Proof.
  split; [exact CanTransitionTo_true_iff|].
  intros s t Hk.
  apply CanTransitionTo_false_iff. intros E.
  destruct Hk as [Hk|[Hk|Hk]].
  - rewrite Hk in E. inversion E.
  - rewrite Hk in E. inversion E.
  - apply Hk. inversion E; simpl; tauto.
Qed.

(** The witness of C1: a cancelled shipment cannot be confirmed, a created
    one can. *)
Lemma CanTransitionTo_iff_table_witness :
  Shipment.CanTransitionTo (shipment_sample "cancelled") "price_confirmed" = false /\
  Shipment.CanTransitionTo (shipment_sample "created") "price_confirmed" = true.
Proof.
  destruct CanTransitionTo_iff_table as [Hiff Hterm]. split.
  - apply Hterm. left. reflexivity.
  - apply Hiff. simpl. constructor.
Defined.

(** ** The lifecycle operations *)

Lemma publishEvent_tables (env : Env) (ku kt : nat) (topic : string) (d : EventData)
    (w : World) :
  shipments (ShipmentService.publishEvent env ku kt topic d w) = shipments w /\
  state_transitions (ShipmentService.publishEvent env ku kt topic d w) = state_transitions w.
Proof.
  unfold ShipmentService.publishEvent. destruct (err_Publish env); simpl; auto.
Qed.

Lemma TransitionRepository_Create_cases (fault : option string) (t : StateTransition.t) (w : World) :
  let r := TransitionRepository.Create fault t w in
  shipments (fst r) = shipments w /\ published (fst r) = published w /\
  ((state_transitions (fst r) = state_transitions w /\ snd r <> None) \/
   (exists t', state_transitions (fst r) = (state_transitions w ++ [t'])%list /\
               snd r = None /\
               StateTransition.ShipmentID t' = StateTransition.ShipmentID t /\
               StateTransition.ToStatus t' = StateTransition.ToStatus t /\
               is_Some (shipments w !! StateTransition.ShipmentID t))).
Proof.
  unfold TransitionRepository.Create.
  set (t0 := match StateTransition.Metadata t with
             | None => StateTransition.with_metadata (Some "{}") t
             | Some _ => t end).
  assert (Hid : StateTransition.ShipmentID t0 = StateTransition.ShipmentID t)
    by (unfold t0; destruct (StateTransition.Metadata t); reflexivity).
  assert (Hto : StateTransition.ToStatus t0 = StateTransition.ToStatus t)
    by (unfold t0; destruct (StateTransition.Metadata t); reflexivity).
  destruct fault as [e|]; simpl.
  { do 2 (split; [reflexivity|]). left. split; [reflexivity | discriminate]. }
  destruct (existsb _ _); simpl.
  { do 2 (split; [reflexivity|]). left. split; [reflexivity | discriminate]. }
  rewrite Hid.
  destruct (shipments w !! StateTransition.ShipmentID t) as [s|] eqn:E; simpl.
  - do 2 (split; [reflexivity|]). right. exists t0.
    do 4 (split; [first [reflexivity | assumption]|]). exists s. reflexivity.
  - do 2 (split; [reflexivity|]). left. split; [reflexivity | discriminate].
Qed.

Lemma app_singleton_neq {A : Type} (l : list A) (x : A) : l <> (l ++ [x])%list.
Proof.
  intros H. apply (f_equal (@length A)) in H. rewrite length_app in H. simpl in H. lia.
Qed.

Lemma latest_transition_snoc (sh : gmap N Shipment.t) (ts : list StateTransition.t)
    (p : list (string * EventPayload.t)) (t : StateTransition.t) :
  latest_transition (mkWorld sh (ts ++ [t])%list p) (StateTransition.ShipmentID t) = Some t.
Proof.
  unfold latest_transition, TransitionRepository.GetByShipmentID. simpl.
  rewrite filter_app, filter_cons_True by reflexivity.
  rewrite filter_nil. apply last_snoc.
Qed.

Lemma latest_transition_ext (w w' : World) (id : UUID) :
  state_transitions w = state_transitions w' -> latest_transition w id = latest_transition w' id.
Proof.
  unfold latest_transition, TransitionRepository.GetByShipmentID. intros ->. reflexivity.
Qed.

(** The state of the tables after an operation that went past its UPDATE (or
    INSERT) of the shipment and then recorded [t]. *)
Lemma recorded_matches (w1 w2 w3 w0 : World) (t : StateTransition.t) (id : UUID)
    (st : ShipmentStatus) (fault : option string) (s : Shipment.t) :
  w2 = fst (TransitionRepository.Create fault t w1) ->
  shipments w3 = shipments w2 -> state_transitions w3 = state_transitions w2 ->
  state_transitions w1 = state_transitions w0 ->
  StateTransition.ShipmentID t = id -> StateTransition.ToStatus t = st ->
  shipments w1 !! id = Some s -> Shipment.Status s = st ->
  transition_recorded w0 w3 ->
  status_matches_log w3 id.
Proof.
  intros Hw2 Hs3 Ht3 Ht1 Hid Hto Hrow Hst [t' Hrec].
  destruct (TransitionRepository_Create_cases fault t w1) as (Hs & _ & Hcase).
  rewrite <- Hw2 in Hs, Hcase.
  destruct Hcase as [[Hsame _]|(t'' & Happ & _ & Hid'' & Hto'' & _)].
  - exfalso. rewrite Ht3, Hsame, Ht1 in Hrec. exact (app_singleton_neq _ _ Hrec).
  - exists s, t''. split; [|split].
    + rewrite Hs3, Hs. exact Hrow.
    + rewrite (latest_transition_ext w3 (mkWorld (shipments w3) (state_transitions w1 ++ [t''])%list (published w3))).
      * rewrite <- Hid, <- Hid''. apply latest_transition_snoc.
      * simpl. rewrite Ht3. exact Happ.
    + rewrite Hto''. congruence.
Qed.

(** C3. When the table does not allow the step, [AssignDriver] (for a shipment
    it could load) and [updateStatusAndRecord] return their invalid-transition
    error and the world they return is the one they were given: same shipment
    rows, same transition log, same published events. *)
Theorem invalid_transition_leaves_world_untouched :
  (forall (env : Env) (shipmentID driverID : UUID) (w : World) (s : Shipment.t),
      ShipmentRepository.GetByID (err_shipment_GetByID env) shipmentID w = inr (Some s) ->
      ~ spec_edge (Shipment.Status s) StatusDriverAssigned ->
      ShipmentService.AssignDriver env shipmentID driverID w =
        (w, Some (Errorf ("cannot transition from " ++ Shipment.Status s ++ " to driver_assigned")))) /\
  (forall (env : Env) (shipment : Shipment.t) (newStatus : ShipmentStatus) (triggeredBy : UUID)
          (role : string) (proofHash signature : option string) (metadata : option string)
          (w : World),
      ~ spec_edge (Shipment.Status shipment) newStatus ->
      ShipmentService.updateStatusAndRecord env shipment newStatus triggeredBy role
          proofHash signature metadata w =
        (w, Some (Errorf ("invalid transition from " ++ Shipment.Status shipment ++ " to " ++ newStatus)))).
Proof.
  split.
  - intros env sid did w s Hget Hno.
    unfold ShipmentService.AssignDriver. rewrite Hget.
    apply CanTransitionTo_false_iff in Hno. rewrite Hno. reflexivity.
  - intros env sh new by_ role ph sg md w Hno.
    unfold ShipmentService.updateStatusAndRecord.
    apply CanTransitionTo_false_iff in Hno. rewrite Hno. reflexivity.
Qed.

(** The witness of C3: assigning a driver to a shipment that is still
    [created], and delivering a shipment that is [cancelled]. *)
Lemma invalid_transition_leaves_world_untouched_witness :
  ShipmentService.AssignDriver env_ok 1%N 55%N (world_with "created") =
    (world_with "created", Some (Errorf "cannot transition from created to driver_assigned")) /\
  ShipmentService.updateStatusAndRecord env_ok (shipment_sample "cancelled") "delivered"
      55%N "driver" None None (Some "null") (world_with "cancelled") =
    (world_with "cancelled", Some (Errorf "invalid transition from cancelled to delivered")).
Proof.
  destruct invalid_transition_leaves_world_untouched as [HA HU]. split.
  - apply (HA env_ok 1%N 55%N (world_with "created") (shipment_sample "created")).
    + vm_compute. reflexivity.
    + simpl. intros E. inversion E.
  - apply (HU env_ok (shipment_sample "cancelled") "delivered" 55%N "driver" None None (Some "null")
              (world_with "cancelled")).
    simpl. intros E. inversion E.
Defined.

(** C2 (amended). After [CreateShipment] or [AssignDriver] reports success and
    has recorded its transition, and after [updateStatusAndRecord] reports
    success (it then always has recorded one), the stored status of the
    shipment equals the [ToStatus] of the latest transition of that shipment. *)
Theorem status_matches_latest_transition :
  (forall (env : Env) (req : CreateShipmentRequest.t) (w w' : World) (s : Shipment.t),
      ShipmentService.CreateShipment env req w = (w', (Some s, None)) ->
      transition_recorded w w' ->
      status_matches_log w' (Shipment.ID s)) /\
  (forall (env : Env) (shipmentID driverID : UUID) (w w' : World),
      ShipmentService.AssignDriver env shipmentID driverID w = (w', None) ->
      transition_recorded w w' ->
      status_matches_log w' shipmentID) /\
  (forall (env : Env) (shipment : Shipment.t) (newStatus : ShipmentStatus) (triggeredBy : UUID)
          (role : string) (proofHash signature : option string) (metadata : option string)
          (w w' : World),
      ShipmentService.updateStatusAndRecord env shipment newStatus triggeredBy role
          proofHash signature metadata w = (w', None) ->
      transition_recorded w w' /\ status_matches_log w' (Shipment.ID shipment)).
Proof.
  split; [|split].
  - intros env req w w' s. unfold ShipmentService.CreateShipment.
    set (shipment := Shipment.mk _ _ _ _ _ _ _ _ _ _ _ _ _ _ _ _ _ _ _ _ _).
    set (transition := StateTransition.mk _ _ _ _ _ _ _ _ _ _ _).
    unfold ShipmentRepository.Create.
    destruct (err_shipment_Create env); [discriminate|].
    change (Shipment.ID shipment) with (uuid_New env 0).
    destruct (shipments w !! uuid_New env 0) eqn:Hfresh; [discriminate|].
    set (row := Shipment.mk _ _ _ _ _ _ _ _ _ _ _ _ _ _ _ _ _ _ _ _ _).
    set (w1 := mkWorld _ _ _).
    intros Heq Hrec. injection Heq as Hw' Hs. subst s.
    change (Shipment.ID shipment) with (uuid_New env 0).
    destruct (publishEvent_tables env 2 1 TopicShipmentCreated (DataShipment shipment)
                (fst (TransitionRepository.Create (err_transition_Create env) transition w1)))
      as [Hps Hpt].
    rewrite Hw' in Hps, Hpt.
    eapply (recorded_matches w1 _ w' w transition (uuid_New env 0) StatusCreated _ row);
      try reflexivity; try eassumption.
    unfold w1. simpl. apply lookup_insert_eq.
  - intros env sid did w w'. unfold ShipmentService.AssignDriver, ShipmentRepository.GetByID.
    destruct (err_shipment_GetByID env); [discriminate|].
    destruct (shipments w !! sid) as [shipment|] eqn:Hrow; [|discriminate].
    destruct (Shipment.CanTransitionTo shipment StatusDriverAssigned); simpl; [|discriminate].
    unfold ShipmentRepository.AssignDriver.
    destruct (err_shipment_AssignDriver env); [discriminate|].
    set (w1 := mkWorld _ _ _).
    set (transition := StateTransition.mk _ _ _ _ _ _ _ _ _ _ _).
    intros Heq Hrec. injection Heq as Hw'.
    destruct (publishEvent_tables env 1 1 TopicDriverAssigned (DataDriverAssigned sid did)
                (fst (TransitionRepository.Create (err_transition_Create env) transition w1)))
      as [Hps Hpt].
    rewrite Hw' in Hps, Hpt.
    eapply (recorded_matches w1 _ w' w transition sid StatusDriverAssigned _
              (Shipment.with_driver (db_now env) did StatusDriverAssigned shipment));
      try reflexivity; try eassumption.
    unfold w1. simpl. rewrite lookup_alter_eq, Hrow. reflexivity.
  - intros env sh new by_ role ph sg md w w'.
    unfold ShipmentService.updateStatusAndRecord.
    destruct (Shipment.CanTransitionTo sh new); simpl; [|discriminate].
    unfold ShipmentRepository.UpdateStatus.
    destruct (err_shipment_UpdateStatus env); [discriminate|].
    set (w1 := mkWorld _ _ _).
    set (transition := StateTransition.mk _ _ _ _ _ _ _ _ _ _ _).
    destruct (TransitionRepository_Create_cases (err_transition_Create env) transition w1)
      as (Hs & _ & Hcase).
    destruct (TransitionRepository.Create (err_transition_Create env) transition w1)
      as [w2 [err|]] eqn:Hcreate; [discriminate|].
    simpl in Hs, Hcase.
    intros Heq. injection Heq as Hw'.
    destruct (publishEvent_tables env 1 1 (ShipmentService.getTopicForStatus new)
                (DataStatus (Shipment.ID sh) new by_) w2) as [Hps Hpt].
    rewrite Hw' in Hps, Hpt.
    destruct Hcase as [[_ Hne]|(t' & Happ & _ & _ & _ & [s0 Hfk])]; [congruence|].
    assert (Hrec : transition_recorded w w').
    { exists t'. rewrite Hpt, Happ. reflexivity. }
    split; [exact Hrec|].
    simpl in Hfk. rewrite lookup_alter_eq in Hfk.
    destruct (shipments w !! Shipment.ID sh) as [s1|] eqn:Hrow; [|discriminate].
    eapply (recorded_matches w1 w2 w' w transition (Shipment.ID sh) new
              (err_transition_Create env) (Shipment.with_status (db_now env) new s1));
      try reflexivity; try eassumption.
    + rewrite Hcreate. reflexivity.
    + unfold w1. simpl. rewrite lookup_alter_eq, Hrow. reflexivity.
Qed.

(** The witness of C2: a shipment is created, another one gets its driver, a
    third one its price confirmed, with the database and the broker up. *)
Lemma status_matches_latest_transition_witness :
  status_matches_log
    (fst (ShipmentService.CreateShipment env_ok req_sample world_empty)) 100%N /\
  status_matches_log
    (fst (ShipmentService.AssignDriver env_ok 1%N 55%N (world_with "price_confirmed"))) 1%N /\
  status_matches_log
    (fst (ShipmentService.updateStatusAndRecord env_ok (shipment_sample "created")
            "price_confirmed" 7%N "user" None None (Some "null") (world_with "created"))) 1%N.
Proof.
  destruct status_matches_latest_transition as (HC & HA & HU). split; [|split].
  - apply (HC env_ok req_sample world_empty _ shipment_created).
    + vm_compute. reflexivity.
    + eexists. reflexivity.
  - apply (HA env_ok 1%N 55%N (world_with "price_confirmed")).
    + vm_compute. reflexivity.
    + eexists. reflexivity.
  - apply (HU env_ok (shipment_sample "created") "price_confirmed" 7%N "user" None None (Some "null")
              (world_with "created")).
    vm_compute. reflexivity.
Defined.

(** C2 as stated fails: with the [state_transitions] INSERT failing,
    [CreateShipment] still reports success, the shipment is stored as
    [created], and it has no transition at all. *)
Lemma CreateShipment_succeeds_without_transition :
  let r := ShipmentService.CreateShipment env_log_down req_sample world_empty in
  snd r = (Some shipment_created, None) /\
  Shipment.Status <$> (shipments (fst r) !! 100%N) = Some "created" /\
  latest_transition (fst r) 100%N = None /\
  ~ status_matches_log (fst r) (Shipment.ID shipment_created).
Proof.
  cbv zeta. split; [vm_compute; reflexivity|].
  split; [vm_compute; reflexivity|].
  split; [vm_compute; reflexivity|].
  intros (s & t & _ & Hl & _). vm_compute in Hl. discriminate.
Qed.

(** The same failure under [AssignDriver], which never looks at the result of
    recording the transition: the call reports success, the stored status is
    [driver_assigned], and the log is still empty. *)
Lemma AssignDriver_succeeds_without_transition :
  let r := ShipmentService.AssignDriver env_log_down 1%N 55%N (world_with "price_confirmed") in
  snd r = None /\
  Shipment.Status <$> (shipments (fst r) !! 1%N) = Some "driver_assigned" /\
  state_transitions (fst r) = [] /\
  ~ status_matches_log (fst r) 1%N.
Proof.
  cbv zeta. split; [vm_compute; reflexivity|].
  split; [vm_compute; reflexivity|].
  split; [vm_compute; reflexivity|].
  intros (s & t & _ & Hl & _). vm_compute in Hl. discriminate.
Qed.

(** [updateStatusAndRecord] does return that failure, but only after the
    status has been written: the caller sees the error, and the stored status
    is already ahead of the log. *)
Lemma updateStatusAndRecord_fails_after_status_write :
  let r := ShipmentService.updateStatusAndRecord env_log_down (shipment_sample "created")
             "price_confirmed" 7%N "user" None None (Some "null") (world_with "created") in
  snd r = Some (DBError "connection reset by peer") /\
  Shipment.Status <$> (shipments (fst r) !! 1%N) = Some "price_confirmed" /\
  state_transitions (fst r) = [].
Proof.
  cbv zeta. repeat split; vm_compute; reflexivity.
Qed.

(** ** The telemetry intake *)

Lemma UpdateFillLevel_device_ids (fault : option string) (now : Timestamp) (dev : string)
    (level : Z) (rows : list Bin.t) :
  map Bin.DeviceID (fst (BinRepository.UpdateFillLevel fault now dev level rows)) =
  map Bin.DeviceID rows.
Proof.
  unfold BinRepository.UpdateFillLevel.
  destruct fault; [reflexivity|].
  destruct (_ && _); [reflexivity|]. simpl.
  rewrite map_map. apply map_ext. intros b.
  destruct (String.eqb (Bin.DeviceID b) dev); reflexivity.
Qed.

Lemma find_device_after_update (now : Timestamp) (dev : string) (level : Z) (rows : list Bin.t) :
  List.find (fun b => String.eqb (Bin.DeviceID b) dev)
    (map (fun b => if String.eqb (Bin.DeviceID b) dev
                   then Bin.with_fill_level now level b else b) rows) =
  Bin.with_fill_level now level <$> List.find (fun b => String.eqb (Bin.DeviceID b) dev) rows.
Proof.
  induction rows as [|b rows IH]; simpl; [reflexivity|].
  destruct (String.eqb (Bin.DeviceID b) dev) eqn:E; simpl; rewrite E; [reflexivity | exact IH].
Qed.

Lemma find_device_present (dev : string) (rows : list Bin.t) :
  In dev (map Bin.DeviceID rows) ->
  exists b, List.find (fun b => String.eqb (Bin.DeviceID b) dev) rows = Some b /\
            Bin.DeviceID b = dev.
Proof.
  induction rows as [|b rows IH]; simpl; [tauto|].
  intros Hin. destruct (String.eqb_spec (Bin.DeviceID b) dev) as [Heq|Hne].
  - exists b. split; [reflexivity | exact Heq].
  - destruct Hin as [Hin|Hin]; [contradiction|]. apply IH, Hin.
Qed.

(** C4. A report that decodes to a fill level below 0 or above 100 changes no
    row of [bins] (so neither a stored fill level nor a [last_updated_at]),
    starts no dispatch, and is reported by the log line "Invalid fill level
    ... for bin ...", the only report a handler without return value makes. *)
Theorem out_of_range_report_is_rejected (c : Client.t) (env : IntakeEnv) (payload : string)
    (w : Backend) (status : BinStatusUpdate.t) :
  json_Unmarshal env payload = inr status ->
  BinStatusUpdate.FillLevel status < 0 \/ 100 < BinStatusUpdate.FillLevel status ->
  let w' := mqtt.processBinStatus c env payload w in
  bins w' = bins w /\
  drivers w' = drivers w /\
  dispatch_requests w' = dispatch_requests w /\
  logged w' =
    (logged w ++
       [LogProcessing (BinStatusUpdate.BinID status) (BinStatusUpdate.FillLevel status);
        LogInvalidFillLevel (BinStatusUpdate.FillLevel status) (BinStatusUpdate.BinID status)])%list.
Proof.
  intros Hdec Hrange w'. subst w'. unfold mqtt.processBinStatus. rewrite Hdec.
  assert (Hbad : (BinStatusUpdate.FillLevel status <? 0)
                 || (100 <? BinStatusUpdate.FillLevel status) = true).
  { apply orb_true_iff. destruct Hrange; [left|right]; apply Z.ltb_lt; assumption. }
  rewrite Hbad. simpl. rewrite <- app_assoc. simpl. auto.
Qed.

(** A payload that does not decode (a fill level that is no [int], say) is
    dropped as well, with the log line of the decoder's error. *)
Lemma undecodable_report_is_dropped (c : Client.t) (env : IntakeEnv) (payload : string)
    (w : Backend) (err : error) :
  json_Unmarshal env payload = inl err ->
  mqtt.processBinStatus c env payload w = log_Printf (LogParseFailed err) w.
Proof.
  intros Hdec. unfold mqtt.processBinStatus. rewrite Hdec. reflexivity.
Qed.

(** The witness of C4: the stored 85 survives a report of 150 and one of -5. *)
Lemma out_of_range_report_is_rejected_witness :
  bins (mqtt.processBinStatus mqtt.NewClient intake_env "bin-1 reports 150" backend_sample) =
    bins backend_sample /\
  bins (mqtt.processBinStatus mqtt.NewClient intake_env "bin-1 reports -5" backend_sample) =
    bins backend_sample.
Proof.
  split.
  - apply (out_of_range_report_is_rejected mqtt.NewClient intake_env "bin-1 reports 150"
             backend_sample (BinStatusUpdate.mk "BIN-1" 150)).
    + reflexivity.
    + right. simpl. lia.
  - apply (out_of_range_report_is_rejected mqtt.NewClient intake_env "bin-1 reports -5"
             backend_sample (BinStatusUpdate.mk "BIN-1" (-5))).
    + reflexivity.
    + left. simpl. lia.
Defined.

(** What one accepted report does: the rows of its device get the level and
    the time, and a dispatch is requested exactly when the level is at or
    above the threshold; the stored level before the report plays no part. *)
Lemma accepted_report_step (c : Client.t) (env : IntakeEnv) (payload : string)
    (w : Backend) (status : BinStatusUpdate.t) :
  err_UpdateFillLevel env = None -> err_GetByDeviceID env = None ->
  json_Unmarshal env payload = inr status ->
  0 <= BinStatusUpdate.FillLevel status <= 100 ->
  In (BinStatusUpdate.BinID status) (map Bin.DeviceID (bins w)) ->
  let w' := mqtt.processBinStatus c env payload w in
  map Bin.DeviceID (bins w') = map Bin.DeviceID (bins w) /\
  map (fun b => (Bin.DeviceID b, Bin.FillLevel b)) (dispatch_requests w') =
    (map (fun b => (Bin.DeviceID b, Bin.FillLevel b)) (dispatch_requests w) ++
     (if Client.fillLevelThreshold c <=? BinStatusUpdate.FillLevel status
      then [(BinStatusUpdate.BinID status, BinStatusUpdate.FillLevel status)]
      else []))%list.
Proof.
  intros Hupd Hget Hdec Hrange Hrow w'. subst w'.
  unfold mqtt.processBinStatus. rewrite Hdec.
  assert (Hok : (BinStatusUpdate.FillLevel status <? 0)
                || (100 <? BinStatusUpdate.FillLevel status) = false).
  { apply orb_false_iff. split; apply Z.ltb_ge; lia. }
  rewrite Hok. cbn [bins log_Printf].
  pose proof (UpdateFillLevel_device_ids (err_UpdateFillLevel env) (bins_now env)
                (BinStatusUpdate.BinID status) (BinStatusUpdate.FillLevel status) (bins w)) as Hids.
  unfold BinRepository.UpdateFillLevel in *. rewrite Hupd in *.
  assert (Hchk : negb ((0 <=? BinStatusUpdate.FillLevel status)
                       && (BinStatusUpdate.FillLevel status <=? 100)) = false).
  { apply negb_false_iff, andb_true_iff. split; apply Z.leb_le; lia. }
  rewrite Hchk, andb_false_r in *. simpl in Hids.
  destruct (Client.fillLevelThreshold c <=? BinStatusUpdate.FillLevel status).
  - cbn [bins log_Printf drivers logged dispatch_requests].
    unfold BinRepository.GetByDeviceID. rewrite Hget, find_device_after_update.
    destruct (find_device_present _ _ Hrow) as (b & Hfind & Hdev). rewrite Hfind.
    cbn [fmap option_fmap option_map bins dispatch_requests]. split; [exact Hids|].
    rewrite map_app. simpl. rewrite Hdev. reflexivity.
  - cbn [bins dispatch_requests]. split; [exact Hids|]. rewrite app_nil_r. reflexivity.
Qed.

(** C5 (amended). Over any sequence of accepted reports (each decodes, is in
    0..100, is stored, and finds its bin) the dispatch requests are, in order,
    exactly the reports whose level is at or above the threshold: one request
    for each of them, whatever the level before it was, and none for the
    others. *)
Theorem dispatch_for_each_report_at_or_above_threshold (c : Client.t) (env : IntakeEnv)
    (payloads : list string) (statuses : list BinStatusUpdate.t) (w : Backend) :
  err_UpdateFillLevel env = None -> err_GetByDeviceID env = None ->
  Forall2 (fun payload status => json_Unmarshal env payload = inr status) payloads statuses ->
  Forall (fun status =>
            0 <= BinStatusUpdate.FillLevel status <= 100 /\
            In (BinStatusUpdate.BinID status) (map Bin.DeviceID (bins w))) statuses ->
  map (fun b => (Bin.DeviceID b, Bin.FillLevel b))
      (dispatch_requests (mqtt.process_all c env payloads w)) =
    (map (fun b => (Bin.DeviceID b, Bin.FillLevel b)) (dispatch_requests w) ++
     map (fun status => (BinStatusUpdate.BinID status, BinStatusUpdate.FillLevel status))
         (List.filter (fun status => Client.fillLevelThreshold c <=? BinStatusUpdate.FillLevel status)
                      statuses))%list.
Proof.
  intros Hupd Hget Hdec. revert w.
  induction Hdec as [|payload status payloads statuses Hd Hrest IH]; intros w Hall.
  - simpl. rewrite app_nil_r. reflexivity.
  - apply Forall_cons_1 in Hall as [[Hrange Hrow] Hall].
    destruct (accepted_report_step c env payload w status Hupd Hget Hd Hrange Hrow)
      as [Hids Hstep].
    unfold mqtt.process_all in *. simpl fold_left.
    rewrite IH.
    + rewrite Hstep. simpl List.filter.
      destruct (Client.fillLevelThreshold c <=? BinStatusUpdate.FillLevel status);
        simpl; rewrite <- app_assoc; reflexivity.
    + rewrite Hids. exact Hall.
Qed.

(** The witness of C5: the bin stands at 85 and reports 95, 85, 97. *)
Lemma dispatch_for_each_report_at_or_above_threshold_witness :
  map (fun b => (Bin.DeviceID b, Bin.FillLevel b))
      (dispatch_requests
         (mqtt.process_all mqtt.NewClient intake_env
            ["bin-1 reports 95"; "bin-1 reports 85"; "bin-1 reports 97"] backend_sample)) =
  [("BIN-1", 95); ("BIN-1", 97)].
Proof.
  apply (dispatch_for_each_report_at_or_above_threshold mqtt.NewClient intake_env
           ["bin-1 reports 95"; "bin-1 reports 85"; "bin-1 reports 97"]
           [BinStatusUpdate.mk "BIN-1" 95; BinStatusUpdate.mk "BIN-1" 85;
            BinStatusUpdate.mk "BIN-1" 97] backend_sample).
  - reflexivity.
  - reflexivity.
  - repeat constructor.
  - repeat constructor; simpl; lia.
Defined.

(** C5 as stated fails: the bin stands at 85; the report of 95 requests a
    dispatch, and the report of 97 that follows it, still at or above 90,
    requests another one. *)
Lemma report_that_stays_above_threshold_dispatches_again :
  let w1 := mqtt.processBinStatus mqtt.NewClient intake_env "bin-1 reports 95" backend_sample in
  let w2 := mqtt.processBinStatus mqtt.NewClient intake_env "bin-1 reports 97" w1 in
  map Bin.FillLevel (bins backend_sample) = [85] /\
  dispatch_requests backend_sample = [] /\
  map Bin.FillLevel (bins w1) = [95] /\
  length (dispatch_requests w1) = 1%nat /\
  map Bin.FillLevel (bins w2) = [97] /\
  length (dispatch_requests w2) = 2%nat.
Proof.
  cbv zeta. repeat split; vm_compute; reflexivity.
Qed.

(** ** The dispatch *)

(** The driver lookup never gets to a row: the database fails, or the
    [distance] column of the result finds no field in [models.Driver]. *)
Lemma GetNearestDriver_fails (fault : option string)
    (order : float -> float -> list Driver.t -> list Driver.t) (lat lng : float)
    (rows : list Driver.t) :
  DriverRepository.GetNearestDriver fault order lat lng rows =
    inl (match fault with
         | Some e => DBError e
         | None => Errorf "missing destination name distance in *models.Driver"
         end).
Proof.
  unfold DriverRepository.GetNearestDriver. destruct fault; reflexivity.
Qed.

(** C10, where the code breaks it: the bin has no location name, a driver is
    available with a known position, and the call does not panic.  The lookup
    of the driver fails, as it does on every call, and [NotifyNearestDriver]
    returns that error before it builds the message. *)
Theorem NotifyNearestDriver_returns_before_the_nil_location_name :
  let bin := bin_sample 1%N "BIN-1" None 36.75%float 3.25%float 95 in
  Bin.LocationName bin = None /\
  Forall (fun d => DriverRepository.eligible d = true) (drivers backend_sample) /\
  drivers backend_sample <> [] /\
  NotificationService.NotifyNearestDriver intake_env bin backend_sample =
    (log_Printf (LogFindingDriver "BIN-1" 36.75%float 3.25%float) backend_sample,
     Returned (Some (Wrapf "failed to find nearest driver"
                       (Errorf "missing destination name distance in *models.Driver")))).
Proof.
  cbv zeta. split; [reflexivity|]. split; [repeat constructor|]. split; [discriminate|].
  unfold NotificationService.NotifyNearestDriver. rewrite GetNearestDriver_fails.
  reflexivity.
Qed.

(** ** The order of binary64 numbers *)

Lemma SFltb_irrefl (a : spec_float) : SFltb a a = false.
Proof. spec_float_cases. Qed.

Lemma SFltb_trans (a b c : spec_float) :
  SFltb a b = true -> SFltb b c = true -> SFltb a c = true.
Proof. intros H1 H2. spec_float_cases. Qed.

Lemma SFltb_cotrans (a b c : spec_float) :
  b <> S754_nan -> SFltb a b = false -> SFltb b c = false -> SFltb a c = false.
Proof. intros Hb H1 H2. revert Hb H1 H2. spec_float_cases. Qed.

Lemma SFleb_of_not_ltb (a b : spec_float) :
  a <> S754_nan -> b <> S754_nan -> SFltb b a = false -> SFleb a b = true.
Proof. intros Ha Hb H. revert Ha Hb H. spec_float_cases. Qed.

Lemma SFltb_number (a b : spec_float) : SFltb a b = true -> a <> S754_nan.
Proof. intros H. spec_float_cases. Qed.

Lemma is_number_spec (x : float) : is_number x = true <-> Prim2SF x <> S754_nan.
Proof.
  unfold is_number. destruct (Prim2SF x); split; congruence.
Qed.

Lemma ltb_irrefl (x : float) : (x <? x)%float = false.
Proof. rewrite ltb_spec. apply SFltb_irrefl. Qed.

Lemma ltb_trans (x y z : float) :
  (x <? y)%float = true -> (y <? z)%float = true -> (x <? z)%float = true.
Proof. rewrite !ltb_spec. apply SFltb_trans. Qed.

Lemma ltb_cotrans (x y z : float) :
  is_number y = true ->
  (x <? y)%float = false -> (y <? z)%float = false -> (x <? z)%float = false.
Proof. rewrite !ltb_spec, is_number_spec. apply SFltb_cotrans. Qed.

Lemma leb_of_not_ltb (x y : float) :
  is_number x = true -> is_number y = true -> (y <? x)%float = false -> (x <=? y)%float = true.
Proof. rewrite ltb_spec, leb_spec, !is_number_spec. apply SFleb_of_not_ltb. Qed.

Lemma ltb_is_number (x y : float) : (x <? y)%float = true -> is_number x = true.
Proof. rewrite ltb_spec, is_number_spec. apply SFltb_number. Qed.

(** A NaN spreads through the arithmetic, and is below or equal to nothing. *)
Lemma not_a_number (x : float) : is_number x = false <-> Prim2SF x = S754_nan.
Proof. unfold is_number. destruct (Prim2SF x); split; congruence. Qed.

Lemma add_NaN_l (x y : float) : is_number x = false -> is_number (x + y)%float = false.
Proof. rewrite !not_a_number, add_spec. intros ->. reflexivity. Qed.

Lemma sub_NaN_r (x y : float) : is_number y = false -> is_number (x - y)%float = false.
Proof. rewrite !not_a_number, sub_spec. intros ->. destruct (Prim2SF x); reflexivity. Qed.

Lemma mul_NaN_l (x y : float) : is_number x = false -> is_number (x * y)%float = false.
Proof. rewrite !not_a_number, mul_spec. intros ->. reflexivity. Qed.

Lemma mul_NaN_r (x y : float) : is_number y = false -> is_number (x * y)%float = false.
Proof. rewrite !not_a_number, mul_spec. intros ->. destruct (Prim2SF x); reflexivity. Qed.

Lemma div_NaN_l (x y : float) : is_number x = false -> is_number (x / y)%float = false.
Proof. rewrite !not_a_number, div_spec. intros ->. reflexivity. Qed.

Lemma sqrt_NaN (x : float) : is_number x = false -> is_number (PrimFloat.sqrt x) = false.
Proof. rewrite !not_a_number, sqrt_spec. intros ->. reflexivity. Qed.

Lemma leb_NaN_l (x y : float) : is_number x = false -> (x <=? y)%float = false.
Proof. rewrite not_a_number, leb_spec. unfold SFleb, SFcompare. intros ->. reflexivity. Qed.

(** ** The route optimizer: the nearest-neighbour loop *)

Section NearestNeighbour.

Variables (math_Sin math_Cos : float -> float) (math_Atan2 : float -> float -> float).

Local Abbreviation distance_to := (RouteService.distance_to math_Sin math_Cos math_Atan2).
Local Abbreviation scan := (RouteService.scan math_Sin math_Cos math_Atan2).
Local Abbreviation visit_nearest := (RouteService.visit_nearest math_Sin math_Cos math_Atan2).
Local Abbreviation tour_loop := (RouteService.tour_loop math_Sin math_Cos math_Atan2).
Local Abbreviation with_distances := (RouteService.with_distances math_Sin math_Cos math_Atan2).
Local Abbreviation optimizeByDistance :=
  (RouteService.optimizeByDistance math_Sin math_Cos math_Atan2).

Lemma with_distances_bins (bins : list Bin.t) (lat lng : float) :
  map fst (with_distances bins lat lng) = bins.
Proof.
  unfold RouteService.with_distances. rewrite map_map. simpl. apply map_id.
Qed.

(** Whatever the inner loop returns was either there before or is a bin of
    the list that is not yet visited. *)
Lemma scan_picks (lat lng : float) (vis : gmap N bool) (l : list RouteService.binWithDistance)
    (nearest : option Bin.t) (minDist : float) (b : Bin.t) :
  fst (scan lat lng vis l nearest minDist) = Some b ->
  nearest = Some b \/
  (In b (map fst l) /\ RouteService.is_visited vis (Bin.ID b) = false).
Proof.
  revert nearest minDist. induction l as [|bwd l IH]; intros nearest minDist; simpl.
  - auto.
  - destruct (RouteService.is_visited vis (Bin.ID (fst bwd))) eqn:Hv.
    + intros H. apply IH in H. tauto.
    + destruct (_ <? _)%float; intros H; apply IH in H.
      * destruct H as [H|H]; [|tauto]. injection H as <-. right. split; [left; reflexivity | exact Hv].
      * tauto.
Qed.

Lemma is_visited_insert (vis : gmap N bool) (id id' : UUID) :
  RouteService.is_visited (<[id := true]> vis) id' =
  if decide (id = id') then true else RouteService.is_visited vis id'.
Proof.
  unfold RouteService.is_visited. rewrite lookup_insert.
  destruct (decide (id = id')); reflexivity.
Qed.

Lemma visit_nearest_inv (bins : list Bin.t) (lat lng : float) (st : RouteService.tour) :
  tour_inv bins st -> tour_inv bins (visit_nearest (with_distances bins lat lng) st).
Proof.
  intros [Hnd Hvis]. unfold RouteService.visit_nearest.
  destruct (fst (scan _ _ _ _ _ _)) as [b|] eqn:Hscan; [|split; assumption].
  apply scan_picks in Hscan. destruct Hscan as [Hscan|[Hin Hnew]]; [discriminate|].
  rewrite with_distances_bins in Hin.
  split; cbn [RouteService.waypoints RouteService.visited].
  - rewrite map_app. simpl. apply NoDup_app. split; [exact Hnd|]. split.
    + intros id Hid Hid'. apply list_elem_of_In in Hid. apply Hvis in Hid as [Hid _].
      apply list_elem_of_In in Hid'. simpl in Hid'. destruct Hid' as [<-|[]]. congruence.
    + apply NoDup_singleton.
  - intros id. rewrite map_app, in_app_iff. simpl. rewrite is_visited_insert.
    intros [Hid|[<-|[]]].
    + apply Hvis in Hid as [Hid Hb]. destruct (decide _); tauto.
    + rewrite decide_True by reflexivity. split; [reflexivity|]. apply in_map, Hin.
Qed.

(** With two bins of the same id in the input, the waypoints never get as
    many as the bins. *)
Lemma tour_inv_short (bins : list Bin.t) (st : RouteService.tour) :
  ~ NoDup (map Bin.ID bins) -> tour_inv bins st ->
  (length (RouteService.waypoints st) < length bins)%nat.
Proof.
  intros Hdup [Hnd Hvis].
  destruct (Nat.lt_ge_cases (length (RouteService.waypoints st)) (length bins)) as [?|Hge];
    [assumption|].
  exfalso. apply Hdup. apply NoDup_ListNoDup.
  apply (@List.NoDup_incl_NoDup _ (map Waypoint.BinID (RouteService.waypoints st))).
  - apply NoDup_ListNoDup, Hnd.
  - rewrite !length_map. exact Hge.
  - intros id Hid. apply Hvis, Hid.
Qed.

Lemma tour_loop_never_returns (bins : list Bin.t) (lat lng : float) (fuel : nat)
    (st : RouteService.tour) :
  ~ NoDup (map Bin.ID bins) -> tour_inv bins st ->
  tour_loop fuel (length bins) (with_distances bins lat lng) st = None.
Proof.
  intros Hdup. revert st. induction fuel as [|fuel IH]; intros st Hinv; simpl.
  - pose proof (tour_inv_short bins st Hdup Hinv) as Hlt.
    apply Nat.ltb_lt in Hlt. rewrite Hlt. reflexivity.
  - pose proof (tour_inv_short bins st Hdup Hinv) as Hlt.
    apply Nat.ltb_lt in Hlt. rewrite Hlt. apply IH, visit_nearest_inv, Hinv.
Qed.

Lemma tour_inv_start (bins : list Bin.t) (lat lng : float) :
  tour_inv bins (RouteService.mkTour [] lat lng ∅).
Proof.
  split; simpl; [apply NoDup_nil; exact I | intros id []].
Qed.

Lemma optimizeByDistance_never_returns (bins : list Bin.t) (lat lng : float) (fuel : nat) :
  ~ NoDup (map Bin.ID bins) -> optimizeByDistance fuel bins lat lng = None.
Proof.
  intros Hdup. unfold RouteService.optimizeByDistance.
  apply tour_loop_never_returns; [exact Hdup | apply tour_inv_start].
Qed.

(** *** When the bins are pairwise different *)

Lemma scan_min_below (lat lng : float) (vis : gmap N bool)
    (l : list RouteService.binWithDistance) (nearest : option Bin.t) (minDist : float) :
  snd (scan lat lng vis l nearest minDist) = minDist \/
  (snd (scan lat lng vis l nearest minDist) <? minDist)%float = true.
Proof.
  revert nearest minDist. induction l as [|bwd l IH]; intros nearest minDist; simpl.
  - left. reflexivity.
  - destruct (RouteService.is_visited vis (Bin.ID (fst bwd))); [apply IH|].
    destruct (distance_to lat lng (fst bwd) <? minDist)%float eqn:Hlt; [|apply IH].
    right. destruct (IH (Some (fst bwd)) (distance_to lat lng (fst bwd))) as [->|Hlt'].
    + exact Hlt.
    + exact (ltb_trans _ _ _ Hlt' Hlt).
Qed.

Lemma scan_coherent (lat lng : float) (vis : gmap N bool)
    (l : list RouteService.binWithDistance) (nearest : option Bin.t) (minDist : float) :
  scan lat lng vis l nearest minDist = (nearest, minDist) \/
  exists b, scan lat lng vis l nearest minDist = (Some b, distance_to lat lng b) /\
            In b (map fst l) /\ RouteService.is_visited vis (Bin.ID b) = false.
Proof.
  revert nearest minDist. induction l as [|bwd l IH]; intros nearest minDist; simpl.
  - left. reflexivity.
  - destruct (RouteService.is_visited vis (Bin.ID (fst bwd))) eqn:Hv.
    + destruct (IH nearest minDist) as [H|(b & H & Hin & Hb)]; [left; exact H|].
      right. exists b. auto.
    + destruct (distance_to lat lng (fst bwd) <? minDist)%float.
      * right.
        destruct (IH (Some (fst bwd)) (distance_to lat lng (fst bwd))) as [H|(b & H & Hin & Hb)].
        -- exists (fst bwd). auto.
        -- exists b. auto.
      * destruct (IH nearest minDist) as [H|(b & H & Hin & Hb)]; [left; exact H|].
        right. exists b. auto.
Qed.

(** No unvisited bin of the list is strictly nearer than the distance the
    inner loop ends with. *)
Lemma scan_lower_bound (lat lng : float) (vis : gmap N bool)
    (l : list RouteService.binWithDistance) (nearest : option Bin.t) (minDist : float)
    (b : Bin.t) :
  In b (map fst l) -> RouteService.is_visited vis (Bin.ID b) = false ->
  (distance_to lat lng b <? snd (scan lat lng vis l nearest minDist))%float = false.
Proof.
  revert nearest minDist. induction l as [|bwd l IH]; intros nearest minDist; simpl.
  - intros [].
  - intros [Hb|Hb] Hnew.
    + subst b. rewrite Hnew.
      destruct (distance_to lat lng (fst bwd) <? minDist)%float eqn:Hlt.
      * destruct (scan_min_below lat lng vis l (Some (fst bwd)) (distance_to lat lng (fst bwd)))
          as [->|Hlt'].
        -- apply ltb_irrefl.
        -- destruct (_ <? snd _)%float eqn:Hcontra; [|reflexivity].
           pose proof (ltb_trans _ _ _ Hcontra Hlt') as Habs.
           rewrite ltb_irrefl in Habs. discriminate.
      * destruct (scan_min_below lat lng vis l nearest minDist) as [->|Hlt'].
        -- exact Hlt.
        -- destruct (_ <? snd _)%float eqn:Hcontra; [|reflexivity].
           pose proof (ltb_trans _ _ _ Hcontra Hlt') as Habs. congruence.
    + destruct (RouteService.is_visited vis (Bin.ID (fst bwd))); [apply IH; assumption|].
      destruct (_ <? minDist)%float; apply IH; assumption.
Qed.

(** If some unvisited bin of the list is below the starting distance, the
    inner loop ends on an unvisited bin of the list and on its distance. *)
Lemma scan_finds (lat lng : float) (vis : gmap N bool)
    (l : list RouteService.binWithDistance) (nearest : option Bin.t) (minDist : float)
    (b : Bin.t) :
  In b (map fst l) -> RouteService.is_visited vis (Bin.ID b) = false ->
  (distance_to lat lng b <? minDist)%float = true ->
  exists b', scan lat lng vis l nearest minDist = (Some b', distance_to lat lng b') /\
             In b' (map fst l) /\ RouteService.is_visited vis (Bin.ID b') = false.
Proof.
  revert nearest minDist. induction l as [|bwd l IH]; intros nearest minDist; simpl.
  - intros [].
  - intros Hb Hnew Hlt.
    destruct (RouteService.is_visited vis (Bin.ID (fst bwd))) eqn:Hv.
    + destruct Hb as [Hb|Hb]; [subst b; congruence|].
      destruct (IH nearest minDist Hb Hnew Hlt) as (b' & H & Hin & Hb').
      exists b'. auto.
    + destruct (distance_to lat lng (fst bwd) <? minDist)%float eqn:Hhead.
      * destruct (scan_coherent lat lng vis l (Some (fst bwd)) (distance_to lat lng (fst bwd)))
          as [H|(b' & H & Hin & Hb')].
        -- exists (fst bwd). auto.
        -- exists b'. auto.
      * destruct Hb as [Hb|Hb]; [subst b; congruence|].
        destruct (IH nearest minDist Hb Hnew Hlt) as (b' & H & Hin & Hb').
        exists b'. auto.
Qed.

Lemma some_bin_left (bins : list Bin.t) (ids : list UUID) :
  NoDup (map Bin.ID bins) -> (length ids < length bins)%nat ->
  exists b, In b bins /\ ~ In (Bin.ID b) ids.
Proof.
  intros Hnd Hlen.
  destruct (List.Exists_dec (fun b => ~ In (Bin.ID b) ids) bins) as [Hex|Hnone].
  - intros b. destruct (in_dec N.eq_dec (Bin.ID b) ids); [right|left]; tauto.
  - apply List.Exists_exists in Hex. exact Hex.
  - exfalso.
    assert (Hincl : incl (map Bin.ID bins) ids).
    { intros id Hid. apply in_map_iff in Hid as (b & <- & Hb).
      destruct (in_dec N.eq_dec (Bin.ID b) ids) as [?|Hn]; [assumption|].
      exfalso. apply Hnone. apply List.Exists_exists. exists b. auto. }
    apply NoDup_ListNoDup in Hnd.
    pose proof (List.NoDup_incl_length Hnd Hincl) as Hle.
    rewrite length_map in Hle. lia.
Qed.

Lemma all_bins_seen (bins : list Bin.t) (ids : list UUID) :
  NoDup ids -> (forall id, In id ids -> In id (map Bin.ID bins)) ->
  length ids = length bins ->
  forall b, In b bins -> In (Bin.ID b) ids.
Proof.
  intros Hnd Hincl Hlen b Hb.
  apply NoDup_ListNoDup in Hnd.
  apply (List.NoDup_length_incl Hnd (l' := map Bin.ID bins)).
  - rewrite length_map. lia.
  - exact Hincl.
  - apply in_map, Hb.
Qed.

Lemma tour_loop_completes (bins : list Bin.t) (lat0 lng0 : float) :
  NoDup (map Bin.ID bins) ->
  (forall b b', In b bins -> In b' bins ->
     in_range math_Sin math_Cos math_Atan2 (Bin.Latitude b') (Bin.Longitude b') b) ->
  forall (todo : nat) (st : RouteService.tour) (fuel : nat),
    tour_exact bins st ->
    (forall b, In b bins ->
       in_range math_Sin math_Cos math_Atan2
                (RouteService.currentLat st) (RouteService.currentLng st) b) ->
    length bins = (length (RouteService.waypoints st) + todo)%nat ->
    (todo <= fuel)%nat ->
    exists rest,
      tour_loop fuel (length bins) (with_distances bins lat0 lng0) st =
        Some (RouteService.waypoints st ++ rest)%list /\
      nearest_neighbour_tour math_Sin math_Cos math_Atan2 bins
        (RouteService.currentLat st) (RouteService.currentLng st)
        (map Waypoint.BinID (RouteService.waypoints st)) rest.
Proof.
  intros Hnd Hpairs todo. induction todo as [|todo IH]; intros st fuel Hex Hcur Hlen Hfuel.
  - exists []. destruct Hex as [[Hnd' Hvis] _].
    split.
    + destruct fuel; simpl; rewrite (proj2 (Nat.ltb_ge _ _)) by lia;
        rewrite app_nil_r; reflexivity.
    + apply tour_done. apply all_bins_seen; try assumption.
      * intros id Hid. apply Hvis, Hid.
      * rewrite length_map. lia.
  - destruct fuel as [|fuel]; [lia|].
    destruct Hex as [[Hnd' Hvis] Hexact].
    simpl. rewrite (proj2 (Nat.ltb_lt _ _)) by lia.
    destruct (some_bin_left bins (map Waypoint.BinID (RouteService.waypoints st)) Hnd)
      as (b0 & Hb0 & Hnew0); [rewrite length_map; lia|].
    assert (Hunvisited : forall b, ~ In (Bin.ID b) (map Waypoint.BinID (RouteService.waypoints st)) ->
                                   RouteService.is_visited (RouteService.visited st) (Bin.ID b) = false).
    { intros b Hb. destruct (RouteService.is_visited _ _) eqn:E; [|reflexivity].
      exfalso. apply Hb, Hexact, E. }
    destruct (scan_finds (RouteService.currentLat st) (RouteService.currentLng st)
                (RouteService.visited st) (with_distances bins lat0 lng0) None math_MaxFloat64 b0)
      as (b & Hscan & Hb & Hnew).
    { rewrite with_distances_bins. exact Hb0. }
    { apply Hunvisited, Hnew0. }
    { apply Hcur, Hb0. }
    rewrite with_distances_bins in Hb.
    pose proof (visit_nearest_inv bins lat0 lng0 st (conj Hnd' Hvis)) as Hinv'.
    unfold RouteService.visit_nearest in *. rewrite Hscan in *. cbn [fst] in *.
    set (st' := RouteService.mkTour _ _ _ _) in *.
    destruct (IH st' fuel) as (rest & Hloop & Htour).
    + split; [exact Hinv'|].
      intros id. unfold st'. cbn [RouteService.visited RouteService.waypoints].
      rewrite is_visited_insert, map_app, in_app_iff. simpl.
      destruct (decide (Bin.ID b = id)) as [<-|Hne]; [tauto|].
      intros Hid. left. apply Hexact, Hid.
    + intros b' Hb'. unfold st'. cbn [RouteService.currentLat RouteService.currentLng].
      apply Hpairs; assumption.
    + unfold st'. cbn [RouteService.waypoints]. rewrite length_app. simpl. lia.
    + lia.
    + exists (RouteService.waypoint_of b (Z.of_nat (length (RouteService.waypoints st)) + 1) :: rest).
      split.
      * rewrite Hloop. unfold st'. cbn [RouteService.waypoints].
        rewrite <- app_assoc. reflexivity.
      * assert (Hnotin : ~ In (Bin.ID b) (map Waypoint.BinID (RouteService.waypoints st))).
        { intros Hin. apply Hvis in Hin as [Hin _]. congruence. }
        rewrite <- (length_map Waypoint.BinID (RouteService.waypoints st)).
        apply tour_next; try assumption.
        -- intros b' Hb' Hnew'.
           pose proof (scan_lower_bound (RouteService.currentLat st) (RouteService.currentLng st)
                         (RouteService.visited st) (with_distances bins lat0 lng0) None
                         math_MaxFloat64 b') as Hlow.
           rewrite with_distances_bins, Hscan in Hlow. cbn [snd] in Hlow.
           apply leb_of_not_ltb.
           ++ apply (ltb_is_number _ math_MaxFloat64), Hcur, Hb.
           ++ apply (ltb_is_number _ math_MaxFloat64), Hcur, Hb'.
           ++ apply Hlow; [exact Hb' | apply Hunvisited, Hnew'].
        -- unfold st' in Htour.
           cbn [RouteService.waypoints RouteService.currentLat RouteService.currentLng] in Htour.
           rewrite map_app in Htour. exact Htour.
Qed.

(** What follows from being such a tour: no bin twice, every bin once, and
    the orders count up from the number of bins seen before. *)
Lemma nearest_neighbour_tour_facts (bins : list Bin.t) (lat lng : float) (seen : list UUID)
    (wps : list Waypoint.t) :
  nearest_neighbour_tour math_Sin math_Cos math_Atan2 bins lat lng seen wps ->
  NoDup seen ->
  NoDup (seen ++ map Waypoint.BinID wps)%list /\
  (forall b, In b bins -> In (Bin.ID b) (seen ++ map Waypoint.BinID wps)%list) /\
  (forall id, In id (map Waypoint.BinID wps) -> In id (map Bin.ID bins)) /\
  map Waypoint.Order wps = map Z.of_nat (seq (S (length seen)) (length wps)).
Proof.
  induction 1 as [lat lng seen Hall|lat lng seen b rest Hb Hnew Hmin Hrest IH]; intros Hnd.
  - simpl. rewrite app_nil_r. repeat split; [assumption | assumption | intros id []].
  - destruct IH as (Hnd' & Hall & Hin & Hord).
    { apply NoDup_app. split; [exact Hnd|]. split; [|apply NoDup_singleton].
      intros id Hid Hid'. apply list_elem_of_In in Hid, Hid'. simpl in Hid'.
      destruct Hid' as [<-|[]]. contradiction. }
    rewrite <- app_assoc in Hnd', Hall. simpl in Hnd', Hall.
    split; [exact Hnd'|]. split; [exact Hall|]. split.
    + simpl. intros id [<-|Hid]; [apply in_map, Hb | apply Hin, Hid].
    + simpl. f_equal.
      * lia.
      * rewrite Hord, length_app. simpl. rewrite Nat.add_1_r. reflexivity.
Qed.

(** X17. The distance strategy on pairwise different bins: it returns within as many turns
    as there are bins, its result is the nearest-neighbour tour of the spec,
    names every bin exactly once, and is numbered 1..n. *)
Theorem optimizeByDistance_on_distinct_bins (bins : list Bin.t) (driverLat driverLng : float)
    (fuel : nat) :
  NoDup (map Bin.ID bins) ->
  (forall b, In b bins -> in_range math_Sin math_Cos math_Atan2 driverLat driverLng b) ->
  (forall b b', In b bins -> In b' bins ->
     in_range math_Sin math_Cos math_Atan2 (Bin.Latitude b') (Bin.Longitude b') b) ->
  (length bins <= fuel)%nat ->
  exists wps,
    optimizeByDistance fuel bins driverLat driverLng = Some wps /\
    nearest_neighbour_tour math_Sin math_Cos math_Atan2 bins driverLat driverLng [] wps /\
    Permutation (map Waypoint.BinID wps) (map Bin.ID bins) /\
    map Waypoint.Order wps = map Z.of_nat (seq 1 (length bins)).
Proof.
  intros Hnd Hstart Hpairs Hfuel.
  destruct (tour_loop_completes bins driverLat driverLng Hnd Hpairs (length bins)
              (RouteService.mkTour [] driverLat driverLng ∅) fuel)
    as (wps & Hloop & Htour).
  - split; [apply tour_inv_start|]. intros id. unfold RouteService.is_visited.
    simpl. rewrite lookup_empty. discriminate.
  - exact Hstart.
  - reflexivity.
  - exact Hfuel.
  - simpl in Hloop, Htour. exists wps. split; [exact Hloop|]. split; [exact Htour|].
    destruct (nearest_neighbour_tour_facts bins driverLat driverLng [] wps Htour)
      as (Hnd' & Hall & Hin & Hord); [apply NoDup_nil; exact I|].
    simpl in Hnd', Hall, Hord.
    assert (Hperm : Permutation (map Waypoint.BinID wps) (map Bin.ID bins)).
    { apply NoDup_Permutation; [exact Hnd' | exact Hnd |].
      intros id. rewrite !list_elem_of_In. split; [apply Hin|].
      intros Hid. apply in_map_iff in Hid as (b & <- & Hb). apply Hall, Hb. }
    split; [exact Hperm|].
    rewrite Hord. apply Permutation_length in Hperm. rewrite !length_map in Hperm.
    rewrite Hperm. reflexivity.
Qed.

End NearestNeighbour.

(** ** The route optimizer: [OptimizeRoute] *)

(** In a slice that [sort.IsSorted] accepts, no element is less than one
    before it, however far apart the two are. *)
Lemma IsSorted_pairwise (less : Bin.t -> Bin.t -> bool) (l : list Bin.t) :
  (forall x y z, In x l -> In y l -> In z l ->
     less x y = false -> less y z = false -> less x z = false) ->
  IsSorted less l = true ->
  forall (i j : nat) (x y : Bin.t),
    (i < j)%nat -> l !! i = Some x -> l !! j = Some y -> less y x = false.
Proof.
  induction l as [|a l IH]; intros Hco Hs i j x y Hij Hi Hj.
  - discriminate.
  - assert (Hs' : IsSorted less l = true).
    { destruct l as [|b l]; [reflexivity|]. simpl in Hs. apply andb_true_iff in Hs. tauto. }
    assert (Hco' : forall x y z, In x l -> In y l -> In z l ->
                     less x y = false -> less y z = false -> less x z = false).
    { intros u v w Hu Hv Hw. apply Hco; right; assumption. }
    destruct i as [|i].
    + injection Hi as <-. destruct j as [|j]; [lia|]. simpl in Hj.
      destruct l as [|b l]; [discriminate|].
      simpl in Hs. apply andb_true_iff in Hs as [Hba _]. apply negb_true_iff in Hba.
      destruct j as [|j].
      * injection Hj as <-. exact Hba.
      * apply (Hco y b a).
        -- right. apply list_elem_of_In, (list_elem_of_lookup_2 _ (S j)), Hj.
        -- right. left. reflexivity.
        -- left. reflexivity.
        -- apply (IH Hco' Hs' 0%nat (S j) b y); [lia | reflexivity | exact Hj].
        -- exact Hba.
    + destruct j as [|j]; [lia|]. simpl in Hi, Hj.
      apply (IH Hco' Hs' i j x y); [lia | exact Hi | exact Hj].
Qed.

Lemma number_from_lookup (k i : nat) (l : list Bin.t) :
  RouteService.number_from k l !! i =
  (fun b => RouteService.waypoint_of b (Z.of_nat (k + i) + 1)) <$> (l !! i).
Proof.
  revert k i. induction l as [|b l IH]; intros k i; simpl.
  - destruct i; reflexivity.
  - destruct i as [|i]; simpl.
    + rewrite Nat.add_0_r. reflexivity.
    + rewrite IH. rewrite Nat.add_succ_comm. reflexivity.
Qed.

Section OptimizeRoute.

Variables (math_Sin math_Cos : float -> float) (math_Atan2 : float -> float -> float).
Variable sort_Slice : (Bin.t -> Bin.t -> bool) -> list Bin.t -> list Bin.t.

Local Abbreviation visit_nearest := (RouteService.visit_nearest math_Sin math_Cos math_Atan2).
Local Abbreviation with_distances := (RouteService.with_distances math_Sin math_Cos math_Atan2).
Local Abbreviation optimizeByDistance :=
  (RouteService.optimizeByDistance math_Sin math_Cos math_Atan2).
Local Abbreviation optimizeByFillLevel :=
  (RouteService.optimizeByFillLevel math_Sin math_Cos math_Atan2 sort_Slice).
Local Abbreviation calculateRouteMetrics :=
  (RouteService.calculateRouteMetrics math_Sin math_Cos math_Atan2).
Local Abbreviation OptimizeRoute :=
  (RouteService.OptimizeRoute math_Sin math_Cos math_Atan2 sort_Slice).

Lemma resolve_bins_all (env : RouteEnv) (rows : list Bin.t) (binIDs : list UUID)
    (acc : list Bin.t) :
  (forall i, In i binIDs -> err_bin_GetByID env i = None) ->
  RouteService.resolve_bins env rows binIDs acc = inr (acc ++ omap (row_of rows) binIDs)%list.
Proof.
  revert acc. induction binIDs as [|id ids IH]; intros acc Hok; simpl.
  - rewrite app_nil_r. reflexivity.
  - unfold BinRepository.GetByID. rewrite (Hok id) by (left; reflexivity).
    fold (row_of rows id). destruct (row_of rows id) as [b|].
    + rewrite IH by (intros i Hi; apply Hok; right; exact Hi).
      rewrite <- app_assoc. reflexivity.
    + apply IH. intros i Hi. apply Hok. right. exact Hi.
Qed.

Lemma repeated_id_resolves_twice (rows : list Bin.t) (before between after : list UUID)
    (id : UUID) (bin : Bin.t) :
  row_of rows id = Some bin ->
  ~ NoDup (map Bin.ID (omap (row_of rows) (before ++ id :: between ++ id :: after)%list)).
Proof.
  intros Hrow Hnd.
  rewrite omap_app in Hnd. simpl in Hnd. rewrite Hrow in Hnd.
  rewrite omap_app in Hnd. simpl in Hnd. rewrite Hrow in Hnd.
  rewrite map_app in Hnd. apply NoDup_app in Hnd as (_ & _ & Hnd).
  simpl in Hnd. apply NoDup_cons in Hnd as [Hnotin _].
  apply Hnotin. rewrite map_app. apply elem_of_app. right. simpl. apply elem_of_cons.
  left. reflexivity.
Qed.

Lemma iter_visit_nearest_inv (bins : list Bin.t) (lat lng : float) (k : nat) :
  tour_inv bins (Nat.iter k (visit_nearest (with_distances bins lat lng))
                          (RouteService.mkTour [] lat lng ∅)).
Proof.
  induction k as [|k IH]; simpl.
  - apply tour_inv_start.
  - apply visit_nearest_inv, IH.
Qed.

(** C9. When an id occurs twice in the id list, resolves, and no lookup
    fails, [OptimizeRoute] with any strategy other than [fill_level] never
    returns: the resolved list holds that bin twice, and after any number of
    turns of the nearest-neighbour loop there are still fewer waypoints than
    bins, so its guard stays true. *)
Theorem OptimizeRoute_with_repeated_bin_id_never_returns
    (s : RouteService.t) (env : RouteEnv) (rows : list Bin.t) (driverLat driverLng : float)
    (before between after : list UUID) (id : UUID) (bin : Bin.t) (optimizeBy : string) :
  let binIDs := (before ++ id :: between ++ id :: after)%list in
  (forall i, In i binIDs -> err_bin_GetByID env i = None) ->
  BinRepository.GetByID None id rows = inr (Some bin) ->
  optimizeBy <> "fill_level" ->
  (forall fuel, OptimizeRoute s env fuel rows driverLat driverLng binIDs optimizeBy = None) /\
  (exists bins,
      RouteService.resolve_bins env rows binIDs [] = inr bins /\
      forall turns,
        (length (RouteService.waypoints
                   (Nat.iter turns (visit_nearest (with_distances bins driverLat driverLng))
                             (RouteService.mkTour [] driverLat driverLng ∅)))
         < length bins)%nat).
Proof.
  intros binIDs Hok Hrow Hstrategy.
  assert (Hrow' : row_of rows id = Some bin) by (injection Hrow as Hrow; exact Hrow).
  pose proof (repeated_id_resolves_twice rows before between after id bin Hrow') as Hdup.
  fold binIDs in Hdup.
  pose proof (resolve_bins_all env rows binIDs [] Hok) as Hres. simpl in Hres.
  split.
  - intros fuel. unfold RouteService.OptimizeRoute. rewrite Hres.
    destruct (omap (row_of rows) binIDs) as [|b bins] eqn:Hbins.
    { exfalso. apply Hdup. apply NoDup_nil. exact I. }
    unfold RouteService.strategy_waypoints.
    apply String.eqb_neq in Hstrategy. rewrite Hstrategy.
    rewrite (optimizeByDistance_never_returns math_Sin math_Cos math_Atan2 (b :: bins)
               driverLat driverLng fuel Hdup).
    reflexivity.
  - exists (omap (row_of rows) binIDs). split; [exact Hres|].
    intros turns. apply tour_inv_short; [exact Hdup | apply iter_visit_nearest_inv].
Qed.

(** *** The fill-level strategy *)

Lemma fill_level_less_ordering (lat lng : float) (l : list Bin.t) :
  (forall b, In b l ->
     is_number (RouteService.distance_to math_Sin math_Cos math_Atan2 lat lng b) = true) ->
  transitive_ordering (RouteService.fill_level_less math_Sin math_Cos math_Atan2 lat lng) l.
Proof.
  intros Hnum. unfold transitive_ordering, RouteService.fill_level_less.
  split; [|split].
  - intros x _. rewrite Z.eqb_refl. simpl. apply ltb_irrefl.
  - intros x y z _ _ _.
    destruct (Z.eqb_spec (Bin.FillLevel x) (Bin.FillLevel y)) as [Exy|Exy];
    destruct (Z.eqb_spec (Bin.FillLevel y) (Bin.FillLevel z)) as [Eyz|Eyz];
    destruct (Z.eqb_spec (Bin.FillLevel x) (Bin.FillLevel z)) as [Exz|Exz];
    simpl; rewrite ?Z.ltb_lt; try lia; try apply ltb_trans.
  - intros x y z _ Hy _.
    destruct (Z.eqb_spec (Bin.FillLevel x) (Bin.FillLevel y)) as [Exy|Exy];
    destruct (Z.eqb_spec (Bin.FillLevel y) (Bin.FillLevel z)) as [Eyz|Eyz];
    destruct (Z.eqb_spec (Bin.FillLevel x) (Bin.FillLevel z)) as [Exz|Exz];
    simpl; rewrite ?Z.ltb_ge; try lia.
    apply ltb_cotrans, Hnum, Hy.
Qed.

(** C7 (amended). When the distances from the driver's start to the bins are
    numbers (not NaN): in the output of the fill-level strategy, a waypoint
    that comes before another one has a higher fill level, or the same fill
    level and a distance from the start that is less than or equal to the
    other's.  [sort.Slice] is taken by its contract. *)
Theorem optimizeByFillLevel_priority_order (bins : list Bin.t) (driverLat driverLng : float)
    (i j : nat) (wi wj : Waypoint.t) :
  sorts sort_Slice ->
  (forall b, In b bins ->
     is_number (RouteService.distance_to math_Sin math_Cos math_Atan2 driverLat driverLng b)
     = true) ->
  (i < j)%nat ->
  optimizeByFillLevel bins driverLat driverLng !! i = Some wi ->
  optimizeByFillLevel bins driverLat driverLng !! j = Some wj ->
  Waypoint.FillLevel wj < Waypoint.FillLevel wi \/
  (Waypoint.FillLevel wi = Waypoint.FillLevel wj /\
   (RouteService.haversineDistance math_Sin math_Cos math_Atan2 driverLat driverLng
      (Waypoint.Latitude wi) (Waypoint.Longitude wi) <=?
    RouteService.haversineDistance math_Sin math_Cos math_Atan2 driverLat driverLng
      (Waypoint.Latitude wj) (Waypoint.Longitude wj))%float = true).
Proof.
  intros Hsort Hnum Hij Hi Hj.
  unfold RouteService.optimizeByFillLevel in Hi, Hj.
  rewrite number_from_lookup in Hi, Hj.
  set (less := RouteService.fill_level_less math_Sin math_Cos math_Atan2 driverLat driverLng) in *.
  destruct (Hsort less bins) as [Hperm Hsorted].
  destruct (sort_Slice less bins !! i) as [bi|] eqn:Ebi; [|discriminate].
  destruct (sort_Slice less bins !! j) as [bj|] eqn:Ebj; [|discriminate].
  injection Hi as <-. injection Hj as <-. simpl.
  pose proof (fill_level_less_ordering driverLat driverLng bins Hnum) as Hord.
  assert (Hnum' : forall b, In b (sort_Slice less bins) ->
            is_number (RouteService.distance_to math_Sin math_Cos math_Atan2
                         driverLat driverLng b) = true).
  { intros b Hb. apply Hnum. apply (Permutation_in _ Hperm), Hb. }
  pose proof (fill_level_less_ordering driverLat driverLng (sort_Slice less bins) Hnum')
    as (_ & _ & Hco).
  pose proof (IsSorted_pairwise less (sort_Slice less bins) Hco (Hsorted Hord) i j bi bj
                Hij Ebi Ebj) as Hless.
  unfold less, RouteService.fill_level_less in Hless.
  destruct (Z.eqb_spec (Bin.FillLevel bj) (Bin.FillLevel bi)) as [Heq|Hne]; simpl in Hless.
  - right. split; [symmetry; exact Heq|].
    apply leb_of_not_ltb.
    + apply Hnum', list_elem_of_In, (list_elem_of_lookup_2 _ i), Ebi.
    + apply Hnum', list_elem_of_In, (list_elem_of_lookup_2 _ j), Ebj.
    + exact Hless.
  - left. apply Z.ltb_ge in Hless. lia.
Qed.

(** *** The metrics and the fallback *)

Lemma sum_legs_consecutive (acc lat lng : float) (wps : list Waypoint.t) :
  RouteService.sum_legs math_Sin math_Cos math_Atan2 acc lat lng wps =
  fold_left PrimFloat.add (consecutive_legs math_Sin math_Cos math_Atan2 lat lng wps) acc.
Proof.
  revert acc lat lng. induction wps as [|wp wps IH]; intros acc lat lng; simpl.
  - reflexivity.
  - apply IH.
Qed.

(** [calculateRouteMetrics] computes the two formulas of the spec. *)
Lemma calculateRouteMetrics_heuristic (lat lng : float) (wps : list Waypoint.t) :
  calculateRouteMetrics lat lng wps =
  (heuristic_distance math_Sin math_Cos math_Atan2 lat lng wps,
   heuristic_duration (heuristic_distance math_Sin math_Cos math_Atan2 lat lng wps)
                      (length wps)).
Proof.
  unfold RouteService.calculateRouteMetrics, heuristic_distance, heuristic_duration.
  destruct wps as [|wp wps]; [vm_compute; reflexivity|].
  rewrite sum_legs_consecutive. rewrite (Z.mul_comm 2). reflexivity.
Qed.

Lemma getGoogleMapsRoute_fails (s : RouteService.t) (env : RouteEnv) (lat lng : float)
    (wps : list Waypoint.t) :
  directions_failed (directions env lat lng wps) ->
  exists err, RouteService.getGoogleMapsRoute s env lat lng wps = inl err.
Proof.
  unfold RouteService.getGoogleMapsRoute, directions_failed. intros Hfail.
  destruct (String.eqb (RouteService.googleKey s) ""); [eexists; reflexivity|].
  destruct wps as [|wp wps]; [eexists; reflexivity|].
  destruct (directions env lat lng (wp :: wps)) as [e|e|e|code status routes];
    try (eexists; reflexivity).
  destruct Hfail as [Hstatus| ->].
  - apply String.eqb_neq in Hstatus. rewrite Hstatus. eexists. reflexivity.
  - rewrite orb_true_r. eexists. reflexivity.
Qed.

(** C8. Once [OptimizeRoute] has its waypoints and their JSON text and the
    Directions service is configured, any failure of the call to it (request,
    body, decoding, a status other than OK, no route) leaves the caller with a
    route and no error; the route carries the waypoints and the heuristic
    values: the sum of the consecutive haversine legs from the driver's start,
    and (distance/30)*60 plus two minutes for each stop. *)
Theorem OptimizeRoute_falls_back_to_heuristic (s : RouteService.t) (env : RouteEnv)
    (fuel : nat) (rows : list Bin.t) (driverLat driverLng : float) (binIDs : list UUID)
    (optimizeBy : string) (bins : list Bin.t) (wps : list Waypoint.t) (waypointsJSON : string) :
  RouteService.googleKey s <> "" ->
  RouteService.resolve_bins env rows binIDs [] = inr bins ->
  bins <> [] ->
  RouteService.strategy_waypoints math_Sin math_Cos math_Atan2 sort_Slice
    fuel bins driverLat driverLng optimizeBy = Some wps ->
  RouteService.json_Marshal env wps = inr waypointsJSON ->
  directions_failed (directions env driverLat driverLng wps) ->
  OptimizeRoute s env fuel rows driverLat driverLng binIDs optimizeBy =
    Some (inr (DriverRoute.mk (route_id env) 0%N waypointsJSON wps
                 (Some (heuristic_distance math_Sin math_Cos math_Atan2 driverLat driverLng wps))
                 (Some (heuristic_duration
                          (heuristic_distance math_Sin math_Cos math_Atan2 driverLat driverLng wps)
                          (length wps)))
                 RouteStatusPending 0 None None)).
Proof.
  intros Hkey Hres Hbins Hwps Hjson Hfail.
  unfold RouteService.OptimizeRoute. rewrite Hres.
  destruct bins as [|b bins]; [contradiction|].
  rewrite Hwps, calculateRouteMetrics_heuristic, Hjson.
  apply String.eqb_neq in Hkey. rewrite Hkey. simpl negb. cbv iota.
  destruct (getGoogleMapsRoute_fails s env driverLat driverLng wps Hfail) as [err ->].
  reflexivity.
Qed.

End OptimizeRoute.

(** The stand-in for [sort.Slice] keeps its contract. *)
Lemma insert_sorted_Permutation (less : Bin.t -> Bin.t -> bool) (x : Bin.t) (l : list Bin.t) :
  Permutation (insert_sorted less x l) (x :: l).
Proof.
  induction l as [|y l IH]; simpl; [reflexivity|].
  destruct (less x y); [reflexivity|].
  rewrite IH. apply perm_swap.
Qed.

Lemma insertion_sort_Permutation (less : Bin.t -> Bin.t -> bool) (l : list Bin.t) :
  Permutation (insertion_sort less l) l.
Proof.
  induction l as [|x l IH]; simpl; [reflexivity|].
  rewrite insert_sorted_Permutation. apply perm_skip, IH.
Qed.

Lemma insert_sorted_IsSorted (less : Bin.t -> Bin.t -> bool) (x : Bin.t) (l : list Bin.t) :
  (forall y, In y l -> less x y = true -> less y x = false) ->
  IsSorted less l = true -> IsSorted less (insert_sorted less x l) = true.
Proof.
  induction l as [|y l IH]; intros Hasym Hs; [reflexivity|].
  simpl insert_sorted. destruct (less x y) eqn:Hxy.
  - change (negb (less y x) && IsSorted less (y :: l) = true).
    rewrite (Hasym y) by (try left; auto). exact Hs.
  - assert (Hs' : IsSorted less l = true).
    { destruct l as [|z l]; [reflexivity|]. simpl in Hs. apply andb_true_iff in Hs. tauto. }
    specialize (IH (fun z Hz => Hasym z (or_intror Hz)) Hs').
    destruct l as [|z l].
    + simpl. rewrite Hxy. reflexivity.
    + simpl insert_sorted in *. destruct (less x z).
      * change (negb (less x y) && IsSorted less (x :: z :: l) = true).
        rewrite Hxy. exact IH.
      * change (negb (less z y) && IsSorted less (z :: insert_sorted less x l) = true).
        simpl in Hs. apply andb_true_iff in Hs as [-> _]. exact IH.
Qed.

Lemma insertion_sort_sorts : sorts insertion_sort.
Proof.
  intros less l. split; [apply insertion_sort_Permutation|].
  intros (Hirr & Htrans & _).
  assert (Hasym : forall x y, In x l -> In y l -> less x y = true -> less y x = false).
  { intros x y Hx Hy Hxy. destruct (less y x) eqn:Hyx; [|reflexivity].
    rewrite <- (Hirr x Hx). symmetry. apply (Htrans x y x); assumption. }
  clear Hirr Htrans. induction l as [|x l IH]; [reflexivity|].
  simpl. apply insert_sorted_IsSorted.
  - intros y Hy. apply Hasym; [left; reflexivity|].
    right. apply (Permutation_in _ (insertion_sort_Permutation less l)), Hy.
  - apply IH. intros u v Hu Hv. apply Hasym; right; assumption.
Qed.

(** The witness of C9: the id list names bin 1 twice; a thousand turns of the
    loop are not enough, nor are four thousand. *)
Lemma OptimizeRoute_with_repeated_bin_id_never_returns_witness :
  RouteService.OptimizeRoute small_angle_Sin small_angle_Cos small_angle_Atan2 insertion_sort
    (RouteService.mk "") route_env_down 1000 route_rows 36.5%float 3%float
    [1%N; 1%N] "distance" = None /\
  RouteService.OptimizeRoute small_angle_Sin small_angle_Cos small_angle_Atan2 insertion_sort
    (RouteService.mk "") route_env_down 4000 route_rows 36.5%float 3%float
    [1%N; 1%N] "distance" = None.
Proof.
  destruct (OptimizeRoute_with_repeated_bin_id_never_returns small_angle_Sin small_angle_Cos
              small_angle_Atan2 insertion_sort (RouteService.mk "") route_env_down route_rows
              36.5%float 3%float [] [] [] 1%N bin_a "distance") as [Hnever _].
  - intros i Hi. reflexivity.
  - reflexivity.
  - discriminate.
  - split; apply Hnever.
Defined.

(** The witness of C7: from (36, 3) the two bins at 95 % come first, the
    nearer of them before the other, then the bin at 60 %. *)
Lemma optimizeByFillLevel_priority_order_witness :
  Waypoint.FillLevel (RouteService.waypoint_of bin_c 2) <
    Waypoint.FillLevel (RouteService.waypoint_of bin_b 1) \/
  (Waypoint.FillLevel (RouteService.waypoint_of bin_b 1) =
     Waypoint.FillLevel (RouteService.waypoint_of bin_c 2) /\
   (RouteService.haversineDistance small_angle_Sin small_angle_Cos small_angle_Atan2
      36%float 3%float (Waypoint.Latitude (RouteService.waypoint_of bin_b 1))
      (Waypoint.Longitude (RouteService.waypoint_of bin_b 1)) <=?
    RouteService.haversineDistance small_angle_Sin small_angle_Cos small_angle_Atan2
      36%float 3%float (Waypoint.Latitude (RouteService.waypoint_of bin_c 2))
      (Waypoint.Longitude (RouteService.waypoint_of bin_c 2)))%float = true).
Proof.
  apply (optimizeByFillLevel_priority_order small_angle_Sin small_angle_Cos small_angle_Atan2
           insertion_sort route_rows 36%float 3%float 0%nat 1%nat).
  - exact insertion_sort_sorts.
  - intros b [<-|[<-|[<-|[]]]]; vm_compute; reflexivity.
  - lia.
  - vm_compute. reflexivity.
  - vm_compute. reflexivity.
Defined.

(** From a start whose latitude is not a number every distance is a NaN,
    whatever [math.Cos] computes and for any [math.Sin] and [math.Atan2] that
    return NaN on NaN, as Go's do. *)
Lemma haversineDistance_of_NaN_start (math_Sin math_Cos : float -> float)
    (math_Atan2 : float -> float -> float) (lat1 lng1 lat2 lng2 : float) :
  (forall x, is_number x = false -> is_number (math_Sin x) = false) ->
  (forall y x, is_number y = false -> is_number (math_Atan2 y x) = false) ->
  is_number lat1 = false ->
  is_number (RouteService.haversineDistance math_Sin math_Cos math_Atan2 lat1 lng1 lat2 lng2)
  = false.
Proof.
  intros Hsin Hatan Hlat. unfold RouteService.haversineDistance. cbv zeta.
  apply mul_NaN_r, mul_NaN_r, Hatan, sqrt_NaN, add_NaN_l, mul_NaN_l, Hsin, div_NaN_l.
  apply div_NaN_l, mul_NaN_l, sub_NaN_r, Hlat.
Qed.

(** Two waypoints with the same fill level, built from bins whose distance
    from the start is a NaN, are in neither of the two orders of C7, wherever
    [sort.Slice] puts them. *)
Lemma fill_level_ties_at_NaN_distance (math_Sin math_Cos : float -> float)
    (math_Atan2 : float -> float -> float)
    (sort_Slice : (Bin.t -> Bin.t -> bool) -> list Bin.t -> list Bin.t)
    (bins : list Bin.t) (driverLat driverLng : float) (i j : nat) (wi wj : Waypoint.t) :
  (forall less l, Permutation (sort_Slice less l) l) ->
  (forall b, In b bins ->
     is_number (RouteService.distance_to math_Sin math_Cos math_Atan2 driverLat driverLng b)
     = false) ->
  RouteService.optimizeByFillLevel math_Sin math_Cos math_Atan2 sort_Slice
    bins driverLat driverLng !! i = Some wi ->
  RouteService.optimizeByFillLevel math_Sin math_Cos math_Atan2 sort_Slice
    bins driverLat driverLng !! j = Some wj ->
  Waypoint.FillLevel wi = Waypoint.FillLevel wj ->
  ~ (Waypoint.FillLevel wj < Waypoint.FillLevel wi \/
     (Waypoint.FillLevel wi = Waypoint.FillLevel wj /\
      (RouteService.haversineDistance math_Sin math_Cos math_Atan2 driverLat driverLng
         (Waypoint.Latitude wi) (Waypoint.Longitude wi) <=?
       RouteService.haversineDistance math_Sin math_Cos math_Atan2 driverLat driverLng
         (Waypoint.Latitude wj) (Waypoint.Longitude wj))%float = true)).
Proof.
  intros Hperm Hnan Hi Hj Hlevel [Hlt|[_ Hle]]; [lia|].
  unfold RouteService.optimizeByFillLevel in Hi. rewrite number_from_lookup in Hi.
  set (less := RouteService.fill_level_less math_Sin math_Cos math_Atan2 driverLat driverLng)
    in Hi.
  destruct (sort_Slice less bins !! i) as [bi|] eqn:Ebi; [|discriminate].
  injection Hi as <-. simpl in Hle.
  assert (Hin : In bi bins).
  { apply (Permutation_in _ (Hperm less bins)).
    apply list_elem_of_In, (list_elem_of_lookup_2 _ i), Ebi. }
  rewrite (leb_NaN_l _ _ (Hnan bi Hin)) in Hle. discriminate.
Qed.

(** C7, where the code leaves it: the latitude of the start is a NaN, the
    two bins at 95 % come out one after the other, and they are in neither of
    the two orders the claim allows: the levels are equal, and a NaN is not
    less than or equal to a NaN. *)
Lemma optimizeByFillLevel_ties_from_a_NaN_start :
  exists wi wj,
    RouteService.optimizeByFillLevel small_angle_Sin small_angle_Cos small_angle_Atan2
      insertion_sort [bin_b; bin_c] nan 3%float !! 0%nat = Some wi /\
    RouteService.optimizeByFillLevel small_angle_Sin small_angle_Cos small_angle_Atan2
      insertion_sort [bin_b; bin_c] nan 3%float !! 1%nat = Some wj /\
    ~ (Waypoint.FillLevel wj < Waypoint.FillLevel wi \/
       (Waypoint.FillLevel wi = Waypoint.FillLevel wj /\
        (RouteService.haversineDistance small_angle_Sin small_angle_Cos small_angle_Atan2
           nan 3%float (Waypoint.Latitude wi) (Waypoint.Longitude wi) <=?
         RouteService.haversineDistance small_angle_Sin small_angle_Cos small_angle_Atan2
           nan 3%float (Waypoint.Latitude wj) (Waypoint.Longitude wj))%float = true)).
Proof.
  destruct (RouteService.optimizeByFillLevel small_angle_Sin small_angle_Cos small_angle_Atan2
              insertion_sort [bin_b; bin_c] nan 3%float !! 0%nat) as [wi|] eqn:Hi;
    [|vm_compute in Hi; discriminate].
  destruct (RouteService.optimizeByFillLevel small_angle_Sin small_angle_Cos small_angle_Atan2
              insertion_sort [bin_b; bin_c] nan 3%float !! 1%nat) as [wj|] eqn:Hj;
    [|vm_compute in Hj; discriminate].
  exists wi, wj. split; [reflexivity|]. split; [reflexivity|].
  apply (fill_level_ties_at_NaN_distance small_angle_Sin small_angle_Cos small_angle_Atan2
           insertion_sort [bin_b; bin_c] nan 3%float 0%nat 1%nat wi wj).
  - intros less l. apply insertion_sort_Permutation.
  - intros b _. apply haversineDistance_of_NaN_start.
    + intros x Hx. exact Hx.
    + intros y x Hy. apply div_NaN_l, Hy.
    + reflexivity.
  - exact Hi.
  - exact Hj.
  - vm_compute in Hi, Hj. injection Hi as <-. injection Hj as <-. reflexivity.
Qed.

(** The witness of C8: the key is set, the service answers with an error
    page, and the caller gets the three stops with 126.6 km and 259 minutes. *)
Lemma OptimizeRoute_falls_back_to_heuristic_witness :
  exists route,
    RouteService.OptimizeRoute small_angle_Sin small_angle_Cos small_angle_Atan2 insertion_sort
      (RouteService.mk "key") route_env_down 3 route_rows 36%float 3%float
      [1%N; 2%N; 3%N; 9%N] "distance" = Some (inr route) /\
    map Waypoint.BinID (DriverRoute.WaypointsList route) = [2%N; 1%N; 3%N] /\
    DriverRoute.EstimatedDurationMinutes route = Some 259.
Proof.
  eexists. split.
  - apply (OptimizeRoute_falls_back_to_heuristic small_angle_Sin small_angle_Cos
             small_angle_Atan2 insertion_sort (RouteService.mk "key") route_env_down 3
             route_rows 36%float 3%float [1%N; 2%N; 3%N; 9%N] "distance"
             [bin_a; bin_b; bin_c]
             [RouteService.waypoint_of bin_b 1; RouteService.waypoint_of bin_a 2;
              RouteService.waypoint_of bin_c 3] "[...]").
    + discriminate.
    + reflexivity.
    + discriminate.
    + vm_compute. reflexivity.
    + reflexivity.
    + exact I.
  - split; vm_compute; reflexivity.
Defined.

(** With the service up, its values replace the heuristic ones and the order
    of the stops stays the strategy's: 93.5 km and 90 minutes. *)
Example OptimizeRoute_takes_the_service_values :
  exists route,
    RouteService.OptimizeRoute small_angle_Sin small_angle_Cos small_angle_Atan2 insertion_sort
      (RouteService.mk "key") route_env_up 3 route_rows 36%float 3%float
      [1%N; 2%N; 3%N; 9%N] "fill_level" = Some (inr route) /\
    map Waypoint.BinID (DriverRoute.WaypointsList route) = [2%N; 3%N; 1%N] /\
    DriverRoute.TotalDistanceKm route = Some 93.5%float /\
    DriverRoute.EstimatedDurationMinutes route = Some 90.
Proof.
  eexists. split; [vm_compute; reflexivity|]. repeat split.
Qed.

(** [int(x)] drops the fraction, towards zero. *)
Example int_of_float64_truncates :
  int_of_float64 187.5%float = 187 /\ int_of_float64 (-2.5)%float = -2 /\
  int_of_float64 0.75%float = 0 /\ int_of_float64 nan = - 2 ^ 63.
Proof. repeat split; vm_compute; reflexivity. Qed.

(** The code of the HTTP response plays no part: a reply with code 500 whose
    body decodes to status OK and a route replaces the heuristic values. *)
Lemma http_status_code_is_not_read :
  RouteService.getGoogleMapsRoute (RouteService.mk "key")
    (mkRouteEnv (fun _ => None) 700%N (fun _ => "[...]")
                (fun _ _ _ => Decoded 500 "OK" [[Leg.mk 41000 2400; Leg.mk 52500 3000]]))
    36%float 3%float [RouteService.waypoint_of bin_b 1] =
  inr (googleMapsRouteResult.mk 93.5%float 90).
Proof. vm_compute. reflexivity. Qed.

(** C6, where the code breaks it: bin 1 is listed twice, and the distance
    strategy never returns, whatever [math.Sin], [math.Cos] and [math.Atan2]
    compute and however long it runs. *)
Theorem optimizeByDistance_hangs_on_a_bin_listed_twice
    (math_Sin math_Cos : float -> float) (math_Atan2 : float -> float -> float)
    (driverLat driverLng : float) (fuel : nat) :
  RouteService.optimizeByDistance math_Sin math_Cos math_Atan2 fuel [bin_a; bin_a]
    driverLat driverLng = None.
Proof.
  apply optimizeByDistance_never_returns.
  intros Hnd. simpl in Hnd. apply NoDup_cons in Hnd as [Hnotin _].
  apply Hnotin. apply elem_of_cons. left. reflexivity.
Qed.

(** The same strategy on the three sample bins, from (36, 3). *)
Lemma optimizeByDistance_on_distinct_bins_witness :
  exists wps,
    RouteService.optimizeByDistance small_angle_Sin small_angle_Cos small_angle_Atan2 3
      route_rows 36%float 3%float = Some wps /\
    nearest_neighbour_tour small_angle_Sin small_angle_Cos small_angle_Atan2 route_rows
      36%float 3%float [] wps /\
    Permutation (map Waypoint.BinID wps) (map Bin.ID route_rows) /\
    map Waypoint.Order wps = map Z.of_nat (seq 1 (length route_rows)).
Proof.
  apply (optimizeByDistance_on_distinct_bins small_angle_Sin small_angle_Cos small_angle_Atan2
           route_rows 36%float 3%float 3).
  - apply (bool_decide_unpack _). vm_compute. exact I.
  - intros b [<-|[<-|[<-|[]]]]; vm_compute; reflexivity.
  - intros b b' [<-|[<-|[<-|[]]]] [<-|[<-|[<-|[]]]]; vm_compute; reflexivity.
  - simpl. lia.
Defined.

(* ===================================================================== *)
(** * Part III: further properties of the code *)
(* ===================================================================== *)

(** ** The shipment tracker *)

Lemma publishEvent_published (env : Env) (ku kt : nat) (topic : string) (d : EventData)
    (w : World) :
  grown_by_at_most_one (published w) (published (ShipmentService.publishEvent env ku kt topic d w)).
Proof.
  unfold ShipmentService.publishEvent. destruct (err_Publish env); simpl.
  - left. reflexivity.
  - right. eexists. reflexivity.
Qed.

Lemma Create_transition_grows (fault : option string) (t : StateTransition.t) (w : World) :
  grown_by_at_most_one (state_transitions w)
    (state_transitions (fst (TransitionRepository.Create fault t w))).
Proof.
  destruct (TransitionRepository_Create_cases fault t w) as (_ & _ & [[H _]|(t' & H & _)]).
  - left. exact H.
  - right. exists t'. exact H.
Qed.

Lemma grown_refl {A : Type} (l : list A) : grown_by_at_most_one l l.
Proof. left. reflexivity. Qed.

Lemma touches_only_refl (id : UUID) (w : World) : touches_only id w w.
Proof. repeat split; auto using @grown_refl. Qed.

Lemma touches_only_record_publish (id : UUID) (env : Env) (w w1 : World)
    (t : StateTransition.t) (ku kt : nat) (topic : string) (d : EventData) :
  (forall id', id' <> id -> shipments w1 !! id' = shipments w !! id') ->
  state_transitions w1 = state_transitions w -> published w1 = published w ->
  touches_only id w
    (ShipmentService.publishEvent env ku kt topic d
       (fst (TransitionRepository.Create (err_transition_Create env) t w1))).
Proof.
  intros Hs Ht Hp.
  destruct (TransitionRepository_Create_cases (err_transition_Create env) t w1)
    as (Hs2 & Hp2 & _).
  pose proof (Create_transition_grows (err_transition_Create env) t w1) as Hg.
  set (w2 := fst (TransitionRepository.Create (err_transition_Create env) t w1)) in *.
  destruct (publishEvent_tables env ku kt topic d w2) as [Hs3 Ht3].
  pose proof (publishEvent_published env ku kt topic d w2) as Hg3.
  split; [|split].
  - intros id' Hne. rewrite Hs3, Hs2. apply Hs, Hne.
  - rewrite Ht3, <- Ht. exact Hg.
  - rewrite <- Hp, <- Hp2. exact Hg3.
Qed.

Lemma CreateShipment_touches_only (env : Env) (req : CreateShipmentRequest.t) (w : World) :
  touches_only (uuid_New env 0) w (fst (ShipmentService.CreateShipment env req w)).
Proof.
  unfold ShipmentService.CreateShipment.
  set (shipment := Shipment.mk _ _ _ _ _ _ _ _ _ _ _ _ _ _ _ _ _ _ _ _ _).
  set (transition := StateTransition.mk _ _ _ _ _ _ _ _ _ _ _).
  unfold ShipmentRepository.Create.
  destruct (err_shipment_Create env); [apply touches_only_refl|].
  change (Shipment.ID shipment) with (uuid_New env 0).
  destruct (shipments w !! uuid_New env 0); [apply touches_only_refl|].
  cbn [fst]. apply touches_only_record_publish; try reflexivity.
  intros id' Hne. simpl. apply lookup_insert_ne. congruence.
Qed.

Lemma AssignDriver_touches_only (env : Env) (shipmentID driverID : UUID) (w : World) :
  touches_only shipmentID w (fst (ShipmentService.AssignDriver env shipmentID driverID w)).
Proof.
  unfold ShipmentService.AssignDriver, ShipmentRepository.GetByID.
  destruct (err_shipment_GetByID env); [apply touches_only_refl|].
  destruct (shipments w !! shipmentID) as [shipment|]; [|apply touches_only_refl].
  destruct (Shipment.CanTransitionTo shipment StatusDriverAssigned); simpl;
    [|apply touches_only_refl].
  unfold ShipmentRepository.AssignDriver.
  destruct (err_shipment_AssignDriver env); [apply touches_only_refl|].
  cbn [fst]. apply touches_only_record_publish; try reflexivity.
  intros id' Hne. simpl. apply lookup_alter_ne. congruence.
Qed.

Lemma updateStatusAndRecord_touches_only (env : Env) (shipment : Shipment.t)
    (newStatus : ShipmentStatus) (triggeredBy : UUID) (role : string)
    (proofHash signature metadata : option string) (w : World) :
  touches_only (Shipment.ID shipment) w
    (fst (ShipmentService.updateStatusAndRecord env shipment newStatus triggeredBy role
            proofHash signature metadata w)).
Proof.
  unfold ShipmentService.updateStatusAndRecord.
  destruct (Shipment.CanTransitionTo shipment newStatus); simpl; [|apply touches_only_refl].
  unfold ShipmentRepository.UpdateStatus.
  destruct (err_shipment_UpdateStatus env); [apply touches_only_refl|].
  set (w1 := mkWorld _ _ _).
  set (transition := StateTransition.mk _ _ _ _ _ _ _ _ _ _ _).
  assert (Hframe : forall id', id' <> Shipment.ID shipment ->
                     shipments w1 !! id' = shipments w !! id').
  { intros id' Hne. unfold w1. simpl. apply lookup_alter_ne. congruence. }
  pose proof (touches_only_record_publish (Shipment.ID shipment) env w w1 transition 1 1
                (ShipmentService.getTopicForStatus newStatus)
                (DataStatus (Shipment.ID shipment) newStatus triggeredBy)
                Hframe eq_refl eq_refl) as Hall.
  destruct (TransitionRepository_Create_cases (err_transition_Create env) transition w1)
    as (Hs2 & Hp2 & Hcase).
  destruct (TransitionRepository.Create (err_transition_Create env) transition w1)
    as [w2 [err|]] eqn:Hcreate; cbn [fst snd] in *.
  - destruct Hcase as [[Hsame _]|(t' & _ & Hnone & _)]; [|discriminate].
    split; [|split].
    + intros id' Hne. rewrite Hs2. apply Hframe, Hne.
    + left. rewrite Hsame. reflexivity.
    + left. rewrite Hp2. reflexivity.
  - exact Hall.
Qed.

(** X1. The transition log and the published events are append-only: each of
    the three operations, whatever it is given and whatever fails, leaves
    both as they were or with exactly one more entry at the end. *)
Theorem lifecycle_logs_only_grow (env : Env) (w : World) :
  (forall req : CreateShipmentRequest.t,
      let w' := fst (ShipmentService.CreateShipment env req w) in
      grown_by_at_most_one (state_transitions w) (state_transitions w') /\
      grown_by_at_most_one (published w) (published w')) /\
  (forall shipmentID driverID : UUID,
      let w' := fst (ShipmentService.AssignDriver env shipmentID driverID w) in
      grown_by_at_most_one (state_transitions w) (state_transitions w') /\
      grown_by_at_most_one (published w) (published w')) /\
  (forall (shipment : Shipment.t) (newStatus : ShipmentStatus) (triggeredBy : UUID)
          (role : string) (proofHash signature metadata : option string),
      let w' := fst (ShipmentService.updateStatusAndRecord env shipment newStatus triggeredBy
                       role proofHash signature metadata w) in
      grown_by_at_most_one (state_transitions w) (state_transitions w') /\
      grown_by_at_most_one (published w) (published w')).
Proof.
  split; [|split].
  - intros req. apply (CreateShipment_touches_only env req w).
  - intros sid did. apply (AssignDriver_touches_only env sid did w).
  - intros sh new by_ role ph sg md.
    apply (updateStatusAndRecord_touches_only env sh new by_ role ph sg md w).
Qed.

(** X2. No operation writes another shipment: the row of every id
    other than the one the operation is about is the same before and after
    ([CreateShipment] is about the id it draws). *)
Theorem lifecycle_leaves_other_shipments_alone (env : Env) (w : World) (other : UUID) :
  (forall req : CreateShipmentRequest.t,
      other <> uuid_New env 0 ->
      shipments (fst (ShipmentService.CreateShipment env req w)) !! other =
      shipments w !! other) /\
  (forall shipmentID driverID : UUID,
      other <> shipmentID ->
      shipments (fst (ShipmentService.AssignDriver env shipmentID driverID w)) !! other =
      shipments w !! other) /\
  (forall (shipment : Shipment.t) (newStatus : ShipmentStatus) (triggeredBy : UUID)
          (role : string) (proofHash signature metadata : option string),
      other <> Shipment.ID shipment ->
      shipments (fst (ShipmentService.updateStatusAndRecord env shipment newStatus
                        triggeredBy role proofHash signature metadata w)) !! other =
      shipments w !! other).
Proof.
  split; [|split].
  - intros req Hne. apply (CreateShipment_touches_only env req w), Hne.
  - intros sid did Hne. apply (AssignDriver_touches_only env sid did w), Hne.
  - intros sh new by_ role ph sg md Hne.
    apply (updateStatusAndRecord_touches_only env sh new by_ role ph sg md w), Hne.
Qed.

(** The witness of X2: a shipment is created next to shipment 1, which
    stays as it was. *)
Lemma lifecycle_leaves_other_shipments_alone_witness :
  shipments (fst (ShipmentService.CreateShipment env_ok req_sample (world_with "in_transit")))
    !! 1%N = shipments (world_with "in_transit") !! 1%N.
Proof.
  apply (lifecycle_leaves_other_shipments_alone env_ok (world_with "in_transit") 1%N).
  discriminate.
Defined.

(** X3. [CreateShipment] and [AssignDriver] fail cleanly: when either returns
    an error, nothing has been written (and [CreateShipment] returns no
    shipment). *)
Theorem failed_create_or_assign_writes_nothing (env : Env) (w w' : World) (err : error) :
  (forall (req : CreateShipmentRequest.t) (r : option Shipment.t),
      ShipmentService.CreateShipment env req w = (w', (r, Some err)) -> w' = w /\ r = None) /\
  (forall shipmentID driverID : UUID,
      ShipmentService.AssignDriver env shipmentID driverID w = (w', Some err) -> w' = w).
Proof.
  split.
  - intros req r. unfold ShipmentService.CreateShipment, ShipmentRepository.Create.
    destruct (err_shipment_Create env).
    + intros H. injection H as <- <- _. auto.
    + match goal with |- context [shipments w !! ?k] => destruct (shipments w !! k) end.
      * intros H. injection H as <- <- _. auto.
      * discriminate.
  - intros sid did. unfold ShipmentService.AssignDriver, ShipmentRepository.GetByID.
    destruct (err_shipment_GetByID env); [intros H; injection H as <- _; reflexivity|].
    destruct (shipments w !! sid) as [shipment|];
      [|intros H; injection H as <- _; reflexivity].
    destruct (Shipment.CanTransitionTo shipment StatusDriverAssigned); simpl;
      [|intros H; injection H as <- _; reflexivity].
    unfold ShipmentRepository.AssignDriver.
    destruct (err_shipment_AssignDriver env); [intros H; injection H as <- _; reflexivity|].
    discriminate.
Qed.

(** The witness of X3: the driver of an unknown shipment. *)
Lemma failed_create_or_assign_writes_nothing_witness :
  fst (ShipmentService.AssignDriver env_ok 9%N 55%N (world_with "price_confirmed")) =
  world_with "price_confirmed".
Proof.
  destruct (failed_create_or_assign_writes_nothing env_ok (world_with "price_confirmed")
              (fst (ShipmentService.AssignDriver env_ok 9%N 55%N (world_with "price_confirmed")))
              (Errorf "shipment not found")) as [_ HA].
  apply (HA 9%N 55%N). vm_compute. reflexivity.
Defined.

(** X4. [updateStatusAndRecord] does not fail cleanly.  When it returns an
    error the two logs are untouched, but the world is either the one given
    or the one with the new status already written: the second is what an
    error of the transition INSERT leaves behind. *)
Theorem failed_updateStatusAndRecord_may_keep_the_status (env : Env) (shipment : Shipment.t)
    (newStatus : ShipmentStatus) (triggeredBy : UUID) (role : string)
    (proofHash signature metadata : option string) (w w' : World) (err : error) :
  ShipmentService.updateStatusAndRecord env shipment newStatus triggeredBy role
      proofHash signature metadata w = (w', Some err) ->
  state_transitions w' = state_transitions w /\
  published w' = published w /\
  (w' = w \/
   (Shipment.CanTransitionTo shipment newStatus = true /\
    err_shipment_UpdateStatus env = None /\
    shipments w' =
      alter (Shipment.with_status (db_now env) newStatus) (Shipment.ID shipment) (shipments w))).
Proof.
  unfold ShipmentService.updateStatusAndRecord.
  destruct (Shipment.CanTransitionTo shipment newStatus); simpl.
  2: { intros H. injection H as <- _. auto. }
  unfold ShipmentRepository.UpdateStatus.
  destruct (err_shipment_UpdateStatus env).
  { intros H. injection H as <- _. auto. }
  set (w1 := mkWorld _ _ _).
  set (transition := StateTransition.mk _ _ _ _ _ _ _ _ _ _ _).
  destruct (TransitionRepository_Create_cases (err_transition_Create env) transition w1)
    as (Hs2 & Hp2 & Hcase).
  destruct (TransitionRepository.Create (err_transition_Create env) transition w1)
    as [w2 [e|]] eqn:Hcreate; cbn [fst snd] in *; [|discriminate].
  intros H. injection H as <- _.
  destruct Hcase as [[Hsame _]|(t' & _ & Hnone & _)]; [|discriminate].
  split; [exact Hsame|]. split; [exact Hp2|]. right. auto.
Qed.

(** The witness of X4: the price of shipment 1 is confirmed while the
    transition log cannot be written. *)
Lemma failed_updateStatusAndRecord_may_keep_the_status_witness :
  let w' := fst (ShipmentService.updateStatusAndRecord env_log_down (shipment_sample "created")
                   "price_confirmed" 7%N "user" None None (Some "null") (world_with "created")) in
  state_transitions w' = [] /\ published w' = [] /\
  Shipment.Status <$> (shipments w' !! 1%N) = Some "price_confirmed".
Proof.
  cbv zeta.
  destruct (failed_updateStatusAndRecord_may_keep_the_status env_log_down
              (shipment_sample "created") "price_confirmed" 7%N "user" None None (Some "null")
              (world_with "created")
              (fst (ShipmentService.updateStatusAndRecord env_log_down (shipment_sample "created")
                      "price_confirmed" 7%N "user" None None (Some "null")
                      (world_with "created")))
              (DBError "connection reset by peer")) as (Ht & Hp & _).
  - vm_compute. reflexivity.
  - split; [exact Ht|]. split; [exact Hp|]. vm_compute. reflexivity.
Defined.

(** X5. A broker that refuses the event changes nothing but the event: with
    the publish failing, each operation returns what it returns otherwise and
    leaves the same rows and the same transition log. *)
Theorem broker_failure_is_not_visible (env : Env) (msg : string) (w : World) :
  (forall req : CreateShipmentRequest.t,
      let r := ShipmentService.CreateShipment env req w in
      let r' := ShipmentService.CreateShipment (with_broker (Some msg) env) req w in
      snd r' = snd r /\ shipments (fst r') = shipments (fst r) /\
      state_transitions (fst r') = state_transitions (fst r) /\
      published (fst r') = published w) /\
  (forall shipmentID driverID : UUID,
      let r := ShipmentService.AssignDriver env shipmentID driverID w in
      let r' := ShipmentService.AssignDriver (with_broker (Some msg) env) shipmentID driverID w in
      snd r' = snd r /\ shipments (fst r') = shipments (fst r) /\
      state_transitions (fst r') = state_transitions (fst r) /\
      published (fst r') = published w) /\
  (forall (shipment : Shipment.t) (newStatus : ShipmentStatus) (triggeredBy : UUID)
          (role : string) (proofHash signature metadata : option string),
      let r := ShipmentService.updateStatusAndRecord env shipment newStatus triggeredBy role
                 proofHash signature metadata w in
      let r' := ShipmentService.updateStatusAndRecord (with_broker (Some msg) env) shipment
                  newStatus triggeredBy role proofHash signature metadata w in
      snd r' = snd r /\ shipments (fst r') = shipments (fst r) /\
      state_transitions (fst r') = state_transitions (fst r) /\
      published (fst r') = published w).
Proof.
  split; [|split].
  - intros req. cbv zeta.
    unfold ShipmentService.CreateShipment, ShipmentRepository.Create. cbn [with_broker
      uuid_New time_Now db_now err_shipment_Create err_transition_Create].
    destruct (err_shipment_Create env); [auto|].
    match goal with |- context [shipments w !! ?k] => destruct (shipments w !! k) end; [auto|].
    set (w1 := mkWorld _ _ _).
    set (transition := StateTransition.mk _ _ _ _ _ _ _ _ _ _ _).
    destruct (TransitionRepository_Create_cases (err_transition_Create env) transition w1)
      as (_ & Hp2 & _).
    cbn [fst snd].
    match goal with |- context [ShipmentService.publishEvent env ?ku ?kt ?tp ?d ?x] =>
      destruct (publishEvent_tables env ku kt tp d x) as [Hs3 Ht3] end.
    rewrite Hs3, Ht3.
    unfold ShipmentService.publishEvent. cbn [with_broker err_Publish].
    rewrite Hp2. auto.
  - intros sid did. cbv zeta.
    unfold ShipmentService.AssignDriver, ShipmentRepository.GetByID. cbn [with_broker
      uuid_New time_Now db_now err_shipment_GetByID err_shipment_AssignDriver
      err_transition_Create].
    destruct (err_shipment_GetByID env); [auto|].
    destruct (shipments w !! sid) as [shipment|]; [|auto].
    destruct (Shipment.CanTransitionTo shipment StatusDriverAssigned); simpl negb; cbv iota;
      [|auto].
    unfold ShipmentRepository.AssignDriver.
    destruct (err_shipment_AssignDriver env); [auto|].
    set (w1 := mkWorld _ _ _).
    set (transition := StateTransition.mk _ _ _ _ _ _ _ _ _ _ _).
    destruct (TransitionRepository_Create_cases (err_transition_Create env) transition w1)
      as (_ & Hp2 & _).
    cbn [fst snd].
    match goal with |- context [ShipmentService.publishEvent env ?ku ?kt ?tp ?d ?x] =>
      destruct (publishEvent_tables env ku kt tp d x) as [Hs3 Ht3] end.
    rewrite Hs3, Ht3.
    unfold ShipmentService.publishEvent. cbn [with_broker err_Publish].
    rewrite Hp2. auto.
  - intros sh new by_ role ph sg md. cbv zeta.
    unfold ShipmentService.updateStatusAndRecord. cbn [with_broker
      uuid_New time_Now db_now err_shipment_UpdateStatus err_transition_Create].
    destruct (Shipment.CanTransitionTo sh new); simpl negb; cbv iota; [|auto].
    unfold ShipmentRepository.UpdateStatus.
    destruct (err_shipment_UpdateStatus env); [auto|].
    set (w1 := mkWorld _ _ _).
    set (transition := StateTransition.mk _ _ _ _ _ _ _ _ _ _ _).
    destruct (TransitionRepository_Create_cases (err_transition_Create env) transition w1)
      as (_ & Hp2 & _).
    destruct (TransitionRepository.Create (err_transition_Create env) transition w1)
      as [w2 [e|]] eqn:Hcreate; cbn [fst snd] in *; [auto|].
    match goal with |- context [ShipmentService.publishEvent env ?ku ?kt ?tp ?d ?x] =>
      destruct (publishEvent_tables env ku kt tp d x) as [Hs3 Ht3] end.
    rewrite Hs3, Ht3.
    unfold ShipmentService.publishEvent. cbn [with_broker err_Publish].
    rewrite Hp2. auto.
Qed.

(** X6. [AssignDriver] succeeds only on a stored shipment whose status is
    [price_confirmed]; it then stores the driver and the status
    [driver_assigned], and the only row it can add to the log is the
    transition from [price_confirmed] to [driver_assigned] triggered by that
    driver. *)
Theorem AssignDriver_success_effects (env : Env) (shipmentID driverID : UUID) (w w' : World) :
  ShipmentService.AssignDriver env shipmentID driverID w = (w', None) ->
  exists s,
    shipments w !! shipmentID = Some s /\
    Shipment.Status s = "price_confirmed" /\
    shipments w' !! shipmentID =
      Some (Shipment.with_driver (db_now env) driverID "driver_assigned" s) /\
    (state_transitions w' = state_transitions w \/
     state_transitions w' =
       (state_transitions w ++
        [StateTransition.mk (uuid_New env 0) shipmentID (Some "price_confirmed")
           "driver_assigned" driverID "driver" None None None (Some "{}")
           (time_Now env 0)])%list).
Proof.
  unfold ShipmentService.AssignDriver, ShipmentRepository.GetByID.
  destruct (err_shipment_GetByID env); [discriminate|].
  destruct (shipments w !! shipmentID) as [s|] eqn:Hrow; [|discriminate].
  destruct (Shipment.CanTransitionTo s StatusDriverAssigned) eqn:Hcan; simpl; [|discriminate].
  apply CanTransitionTo_true_iff in Hcan.
  assert (Hst : Shipment.Status s = "price_confirmed") by (inversion Hcan; reflexivity).
  unfold ShipmentRepository.AssignDriver.
  destruct (err_shipment_AssignDriver env); [discriminate|].
  set (w1 := mkWorld _ _ _).
  set (transition := StateTransition.mk _ _ _ _ _ _ _ _ _ _ _).
  intros H. injection H as <-.
  exists s. split; [reflexivity|]. split; [exact Hst|].
  match goal with |- context [ShipmentService.publishEvent env ?ku ?kt ?tp ?d ?x] =>
    destruct (publishEvent_tables env ku kt tp d x) as [Hs3 Ht3] end.
  rewrite Hs3, Ht3.
  unfold TransitionRepository.Create. cbn [StateTransition.Metadata transition].
  destruct (err_transition_Create env); cbn [fst].
  { split; [|left; reflexivity]. unfold w1. simpl. rewrite lookup_alter_eq, Hrow. reflexivity. }
  destruct (existsb _ _); cbn [fst].
  { split; [|left; reflexivity]. unfold w1. simpl. rewrite lookup_alter_eq, Hrow. reflexivity. }
  cbn [StateTransition.ShipmentID StateTransition.with_metadata transition].
  assert (Hrow1 : shipments w1 !! shipmentID =
                  Some (Shipment.with_driver (db_now env) driverID "driver_assigned" s)).
  { unfold w1. simpl. rewrite lookup_alter_eq, Hrow. reflexivity. }
  rewrite Hrow1. cbn [fst shipments state_transitions]. split; [exact Hrow1|].
  right. unfold transition. cbn. rewrite Hst. reflexivity.
Qed.

(** The witness of X6: the driver of the sample shipment. *)
Lemma AssignDriver_success_effects_witness :
  exists s,
    shipments (world_with "price_confirmed") !! 1%N = Some s /\
    Shipment.Status s = "price_confirmed" /\
    shipments (fst (ShipmentService.AssignDriver env_ok 1%N 55%N (world_with "price_confirmed")))
      !! 1%N = Some (Shipment.with_driver 2000 55%N "driver_assigned" s).
Proof.
  destruct (AssignDriver_success_effects env_ok 1%N 55%N (world_with "price_confirmed")
              (fst (ShipmentService.AssignDriver env_ok 1%N 55%N (world_with "price_confirmed"))))
    as (s & H1 & H2 & H3 & _).
  - vm_compute. reflexivity.
  - exists s. auto.
Defined.

(** X7. The topic of a status event names its destination: two statuses that
    the table allows as targets and that [getTopicForStatus] sends to the
    same topic are the same status. *)
Theorem topic_names_the_destination (s1 s2 : Shipment.t) (t1 t2 : ShipmentStatus) :
  Shipment.CanTransitionTo s1 t1 = true ->
  Shipment.CanTransitionTo s2 t2 = true ->
  ShipmentService.getTopicForStatus t1 = ShipmentService.getTopicForStatus t2 ->
  t1 = t2.
Proof.
  intros H1 H2. apply CanTransitionTo_true_iff in H1, H2.
  inversion H1; inversion H2; subst; vm_compute; congruence.
Qed.

(** The witness of X7. *)
Lemma topic_names_the_destination_witness : "delivered" = "delivered".
Proof.
  apply (topic_names_the_destination (shipment_sample "in_transit") (shipment_sample "in_transit")
           "delivered" "delivered"); reflexivity.
Defined.

(** The one target without a topic of its own: a transition to
    [driver_assigned] made through [updateStatusAndRecord] goes to the general
    topic, not to the one [AssignDriver] publishes on. *)
Lemma driver_assigned_has_no_status_topic :
  ShipmentService.getTopicForStatus StatusDriverAssigned = "shipment.status.changed" /\
  ShipmentService.getTopicForStatus StatusDriverAssigned <> TopicDriverAssigned.
Proof. split; [reflexivity | discriminate]. Qed.

(** X8. What [CreateShipment] returns answers the request: its response
    carries the pickup and dropoff locations, the notes, the user and the
    collection of the request, with status [created] and no driver; and
    [GetShipment] finds a row of that id and status. *)
Theorem created_shipment_answers_the_request (env : Env) (req : CreateShipmentRequest.t)
    (w w' : World) (s : Shipment.t) :
  ShipmentService.CreateShipment env req w = (w', (Some s, None)) ->
  err_shipment_GetByID env = None ->
  let resp := ShipmentResponse.ToResponse s in
  ShipmentResponse.PickupLocation resp = CreateShipmentRequest.PickupLocation req /\
  ShipmentResponse.DropoffLocation resp = CreateShipmentRequest.DropoffLocation req /\
  ShipmentResponse.Notes resp = CreateShipmentRequest.Notes req /\
  ShipmentResponse.UserID resp = CreateShipmentRequest.UserID req /\
  ShipmentResponse.CollectionID resp = CreateShipmentRequest.CollectionID req /\
  ShipmentResponse.Status resp = "created" /\
  ShipmentResponse.DriverID resp = None /\
  exists row, ShipmentService.GetShipment env (Shipment.ID s) w' = inr (Some row) /\
              Shipment.ID row = Shipment.ID s /\ Shipment.Status row = "created".
Proof.
  unfold ShipmentService.CreateShipment.
  set (shipment := Shipment.mk _ _ _ _ _ _ _ _ _ _ _ _ _ _ _ _ _ _ _ _ _).
  set (transition := StateTransition.mk _ _ _ _ _ _ _ _ _ _ _).
  unfold ShipmentRepository.Create.
  destruct (err_shipment_Create env); [discriminate|].
  change (Shipment.ID shipment) with (uuid_New env 0).
  destruct (shipments w !! uuid_New env 0); [discriminate|].
  set (w1 := mkWorld _ _ _).
  intros H Hget. injection H as <- <-. cbv zeta.
  assert (Hloc : forall loc : option Location.t,
            ShipmentResponse.location_of (Location.Latitude <$> loc) (Location.Longitude <$> loc)
              (Location.Address <$> loc) = loc).
  { intros [[lat lng addr]|]; reflexivity. }
  unfold shipment at 1 2. cbn [ShipmentResponse.ToResponse ShipmentResponse.PickupLocation
    ShipmentResponse.DropoffLocation ShipmentResponse.Notes ShipmentResponse.UserID
    ShipmentResponse.CollectionID ShipmentResponse.Status ShipmentResponse.DriverID
    Shipment.PickupLatitude Shipment.PickupLongitude Shipment.PickupAddress
    Shipment.DropoffLatitude Shipment.DropoffLongitude Shipment.DropoffAddress].
  rewrite !Hloc. do 7 (split; [reflexivity|]).
  unfold ShipmentService.GetShipment, ShipmentRepository.GetByID. rewrite Hget.
  match goal with |- context [ShipmentService.publishEvent env ?ku ?kt ?tp ?d ?x] =>
    destruct (publishEvent_tables env ku kt tp d x) as [Hs3 _] end.
  rewrite Hs3.
  destruct (TransitionRepository_Create_cases (err_transition_Create env) transition w1)
    as (Hs2 & _ & _).
  rewrite Hs2. unfold w1. cbn [shipments].
  change (Shipment.ID shipment) with (uuid_New env 0).
  rewrite lookup_insert_eq. eexists. split; [reflexivity|]. split; reflexivity.
Qed.

(** The witness of X8: the sample request has no location, one made from it
    with a pickup location gets the location back. *)
Lemma created_shipment_answers_the_request_witness :
  ShipmentResponse.PickupLocation
    (ShipmentResponse.ToResponse
       (Shipment.mk 100%N 7%N None 8%N "plastic" 12.5%float None 40%float false None None
          "created" (Some 36.75%float) (Some 3.25%float) (Some "Port") None None None None
          1000 1000)) =
  Some (Location.mk 36.75%float 3.25%float "Port").
Proof.
  apply (created_shipment_answers_the_request env_ok
           (CreateShipmentRequest.mk 7%N 8%N "plastic" 12.5%float 40%float
              (Some (Location.mk 36.75%float 3.25%float "Port")) None None)
           world_empty
           (fst (ShipmentService.CreateShipment env_ok
                   (CreateShipmentRequest.mk 7%N 8%N "plastic" 12.5%float 40%float
                      (Some (Location.mk 36.75%float 3.25%float "Port")) None None)
                   world_empty))).
  - vm_compute. reflexivity.
  - reflexivity.
Defined.

Lemma spec_edge_rank (s t : ShipmentStatus) :
  spec_edge s t -> (status_rank s < status_rank t)%nat.
Proof.
  intros H. inversion H; vm_compute; lia.
Qed.

Lemma status_rank_bound (s : ShipmentStatus) : (status_rank s <= 8)%nat.
Proof.
  unfold status_rank.
  repeat match goal with |- context [String.eqb ?a ?b] => destruct (String.eqb a b) end; lia.
Qed.

Lemma lifecycle_length (states : list Shipment.t) (s : Shipment.t) :
  lifecycle (s :: states) ->
  (status_rank (Shipment.Status s) + length (s :: states) <= 9)%nat.
Proof.
  revert s. induction states as [|s' states IH]; intros s Hl.
  - pose proof (status_rank_bound (Shipment.Status s)). simpl. lia.
  - destruct Hl as [Hedge Hl]. apply CanTransitionTo_true_iff, spec_edge_rank in Hedge.
    specialize (IH s' Hl). simpl in *. lia.
Qed.

(** X9. The state machine has no cycle: a shipment goes through at most nine
    states, so through at most eight transitions, and a lifecycle of nine
    states exists. *)
Theorem lifecycle_has_at_most_nine_states (states : list Shipment.t) :
  lifecycle states -> (length states <= 9)%nat.
Proof.
  destruct states as [|s states]; [simpl; lia|].
  intros Hl. pose proof (lifecycle_length states s Hl). lia.
Qed.

(** The witness of X9: created, price confirmed, driver assigned, pickup
    started, in transit, delivered, disputed, resolved, completed. *)
Lemma lifecycle_has_at_most_nine_states_witness :
  lifecycle longest_lifecycle /\ length longest_lifecycle = 9%nat /\
  (length longest_lifecycle <= 9)%nat.
Proof.
  assert (Hl : lifecycle longest_lifecycle) by (vm_compute; tauto).
  split; [exact Hl|]. split; [reflexivity|].
  apply (lifecycle_has_at_most_nine_states longest_lifecycle Hl).
Defined.

(** ** The telemetry intake and the dispatch *)

(** What one report can do to the rows: nothing, or write a level within
    0..100 and the time on the rows of its device. *)
Lemma processBinStatus_rows (c : Client.t) (env : IntakeEnv) (payload : string) (w : Backend) :
  bins (mqtt.processBinStatus c env payload w) = bins w \/
  exists status,
    json_Unmarshal env payload = inr status /\
    0 <= BinStatusUpdate.FillLevel status <= 100 /\
    bins (mqtt.processBinStatus c env payload w) =
      map (fun b => if String.eqb (Bin.DeviceID b) (BinStatusUpdate.BinID status)
                    then Bin.with_fill_level (bins_now env) (BinStatusUpdate.FillLevel status) b
                    else b) (bins w).
Proof.
  unfold mqtt.processBinStatus.
  destruct (json_Unmarshal env payload) as [err|status] eqn:Hdec; [left; reflexivity|].
  destruct ((BinStatusUpdate.FillLevel status <? 0) || (100 <? BinStatusUpdate.FillLevel status))
    eqn:Hrange; [left; reflexivity|].
  apply orb_false_iff in Hrange as [Hlo Hhi]. apply Z.ltb_ge in Hlo, Hhi.
  unfold BinRepository.UpdateFillLevel.
  destruct (err_UpdateFillLevel env); [left; reflexivity|].
  cbn [bins log_Printf].
  destruct (existsb _ _ && _); [left; reflexivity|].
  right. exists status. split; [reflexivity|]. split; [lia|].
  destruct (Client.fillLevelThreshold c <=? BinStatusUpdate.FillLevel status); [|reflexivity].
  cbn [bins log_Printf].
  destruct (BinRepository.GetByDeviceID _ _ _) as [e|[b|]]; reflexivity.
Qed.

(** X10. The stored fill levels stay percentages: if every row is within
    0..100, every row still is after any stream of payloads, whatever they
    hold and whatever fails. *)
Theorem fill_levels_stay_in_range (c : Client.t) (env : IntakeEnv) (payloads : list string)
    (w : Backend) :
  Forall fill_level_ok (bins w) ->
  Forall fill_level_ok (bins (mqtt.process_all c env payloads w)).
Proof.
  revert w. induction payloads as [|payload payloads IH]; intros w Hok; [exact Hok|].
  unfold mqtt.process_all in *. simpl. apply IH.
  destruct (processBinStatus_rows c env payload w) as [->|(status & _ & Hrange & ->)];
    [exact Hok|].
  apply List.Forall_map. revert Hok. apply List.Forall_impl. intros b Hb.
  destruct (String.eqb _ _); [exact Hrange | exact Hb].
Qed.

(** The witness of X10: the sample bin through five reports, two of them out
    of range. *)
Lemma fill_levels_stay_in_range_witness :
  Forall fill_level_ok
    (bins (mqtt.process_all mqtt.NewClient intake_env
             ["bin-1 reports 150"; "bin-1 reports 95"; "bin-1 reports -5"; "not a report";
              "bin-1 reports 97"] backend_sample)).
Proof.
  apply (fill_levels_stay_in_range mqtt.NewClient intake_env).
  repeat constructor; simpl; lia.
Defined.

(** X11. A report leaves every row in its place and itself: identity,
    device, position and the other columns never change, only the fill level
    and the time of the last update can, and only on the rows of the
    reporting device. *)
Theorem report_changes_level_and_time_of_its_device_only (c : Client.t) (env : IntakeEnv)
    (payload : string) (w : Backend) :
  Forall2 same_bin_but_level (bins w) (bins (mqtt.processBinStatus c env payload w)) /\
  forall (i : nat) (b : Bin.t),
    bins w !! i = Some b ->
    (forall status, json_Unmarshal env payload = inr status ->
                    Bin.DeviceID b <> BinStatusUpdate.BinID status) ->
    bins (mqtt.processBinStatus c env payload w) !! i = Some b.
Proof.
  assert (Hsame : forall b, same_bin_but_level b b) by (intros b; repeat split).
  destruct (processBinStatus_rows c env payload w) as [->|(status & Hdec & _ & ->)].
  - split; [|auto]. induction (bins w); constructor; auto.
  - split.
    + induction (bins w) as [|b l IH]; simpl; constructor; [|exact IH].
      destruct (String.eqb _ _); [repeat split | apply Hsame].
    + intros i b Hb Hother. rewrite list_lookup_fmap, Hb. simpl.
      specialize (Hother status Hdec). apply String.eqb_neq in Hother. rewrite Hother.
      reflexivity.
Qed.

(** What one report can do to the dispatch requests. *)
Lemma processBinStatus_dispatch (c : Client.t) (env : IntakeEnv) (payload : string)
    (w : Backend) :
  dispatch_requests (mqtt.processBinStatus c env payload w) = dispatch_requests w \/
  exists status bin,
    json_Unmarshal env payload = inr status /\
    0 <= BinStatusUpdate.FillLevel status <= 100 /\
    Client.fillLevelThreshold c <= BinStatusUpdate.FillLevel status /\
    err_UpdateFillLevel env = None /\
    dispatch_requests (mqtt.processBinStatus c env payload w) =
      (dispatch_requests w ++ [bin])%list /\
    In bin (bins (mqtt.processBinStatus c env payload w)) /\
    Bin.DeviceID bin = BinStatusUpdate.BinID status /\
    Bin.FillLevel bin = BinStatusUpdate.FillLevel status.
Proof.
  unfold mqtt.processBinStatus.
  destruct (json_Unmarshal env payload) as [err|status] eqn:Hdec; [left; reflexivity|].
  destruct ((BinStatusUpdate.FillLevel status <? 0) || (100 <? BinStatusUpdate.FillLevel status))
    eqn:Hrange; [left; reflexivity|].
  apply orb_false_iff in Hrange as [Hlo Hhi]. apply Z.ltb_ge in Hlo, Hhi.
  unfold BinRepository.UpdateFillLevel.
  destruct (err_UpdateFillLevel env) eqn:Hupd; [left; reflexivity|].
  cbn [bins log_Printf].
  destruct (existsb _ _ && _); [left; reflexivity|].
  destruct (Client.fillLevelThreshold c <=? BinStatusUpdate.FillLevel status) eqn:Hthr;
    [|left; reflexivity].
  apply Z.leb_le in Hthr. cbn [bins log_Printf drivers logged dispatch_requests].
  unfold BinRepository.GetByDeviceID.
  destruct (err_GetByDeviceID env); [left; reflexivity|].
  match goal with |- context [List.find ?f ?l] => destruct (List.find f l) as [bin|] eqn:Hfind end;
    [|left; reflexivity].
  right. exists status, bin. cbn [bins dispatch_requests].
  do 5 (split; [first [reflexivity | lia]|]).
  pose proof (find_some _ _ Hfind) as [Hin Hdev]. apply String.eqb_eq in Hdev.
  split; [exact Hin|]. split; [exact Hdev|].
  apply in_map_iff in Hin as (b0 & Hb0 & _).
  destruct (String.eqb (Bin.DeviceID b0) (BinStatusUpdate.BinID status)) eqn:E.
  - subst bin. reflexivity.
  - subst bin. apply String.eqb_neq in E. contradiction.
Qed.

(** X12. A dispatch is requested only for an accepted report at or above the
    threshold: one report adds at most one request, and when it adds one the
    payload decoded to a level within 0..100 and not below the threshold, the
    level was stored, and the request carries a stored row of the reporting
    device with exactly that level.  The drivers are never written. *)
Theorem dispatch_only_for_an_accepted_report_at_threshold (c : Client.t) (env : IntakeEnv)
    (payload : string) (w : Backend) :
  drivers (mqtt.processBinStatus c env payload w) = drivers w /\
  (dispatch_requests (mqtt.processBinStatus c env payload w) = dispatch_requests w \/
   exists status bin,
     json_Unmarshal env payload = inr status /\
     0 <= BinStatusUpdate.FillLevel status <= 100 /\
     Client.fillLevelThreshold c <= BinStatusUpdate.FillLevel status /\
     err_UpdateFillLevel env = None /\
     dispatch_requests (mqtt.processBinStatus c env payload w) =
       (dispatch_requests w ++ [bin])%list /\
     In bin (bins (mqtt.processBinStatus c env payload w)) /\
     Bin.DeviceID bin = BinStatusUpdate.BinID status /\
     Bin.FillLevel bin = BinStatusUpdate.FillLevel status).
Proof.
  split; [|apply processBinStatus_dispatch].
  unfold mqtt.processBinStatus.
  destruct (json_Unmarshal env payload) as [err|status]; [reflexivity|].
  destruct (_ || _); [reflexivity|].
  destruct (BinRepository.UpdateFillLevel _ _ _ _ _) as [rows [e|]]; [reflexivity|].
  destruct (_ <=? _); [|reflexivity].
  destruct (BinRepository.GetByDeviceID _ _ _) as [e|[b|]]; reflexivity.
Qed.

(** X13. A report for a device that has no row is accepted and lost: the
    UPDATE matches nothing and is no error, no row changes, and at or above
    the threshold the missing row is logged and no dispatch is requested. *)
Theorem report_of_unknown_device_is_lost (c : Client.t) (env : IntakeEnv) (payload : string)
    (w : Backend) (status : BinStatusUpdate.t) :
  json_Unmarshal env payload = inr status ->
  0 <= BinStatusUpdate.FillLevel status <= 100 ->
  err_UpdateFillLevel env = None -> err_GetByDeviceID env = None ->
  ~ In (BinStatusUpdate.BinID status) (map Bin.DeviceID (bins w)) ->
  let w' := mqtt.processBinStatus c env payload w in
  bins w' = bins w /\
  dispatch_requests w' = dispatch_requests w /\
  (Client.fillLevelThreshold c <= BinStatusUpdate.FillLevel status ->
   last (logged w') = Some (LogBinDetailsFailed None)).
Proof.
  intros Hdec Hrange Hupd Hget Habsent w'. subst w'.
  assert (Hrows : forall l, ~ In (BinStatusUpdate.BinID status) (map Bin.DeviceID l) ->
            map (fun b => if String.eqb (Bin.DeviceID b) (BinStatusUpdate.BinID status)
                          then Bin.with_fill_level (bins_now env)
                                 (BinStatusUpdate.FillLevel status) b
                          else b) l = l).
  { induction l as [|b l IH]; [reflexivity|]. simpl. intros Hno.
    destruct (String.eqb_spec (Bin.DeviceID b) (BinStatusUpdate.BinID status)) as [E|E].
    - exfalso. apply Hno. left. exact E.
    - f_equal. apply IH. tauto. }
  assert (Hfind : forall l, ~ In (BinStatusUpdate.BinID status) (map Bin.DeviceID l) ->
            List.find (fun b => String.eqb (Bin.DeviceID b) (BinStatusUpdate.BinID status)) l
            = None).
  { induction l as [|b l IH]; [reflexivity|]. simpl. intros Hno.
    destruct (String.eqb_spec (Bin.DeviceID b) (BinStatusUpdate.BinID status)) as [E|E].
    - exfalso. apply Hno. left. exact E.
    - apply IH. tauto. }
  specialize (Hrows _ Habsent). specialize (Hfind _ Habsent).
  unfold mqtt.processBinStatus. rewrite Hdec.
  assert (Hok : (BinStatusUpdate.FillLevel status <? 0)
                || (100 <? BinStatusUpdate.FillLevel status) = false).
  { apply orb_false_iff. split; apply Z.ltb_ge; lia. }
  rewrite Hok. unfold BinRepository.UpdateFillLevel. rewrite Hupd.
  assert (Hchk : negb ((0 <=? BinStatusUpdate.FillLevel status)
                       && (BinStatusUpdate.FillLevel status <=? 100)) = false).
  { apply negb_false_iff, andb_true_iff. split; apply Z.leb_le; lia. }
  rewrite Hchk, andb_false_r. cbn [bins log_Printf]. rewrite Hrows.
  destruct (Client.fillLevelThreshold c <=? BinStatusUpdate.FillLevel status) eqn:Hthr.
  - cbn [bins log_Printf drivers logged dispatch_requests].
    unfold BinRepository.GetByDeviceID. rewrite Hget, Hfind.
    cbn [bins log_Printf drivers logged dispatch_requests].
    split; [reflexivity|]. split; [reflexivity|]. intros _. apply last_snoc.
  - cbn [bins dispatch_requests]. split; [reflexivity|]. split; [reflexivity|].
    intros Hle. apply Z.leb_gt in Hthr. lia.
Qed.

(** The witness of X13: a full bin that was never registered. *)
Lemma report_of_unknown_device_is_lost_witness :
  let env := mkIntakeEnv (fun _ => inr (BinStatusUpdate.mk "BIN-9" 99)) None None None 5000
                         (fun _ _ rows => rows) 900%N in
  let w' := mqtt.processBinStatus mqtt.NewClient env "bin-9 reports 99" backend_sample in
  bins w' = bins backend_sample /\ dispatch_requests w' = [] /\
  last (logged w') = Some (LogBinDetailsFailed None).
Proof.
  cbv zeta.
  destruct (report_of_unknown_device_is_lost mqtt.NewClient
              (mkIntakeEnv (fun _ => inr (BinStatusUpdate.mk "BIN-9" 99)) None None None 5000
                           (fun _ _ rows => rows) 900%N)
              "bin-9 reports 99" backend_sample (BinStatusUpdate.mk "BIN-9" 99))
    as (Hb & Hd & Hl).
  - reflexivity.
  - simpl. lia.
  - reflexivity.
  - reflexivity.
  - simpl. intros [H|[]]. discriminate.
  - split; [exact Hb|]. split; [exact Hd|]. apply Hl. simpl. lia.
Defined.

(** [sendFCMNotification] writes one line and returns nil. *)
Lemma sendFCMNotification_logs_one_line (driver : Driver.t) (notification : Notification.t)
    (w : Backend) :
  exists line,
    NotificationService.sendFCMNotification driver notification w = (log_Printf line w, None) /\
    line = match Driver.FCMToken driver with
           | None => LogNoToken (Driver.ID driver)
           | Some token =>
               if String.eqb token ""
               then LogNoToken (Driver.ID driver)
               else LogPush (Driver.ID driver) token (Notification.Title notification)
                            (Notification.Message notification)
           end.
Proof.
  unfold NotificationService.sendFCMNotification.
  destruct (Driver.FCMToken driver) as [token|]; [destruct (String.eqb token "")|];
    eexists; split; reflexivity.
Qed.

(** X14. [NotifyNearestDriver] writes nothing but the log: the bins, the
    drivers and the dispatch requests are as before, and the log is the old one followed by
    the line that names the bin and its position and whatever follows it. *)
Theorem NotifyNearestDriver_writes_only_the_log (env : IntakeEnv) (bin : Bin.t) (w : Backend) :
  let w' := fst (NotificationService.NotifyNearestDriver env bin w) in
  bins w' = bins w /\ drivers w' = drivers w /\ dispatch_requests w' = dispatch_requests w /\
  exists lines,
    logged w' =
      (logged w
       ++ LogFindingDriver (Bin.DeviceID bin) (Bin.Latitude bin) (Bin.Longitude bin) :: lines)%list.
Proof.
  unfold NotificationService.NotifyNearestDriver.
  destruct (DriverRepository.GetNearestDriver _ _ _ _ _) as [err|[driver|]]; cbn zeta.
  - cbn. repeat split. exists []. reflexivity.
  - destruct (Bin.LocationName bin) as [name|].
    + match goal with |- context [NotificationService.sendFCMNotification ?d ?n ?w0] =>
        destruct (sendFCMNotification_logs_one_line d n w0) as (line & -> & _) end.
      cbn. repeat split. eexists [_; _]. rewrite <- !app_assoc. reflexivity.
    + cbn. repeat split. exists []. reflexivity.
  - cbn. repeat split. eexists [_]. rewrite <- !app_assoc. reflexivity.
Qed.

(** X15. No call of [NotifyNearestDriver] gets past the lookup of the
    driver: whatever the bin, the drivers and the state of the database, it
    logs the search line and returns "failed to find nearest driver" around
    the error of the lookup, which on a working database is the one of the
    [distance] column.  So it never panics, never reports success, never logs
    that no driver is available, and never pushes a notification. *)
Theorem NotifyNearestDriver_never_gets_a_driver (env : IntakeEnv) (bin : Bin.t) (w : Backend) :
  NotificationService.NotifyNearestDriver env bin w =
    (log_Printf (LogFindingDriver (Bin.DeviceID bin) (Bin.Latitude bin) (Bin.Longitude bin)) w,
     Returned (Some (Wrapf "failed to find nearest driver"
                       match err_GetNearestDriver env with
                       | Some e => DBError e
                       | None => Errorf "missing destination name distance in *models.Driver"
                       end))).
Proof.
  unfold NotificationService.NotifyNearestDriver. rewrite GetNearestDriver_fails.
  reflexivity.
Qed.

(** ** The routes *)

(** The primary key: a row is what the lookup by its id finds. *)
Lemma row_of_in (rows : list Bin.t) (b : Bin.t) :
  NoDup (map Bin.ID rows) -> In b rows -> row_of rows (Bin.ID b) = Some b.
Proof.
  unfold row_of. induction rows as [|r rows IH]; intros Hnd Hin; [destruct Hin|].
  simpl in Hnd. apply NoDup_cons in Hnd as [Hnotin Hnd]. simpl.
  destruct Hin as [->|Hin].
  - rewrite N.eqb_refl. reflexivity.
  - destruct (N.eqb_spec (Bin.ID r) (Bin.ID b)) as [E|E].
    + exfalso. apply Hnotin. rewrite E. apply list_elem_of_In, in_map, Hin.
    + apply IH; assumption.
Qed.

Lemma row_of_some (rows : list Bin.t) (id : UUID) (b : Bin.t) :
  row_of rows id = Some b -> In b rows /\ Bin.ID b = id.
Proof.
  unfold row_of. intros H. apply find_some in H as [Hin Hid].
  apply N.eqb_eq in Hid. split; assumption.
Qed.

Lemma NoDup_ids_filter (p : Bin.t -> bool) (rows : list Bin.t) :
  NoDup (map Bin.ID rows) -> NoDup (map Bin.ID (List.filter p rows)).
Proof.
  induction rows as [|r rows IH]; intros Hnd; [exact Hnd|].
  simpl in Hnd. apply NoDup_cons in Hnd as [Hnotin Hnd]. simpl.
  destruct (p r); [|apply IH, Hnd].
  simpl. apply NoDup_cons. split; [|apply IH, Hnd].
  intros Hin. apply Hnotin. apply list_elem_of_In in Hin. apply list_elem_of_In.
  apply in_map_iff in Hin as (b & Hb & Hin). apply filter_In in Hin as [Hin _].
  rewrite <- Hb. apply in_map, Hin.
Qed.

Lemma number_from_ids (k : nat) (l : list Bin.t) :
  map Waypoint.BinID (RouteService.number_from k l) = map Bin.ID l.
Proof.
  revert k. induction l as [|b l IH]; intros k; simpl; [reflexivity|].
  rewrite IH. reflexivity.
Qed.

Lemma number_from_orders (k : nat) (l : list Bin.t) :
  map Waypoint.Order (RouteService.number_from k l) = map Z.of_nat (seq (S k) (length l)).
Proof.
  revert k. induction l as [|b l IH]; intros k; simpl; [reflexivity|].
  rewrite IH. f_equal. lia.
Qed.

Lemma number_from_bins (k : nat) (l : list Bin.t) :
  Forall (fun wp => exists b, In b l /\ wp = RouteService.waypoint_of b (Waypoint.Order wp))
         (RouteService.number_from k l).
Proof.
  revert k. induction l as [|b l IH]; intros k; simpl; constructor.
  - exists b. split; [left; reflexivity | reflexivity].
  - specialize (IH (S k)). revert IH. apply List.Forall_impl.
    intros wp (b' & Hb' & Hwp). exists b'. split; [right; exact Hb' | exact Hwp].
Qed.

(** The lookups of [OptimizeRoute] do not see the Directions service. *)
Lemma resolve_bins_with_directions
    (directions' : float -> float -> list Waypoint.t -> DirectionsReply) (env : RouteEnv)
    (rows : list Bin.t) (binIDs : list UUID) (acc : list Bin.t) :
  RouteService.resolve_bins (with_directions directions' env) rows binIDs acc =
  RouteService.resolve_bins env rows binIDs acc.
Proof.
  revert acc. induction binIDs as [|id ids IH]; intros acc; simpl; [reflexivity|].
  destruct (BinRepository.GetByID _ _ _) as [e|[b|]]; [reflexivity | apply IH | apply IH].
Qed.

(** The first loop stops at the first lookup that fails. *)
Lemma resolve_bins_first_error (env : RouteEnv) (rows : list Bin.t) (before after : list UUID)
    (id : UUID) (e : string) (acc : list Bin.t) :
  (forall i, In i before -> err_bin_GetByID env i = None) ->
  err_bin_GetByID env id = Some e ->
  RouteService.resolve_bins env rows (before ++ id :: after)%list acc =
    inl (Wrapf ("failed to get bin " ++ uuid_String id) (DBError e)).
Proof.
  intros Hok Herr. revert acc. induction before as [|i before IH]; intros acc; simpl.
  - unfold BinRepository.GetByID. rewrite Herr. reflexivity.
  - unfold BinRepository.GetByID. rewrite (Hok i) by (left; reflexivity).
    assert (Hok' : forall j, In j before -> err_bin_GetByID env j = None)
      by (intros j Hj; apply Hok; right; exact Hj).
    destruct (List.find _ rows); apply (IH Hok').
Qed.

Lemma omap_row_of_known (rows : list Bin.t) (binIDs : list UUID) :
  omap (row_of rows) (known_ids rows binIDs) = omap (row_of rows) binIDs.
Proof.
  unfold known_ids. generalize (row_of rows). intros f.
  induction binIDs as [|id ids IH]; [reflexivity|].
  cbn [List.filter omap list_omap]. destruct (f id) as [b|] eqn:Hrow.
  - rewrite bool_decide_eq_true_2 by (eexists; reflexivity).
    cbn [omap list_omap]. rewrite Hrow. f_equal. exact IH.
  - rewrite bool_decide_eq_false_2 by (intros [b Hb]; discriminate). exact IH.
Qed.

(** What [encoding/json] names in its error: the text of a NaN or of an
    infinity. *)
Lemma unsupported_float_text (x : float) (v : string) :
  unsupported_float x = Some v -> In v ["NaN"; "+Inf"; "-Inf"].
Proof.
  unfold unsupported_float. destruct (Prim2SF x) as [sg|[|]| |sg m e]; intros H;
    try discriminate; injection H as <-; simpl; tauto.
Qed.

Lemma unsupported_value_text (wps : list Waypoint.t) (v : string) :
  RouteService.unsupported_value wps = Some v -> In v ["NaN"; "+Inf"; "-Inf"].
Proof.
  induction wps as [|wp wps IH]; simpl; [discriminate|].
  destruct (unsupported_float (Waypoint.Latitude wp)) as [v1|] eqn:H1.
  - intros H. injection H as <-. apply (unsupported_float_text _ _ H1).
  - destruct (unsupported_float (Waypoint.Longitude wp)) as [v2|] eqn:H2; [|exact IH].
    intros H. injection H as <-. apply (unsupported_float_text _ _ H2).
Qed.

Section Routes.

Variables (math_Sin math_Cos : float -> float) (math_Atan2 : float -> float -> float).
Variable sort_Slice : (Bin.t -> Bin.t -> bool) -> list Bin.t -> list Bin.t.

Local Abbreviation optimizeByDistance :=
  (RouteService.optimizeByDistance math_Sin math_Cos math_Atan2).
Local Abbreviation optimizeByFillLevel :=
  (RouteService.optimizeByFillLevel math_Sin math_Cos math_Atan2 sort_Slice).
Local Abbreviation strategy_waypoints :=
  (RouteService.strategy_waypoints math_Sin math_Cos math_Atan2 sort_Slice).
Local Abbreviation OptimizeRoute :=
  (RouteService.OptimizeRoute math_Sin math_Cos math_Atan2 sort_Slice).

Lemma optimizeByFillLevel_visits_every_bin_ids (bins : list Bin.t)
    (driverLat driverLng : float) :
  (forall less l, Permutation (sort_Slice less l) l) ->
  Permutation (map Waypoint.BinID (optimizeByFillLevel bins driverLat driverLng))
              (map Bin.ID bins).
Proof.
  intros Hperm. unfold RouteService.optimizeByFillLevel.
  rewrite number_from_ids. apply Permutation_map, Hperm.
Qed.

(** X18. The fill-level strategy returns on every input and visits every
    bin as often as it is listed: its waypoints are built from the bins, none
    added and none lost, and numbered 1..n.  All it needs of [sort.Slice] is
    that it rearranges the slice. *)
Theorem optimizeByFillLevel_visits_every_bin (bins : list Bin.t) (driverLat driverLng : float) :
  (forall less l, Permutation (sort_Slice less l) l) ->
  Permutation (map Waypoint.BinID (optimizeByFillLevel bins driverLat driverLng))
              (map Bin.ID bins) /\
  map Waypoint.Order (optimizeByFillLevel bins driverLat driverLng) =
    map Z.of_nat (seq 1 (length bins)) /\
  Forall (fun wp => exists b, In b bins /\ wp = RouteService.waypoint_of b (Waypoint.Order wp))
         (optimizeByFillLevel bins driverLat driverLng).
Proof.
  intros Hperm0. unfold RouteService.optimizeByFillLevel.
  set (less := RouteService.fill_level_less math_Sin math_Cos math_Atan2 driverLat driverLng).
  pose proof (Hperm0 less bins) as Hperm. split; [|split].
  - apply optimizeByFillLevel_visits_every_bin_ids. exact Hperm0.
  - rewrite number_from_orders. rewrite (Permutation_length Hperm). reflexivity.
  - pose proof (number_from_bins 0 (sort_Slice less bins)) as H. revert H.
    apply List.Forall_impl. intros wp (b & Hb & Hwp). exists b.
    split; [apply (Permutation_in _ Hperm), Hb | exact Hwp].
Qed.

(** X19. The Directions service decides nothing but the two metrics: with
    any other service in its place the call ends the same way (still running,
    the same error, or a route), and the route has the same stops in the same
    order, the same JSON text and the same status.  Without an API key the
    result does not depend on the service at all. *)
Theorem directions_change_only_the_metrics (s : RouteService.t) (env : RouteEnv)
    (directions' : float -> float -> list Waypoint.t -> DirectionsReply)
    (fuel : nat) (rows : list Bin.t) (driverLat driverLng : float) (binIDs : list UUID)
    (optimizeBy : string) :
  same_outcome_but_metrics
    (OptimizeRoute s env fuel rows driverLat driverLng binIDs optimizeBy)
    (OptimizeRoute s (with_directions directions' env) fuel rows driverLat driverLng binIDs
       optimizeBy) /\
  (RouteService.googleKey s = "" ->
   OptimizeRoute s (with_directions directions' env) fuel rows driverLat driverLng binIDs
     optimizeBy =
   OptimizeRoute s env fuel rows driverLat driverLng binIDs optimizeBy).
Proof.
  unfold RouteService.OptimizeRoute. rewrite resolve_bins_with_directions.
  destruct (RouteService.resolve_bins env rows binIDs []) as [err|[|b bins]];
    [split; reflexivity | split; reflexivity |].
  destruct (RouteService.strategy_waypoints _ _ _ _ _ _ _ _ _) as [wps|];
    [|split; [exact I | reflexivity]].
  destruct (RouteService.calculateRouteMetrics _ _ _ _ _ _) as [totalDistance duration].
  change (RouteService.json_Marshal (with_directions directions' env) wps)
    with (RouteService.json_Marshal env wps).
  destruct (RouteService.json_Marshal env wps) as [err|waypointsJSON];
    [split; reflexivity|].
  change (route_id (with_directions directions' env)) with (route_id env).
  split.
  - destruct (negb (String.eqb (RouteService.googleKey s) "")).
    + destruct (RouteService.getGoogleMapsRoute s env _ _ _),
               (RouteService.getGoogleMapsRoute s (with_directions directions' env) _ _ _);
        repeat split.
    + repeat split.
  - intros ->. reflexivity.
Qed.

(** X20. A lookup that fails ends the call at once, with the error of the
    first such id wrapped in "failed to get bin <id>": whatever strategy was
    asked for, no loop is entered, so this also holds for a list with a
    repeated id and with no fuel at all. *)
Theorem OptimizeRoute_returns_the_first_lookup_error (s : RouteService.t) (env : RouteEnv)
    (fuel : nat) (rows : list Bin.t) (driverLat driverLng : float)
    (before after : list UUID) (id : UUID) (e : string) (optimizeBy : string) :
  (forall i, In i before -> err_bin_GetByID env i = None) ->
  err_bin_GetByID env id = Some e ->
  OptimizeRoute s env fuel rows driverLat driverLng (before ++ id :: after)%list optimizeBy =
    Some (inl (Wrapf ("failed to get bin " ++ uuid_String id) (DBError e))).
Proof.
  intros Hok Herr. unfold RouteService.OptimizeRoute.
  rewrite (resolve_bins_first_error env rows before after id e [] Hok Herr). reflexivity.
Qed.

(** X21. An id that names no row is dropped without a word: the call does
    what it does for the ids that name one.  When none does (and for an empty
    list) the error is "no valid bins found". *)
Theorem OptimizeRoute_skips_unknown_ids (s : RouteService.t) (env : RouteEnv)
    (fuel : nat) (rows : list Bin.t) (driverLat driverLng : float) (binIDs : list UUID)
    (optimizeBy : string) :
  (forall i, In i binIDs -> err_bin_GetByID env i = None) ->
  OptimizeRoute s env fuel rows driverLat driverLng binIDs optimizeBy =
    OptimizeRoute s env fuel rows driverLat driverLng (known_ids rows binIDs) optimizeBy /\
  (known_ids rows binIDs = [] ->
   OptimizeRoute s env fuel rows driverLat driverLng binIDs optimizeBy =
     Some (inl (Errorf "no valid bins found"))).
Proof.
  intros Hok.
  assert (Hok' : forall i, In i (known_ids rows binIDs) -> err_bin_GetByID env i = None).
  { intros i Hi. apply filter_In in Hi as [Hi _]. apply Hok, Hi. }
  unfold RouteService.OptimizeRoute.
  rewrite (resolve_bins_all env rows binIDs [] Hok).
  rewrite (resolve_bins_all env rows (known_ids rows binIDs) [] Hok').
  rewrite omap_row_of_known. split; [reflexivity|].
  intros Hnone. rewrite <- omap_row_of_known, Hnone. reflexivity.
Qed.

(** The distance strategy on pairwise different bins returns a tour of all
    of them. *)
Lemma distance_tour_returns (bins : list Bin.t) (driverLat driverLng : float) (fuel : nat) :
  NoDup (map Bin.ID bins) ->
  (forall b, In b bins -> in_range math_Sin math_Cos math_Atan2 driverLat driverLng b) ->
  (forall b b', In b bins -> In b' bins ->
     in_range math_Sin math_Cos math_Atan2 (Bin.Latitude b') (Bin.Longitude b') b) ->
  (length bins <= fuel)%nat ->
  exists wps,
    optimizeByDistance fuel bins driverLat driverLng = Some wps /\
    Permutation (map Waypoint.BinID wps) (map Bin.ID bins).
Proof.
  intros Hnd Hstart Hpairs Hfuel.
  destruct (tour_loop_completes math_Sin math_Cos math_Atan2 bins driverLat driverLng Hnd Hpairs
              (length bins) (RouteService.mkTour [] driverLat driverLng ∅) fuel)
    as (wps & Hloop & Htour).
  - split; [apply tour_inv_start|]. intros id. unfold RouteService.is_visited.
    simpl. rewrite lookup_empty. discriminate.
  - exact Hstart.
  - reflexivity.
  - exact Hfuel.
  - simpl in Hloop, Htour. exists wps. split; [exact Hloop|].
    destruct (nearest_neighbour_tour_facts math_Sin math_Cos math_Atan2 bins driverLat driverLng
                [] wps Htour) as (Hnd' & Hall & Hin & _); [apply NoDup_nil; exact I|].
    simpl in Hnd', Hall.
    apply NoDup_Permutation; [exact Hnd' | exact Hnd |].
    intros id. rewrite !list_elem_of_In. split; [apply Hin|].
    intros Hid. apply in_map_iff in Hid as (b & <- & Hb). apply Hall, Hb.
Qed.

(** X22. The route of the bins that need collection, as the drivers' route
    handler asks for it: the ids of the rows that [GetBinsForRoute] returns
    resolve back to these rows, pairwise different by the primary key, so
    [OptimizeRoute] returns within as many turns as there are bins, with
    either strategy; its waypoints name exactly the active bins at or above
    the threshold, each once.  The table is the same for both calls, no lookup
    fails and the distances are below [math.MaxFloat64]. *)
Theorem route_of_the_bins_needing_collection (s : RouteService.t) (env : RouteEnv)
    (order_by_fill_level : list Bin.t -> list Bin.t) (threshold : Z)
    (fuel : nat) (rows bins : list Bin.t) (driverLat driverLng : float) (optimizeBy : string) :
  NoDup (map Bin.ID rows) ->
  (forall l, Permutation (order_by_fill_level l) l) ->
  (forall less l, Permutation (sort_Slice less l) l) ->
  (forall id, err_bin_GetByID env id = None) ->
  RouteService_GetBinsForRoute None order_by_fill_level threshold rows = inr bins ->
  bins <> [] ->
  (forall b, In b bins -> in_range math_Sin math_Cos math_Atan2 driverLat driverLng b) ->
  (forall b b', In b bins -> In b' bins ->
     in_range math_Sin math_Cos math_Atan2 (Bin.Latitude b') (Bin.Longitude b') b) ->
  (length bins <= fuel)%nat ->
  exists wps,
    strategy_waypoints fuel bins driverLat driverLng optimizeBy = Some wps /\
    (forall id, In id (map Waypoint.BinID wps) <->
                exists b, In b rows /\ Bin.ID b = id /\ Bin.IsActive b = true /\
                          threshold <= Bin.FillLevel b) /\
    NoDup (map Waypoint.BinID wps) /\
    ((exists v, In v ["NaN"; "+Inf"; "-Inf"] /\
        OptimizeRoute s env fuel rows driverLat driverLng (bin_ids bins) optimizeBy =
          Some (inl (Wrapf "failed to marshal waypoints"
                       (Errorf ("json: unsupported value: " ++ v))))) \/
     exists route,
       OptimizeRoute s env fuel rows driverLat driverLng (bin_ids bins) optimizeBy =
         Some (inr route) /\
       DriverRoute.WaypointsList route = wps).
Proof.
  intros Hpk Hord Hsort Herr Hget Hne Hstart Hpairs Hfuel.
  unfold RouteService_GetBinsForRoute, BinRepository_GetBinsNeedingCollection in Hget.
  injection Hget as Hbins.
  set (needs := fun b : Bin.t => Bin.IsActive b && (threshold <=? Bin.FillLevel b)) in *.
  assert (Hp : Permutation bins (List.filter needs rows)) by (rewrite <- Hbins; apply Hord).
  assert (Hnd : NoDup (map Bin.ID bins)).
  { rewrite (Permutation_map Bin.ID Hp). apply NoDup_ids_filter, Hpk. }
  assert (Hres : forall l, (forall b, In b l -> In b rows) ->
                           omap (row_of rows) (map Bin.ID l) = l).
  { induction l as [|b l IH]; intros Hl; [reflexivity|]. cbn [map omap list_omap].
    rewrite (row_of_in rows b Hpk) by (apply Hl; left; reflexivity).
    f_equal. apply IH. intros b' Hb'. apply Hl. right. exact Hb'. }
  assert (Hsub : forall b, In b bins -> In b rows).
  { intros b Hb. apply (Permutation_in _ Hp) in Hb. apply filter_In in Hb. tauto. }
  assert (Hwps : exists wps,
            strategy_waypoints fuel bins driverLat driverLng optimizeBy = Some wps /\
            Permutation (map Waypoint.BinID wps) (map Bin.ID bins)).
  { unfold RouteService.strategy_waypoints. destruct (String.eqb optimizeBy "fill_level").
    - eexists. split; [reflexivity|].
      apply (optimizeByFillLevel_visits_every_bin_ids bins driverLat driverLng Hsort).
    - apply distance_tour_returns; assumption. }
  destruct Hwps as (wps & Hstrategy & Hperm).
  exists wps. split; [exact Hstrategy|]. split; [|split].
  - intros id. split.
    + intros Hid. apply (Permutation_in _ Hperm) in Hid.
      apply in_map_iff in Hid as (b & Hb & Hin). exists b.
      apply (Permutation_in _ Hp) in Hin. apply filter_In in Hin as [Hin Hneeds].
      unfold needs in Hneeds. apply andb_true_iff in Hneeds as [Hact Hthr].
      apply Z.leb_le in Hthr. tauto.
    + intros (b & Hin & Hb & Hact & Hthr).
      apply (Permutation_in _ (Permutation_sym Hperm)). rewrite <- Hb. apply in_map.
      apply (Permutation_in _ (Permutation_sym Hp)). apply filter_In. split; [exact Hin|].
      unfold needs. rewrite Hact. apply Z.leb_le. exact Hthr.
  - rewrite Hperm. exact Hnd.
  - unfold RouteService.OptimizeRoute, bin_ids.
    rewrite (resolve_bins_all env rows (map Bin.ID bins) []) by (intros i _; apply Herr).
    rewrite (Hres bins Hsub). simpl app.
    destruct bins as [|b0 bins0] eqn:Ebins; [contradiction|]. rewrite <- Ebins in *.
    fold strategy_waypoints. rewrite Hstrategy.
    destruct (RouteService.calculateRouteMetrics _ _ _ _ _ _) as [totalDistance duration].
    unfold RouteService.json_Marshal.
    destruct (RouteService.unsupported_value wps) as [v|] eqn:Hv;
      [left; exists v; split; [apply (unsupported_value_text wps v Hv) | reflexivity]|].
    right.
    destruct (negb (String.eqb (RouteService.googleKey s) ""));
      [destruct (RouteService.getGoogleMapsRoute s env _ _ _)|];
      eexists; split; reflexivity.
Qed.

End Routes.

(** The witness of X18: the three sample bins, sorted by insertion. *)
Lemma optimizeByFillLevel_visits_every_bin_witness :
  Permutation
    (map Waypoint.BinID
       (RouteService.optimizeByFillLevel small_angle_Sin small_angle_Cos small_angle_Atan2
          insertion_sort route_rows 36%float 3%float))
    [1%N; 2%N; 3%N].
Proof.
  apply (optimizeByFillLevel_visits_every_bin small_angle_Sin small_angle_Cos small_angle_Atan2
           insertion_sort route_rows 36%float 3%float).
  intros less l. apply insertion_sort_Permutation.
Defined.

(** The witness of X20: the database goes away at the third lookup, after
    bin 1 was found twice. *)
Lemma OptimizeRoute_returns_the_first_lookup_error_witness :
  RouteService.OptimizeRoute small_angle_Sin small_angle_Cos small_angle_Atan2 insertion_sort
    (RouteService.mk "key")
    (mkRouteEnv (fun id => if N.eqb id 2 then Some "connection refused" else None) 700%N
                (fun _ => "[...]") (fun _ _ _ => GetFailed (Errorf "timeout")))
    0 route_rows 36%float 3%float [1%N; 1%N; 2%N; 3%N] "distance" =
  Some (inl (Wrapf "failed to get bin 2" (DBError "connection refused"))).
Proof.
  apply (OptimizeRoute_returns_the_first_lookup_error small_angle_Sin small_angle_Cos
           small_angle_Atan2 insertion_sort (RouteService.mk "key")
           (mkRouteEnv (fun id => if N.eqb id 2 then Some "connection refused" else None) 700%N
                       (fun _ => "[...]") (fun _ _ _ => GetFailed (Errorf "timeout")))
           0 route_rows 36%float 3%float [1%N; 1%N] [3%N] 2%N "connection refused" "distance").
  - intros i [<-|[<-|[]]]; reflexivity.
  - reflexivity.
Defined.

(** The witness of X21: ids 8 and 9 name no row. *)
Lemma OptimizeRoute_skips_unknown_ids_witness :
  RouteService.OptimizeRoute small_angle_Sin small_angle_Cos small_angle_Atan2 insertion_sort
    (RouteService.mk "") route_env_down 3 route_rows 36%float 3%float [9%N; 2%N; 8%N; 1%N]
    "distance" =
  RouteService.OptimizeRoute small_angle_Sin small_angle_Cos small_angle_Atan2 insertion_sort
    (RouteService.mk "") route_env_down 3 route_rows 36%float 3%float [2%N; 1%N] "distance" /\
  RouteService.OptimizeRoute small_angle_Sin small_angle_Cos small_angle_Atan2 insertion_sort
    (RouteService.mk "") route_env_down 3 route_rows 36%float 3%float [9%N; 8%N] "distance" =
  Some (inl (Errorf "no valid bins found")).
Proof.
  split.
  - apply (OptimizeRoute_skips_unknown_ids small_angle_Sin small_angle_Cos small_angle_Atan2
             insertion_sort (RouteService.mk "") route_env_down 3 route_rows 36%float 3%float
             [9%N; 2%N; 8%N; 1%N] "distance").
    intros i _. reflexivity.
  - apply (OptimizeRoute_skips_unknown_ids small_angle_Sin small_angle_Cos small_angle_Atan2
             insertion_sort (RouteService.mk "") route_env_down 3 route_rows 36%float 3%float
             [9%N; 8%N] "distance").
    + intros i _. reflexivity.
    + reflexivity.
Defined.

(** The witness of X22: of the three sample bins, two are at 95 %. *)
Lemma route_of_the_bins_needing_collection_witness :
  exists wps,
    RouteService.strategy_waypoints small_angle_Sin small_angle_Cos small_angle_Atan2
      insertion_sort 2 [bin_b; bin_c] 36%float 3%float "distance" = Some wps /\
    NoDup (map Waypoint.BinID wps).
Proof.
  destruct (route_of_the_bins_needing_collection small_angle_Sin small_angle_Cos
              small_angle_Atan2 insertion_sort (RouteService.mk "") route_env_down
              (fun l => l) 80 2 route_rows [bin_b; bin_c] 36%float 3%float "distance")
    as (wps & Hwps & _ & Hnd & _).
  - apply (bool_decide_unpack _). vm_compute. exact I.
  - intros l. reflexivity.
  - intros less l. apply insertion_sort_Permutation.
  - intros id. reflexivity.
  - reflexivity.
  - discriminate.
  - intros b [<-|[<-|[]]]; vm_compute; reflexivity.
  - intros b b' [<-|[<-|[]]] [<-|[<-|[]]]; vm_compute; reflexivity.
  - simpl. lia.
  - exists wps. split; [exact Hwps | exact Hnd].
Defined.

(** ** Collection *)

(** The rows that need collection once bin [id] has been emptied. *)
Lemma needing_collection_after_MarkCollected (time_now db_now : Timestamp) (id : UUID)
    (threshold : Z) (rows : list Bin.t) :
  0 < threshold ->
  List.filter (fun b => Bin.IsActive b && (threshold <=? Bin.FillLevel b))
              (fst (BinRepository_MarkCollected None time_now db_now id rows)) =
  List.filter (fun b => Bin.IsActive b && (threshold <=? Bin.FillLevel b)
                        && negb (N.eqb (Bin.ID b) id)) rows.
Proof.
  intros Hthr. unfold BinRepository_MarkCollected. cbn [fst].
  induction rows as [|b rows IH]; [reflexivity|]. cbn [map List.filter].
  destruct (N.eqb (Bin.ID b) id) eqn:Hid.
  - cbn [Bin.IsActive Bin.FillLevel]. replace (threshold <=? 0) with false
      by (symmetry; apply Z.leb_gt; exact Hthr).
    rewrite !andb_false_r. exact IH.
  - rewrite andb_true_r. destruct (Bin.IsActive b && (threshold <=? Bin.FillLevel b));
      [f_equal|]; exact IH.
Qed.

(** X23. Emptying a bin takes it off the list of the bins that need
    collection, for every threshold above zero, and leaves the list of the
    others as it was: [MarkCollected] sets the level of the rows with that id
    to 0 and stamps the collection, touches no other row, keeps every level a
    percentage, and [GetBinsForRoute] then returns the other active bins at or
    above the threshold. *)
Theorem collected_bin_leaves_the_route_list (order_by_fill_level : list Bin.t -> list Bin.t)
    (time_now db_now : Timestamp) (id : UUID) (threshold : Z) (rows : list Bin.t) :
  0 < threshold ->
  (forall l, Permutation (order_by_fill_level l) l) ->
  let rows' := fst (BinRepository_MarkCollected None time_now db_now id rows) in
  map Bin.ID rows' = map Bin.ID rows /\
  (forall (i : nat) (b : Bin.t), rows !! i = Some b -> Bin.ID b <> id -> rows' !! i = Some b) /\
  (forall b', In b' rows' -> Bin.ID b' = id ->
     Bin.FillLevel b' = 0 /\ Bin.LastCollectionAt b' = Some time_now) /\
  (Forall fill_level_ok rows -> Forall fill_level_ok rows') /\
  exists bins,
    RouteService_GetBinsForRoute None order_by_fill_level threshold rows' = inr bins /\
    ~ In id (map Bin.ID bins) /\
    Permutation bins
      (List.filter (fun b => Bin.IsActive b && (threshold <=? Bin.FillLevel b)
                             && negb (N.eqb (Bin.ID b) id)) rows).
Proof.
  intros Hthr Hord rows'.
  pose proof (needing_collection_after_MarkCollected time_now db_now id threshold rows Hthr)
    as Hfilter.
  fold rows' in Hfilter.
  assert (Hrows : rows' = map (fun b =>
              if N.eqb (Bin.ID b) id
              then Bin.mk (Bin.ID b) (Bin.DeviceID b) (Bin.LocationName b) (Bin.Latitude b)
                          (Bin.Longitude b) 0 (Bin.WasteType b) (Bin.CapacityLiters b)
                          (Some time_now) db_now (Bin.IsActive b) (Bin.CompanyID b)
                          (Bin.CreatedAt b)
              else b) rows) by reflexivity.
  split; [|split; [|split; [|split]]].
  - rewrite Hrows, map_map. apply map_ext. intros b. destruct (N.eqb _ _); reflexivity.
  - intros i b Hb Hne. rewrite Hrows, list_lookup_fmap, Hb. simpl.
    apply N.eqb_neq in Hne. rewrite Hne. reflexivity.
  - intros b' Hin Hid. rewrite Hrows in Hin. apply in_map_iff in Hin as (b & Hb' & _).
    destruct (N.eqb_spec (Bin.ID b) id) as [E|E].
    + subst b'. split; reflexivity.
    + subst b'. contradiction.
  - intros Hok. rewrite Hrows. apply List.Forall_map. revert Hok. apply List.Forall_impl.
    intros b Hb. destruct (N.eqb _ _); [unfold fill_level_ok; simpl; lia | exact Hb].
  - unfold RouteService_GetBinsForRoute, BinRepository_GetBinsNeedingCollection.
    eexists. split; [reflexivity|]. rewrite Hfilter.
    pose proof (Hord (List.filter (fun b => Bin.IsActive b && (threshold <=? Bin.FillLevel b)
                                            && negb (N.eqb (Bin.ID b) id)) rows)) as Hp.
    split; [|exact Hp].
    intros Hin. apply in_map_iff in Hin as (b & Hb & Hin).
    apply (Permutation_in _ Hp) in Hin. apply filter_In in Hin as [_ Hcond].
    apply andb_true_iff in Hcond as [_ Hcond]. apply negb_true_iff, N.eqb_neq in Hcond.
    contradiction.
Qed.

(** The witness of X23: bin 2 of the three sample bins is emptied; bin 3
    still needs collection. *)
Lemma collected_bin_leaves_the_route_list_witness :
  RouteService_GetBinsForRoute None (fun l => l) 80
    (fst (BinRepository_MarkCollected None 6000 6001 2%N route_rows)) = inr [bin_c].
Proof.
  destruct (collected_bin_leaves_the_route_list (fun l => l) 6000 6001 2%N 80 route_rows)
    as (_ & _ & _ & _ & bins & Hget & _ & _).
  - lia.
  - intros l. reflexivity.
  - rewrite Hget. injection Hget as <-. reflexivity.
Defined.
